(** * Operational scripts of the Solr deployment: a verification development

    The development embeds four Python scripts:

    - [scripts/hash-password.py]: salted double SHA-256 password records
      (modules [Sha256], [Base64], [PyStr], [HashPassword]);
    - [scripts/health-api.py]: the health aggregator ([HealthApi]);
    - [scripts/add-query-performance-dashboard.py] and
      [scripts/add-grafana-templating.py]: dashboard rewriting ([Dashboard]).

    Python values are embedded as follows.  A [str] is the list of its code
    points, a [bytes] object a list of [Byte.byte], a parsed JSON document an
    inductive tree whose numbers are Python's: an [int] of any size or a
    [float] (an IEEE 754 binary64 value).  A computation that may raise
    returns a [result]; a computation that also draws from the system entropy
    source threads an entropy tape. *)

From Stdlib Require Import List NArith ZArith Lia Bool String Ascii.
From Stdlib.Strings Require Import Byte.
From Stdlib Require Floats.
Import ListNotations.

(** ** Python strings, bytes and exceptions *)

(** A Python [str]: its sequence of code points. *)
Definition pystr := list N.

(** A Python [bytes] object. *)
Definition bytes := list byte.

(** An ASCII literal of the source, as a [pystr]. *)
Definition lit (s : string) : pystr := map N_of_ascii (list_ascii_of_string s).

Definition pystr_eqb (a b : pystr) : bool :=
  if list_eq_dec N.eq_dec a b then true else false.

Definition byte_of_N (n : N) : byte :=
  match Byte.of_N (n mod 256) with Some b => b | None => x00 end.

(** The exception classes the scripts can meet. *)
Inductive exn : Type :=
| UnicodeEncodeError
| UnicodeDecodeError
| ValueError
| BinasciiError
| AttributeError
| TypeError
| KeyError
| JSONDecodeError
| OSError.

(** [except Exception]: every class above derives from [Exception]. *)
Definition is_Exception (_ : exn) : bool := true.

Inductive result (A : Type) : Type :=
| Ok (a : A)
| Raise (e : exn).
Arguments Ok {A} a.
Arguments Raise {A} e.

Definition rbind {A B} (r : result A) (k : A -> result B) : result B :=
  match r with Ok a => k a | Raise e => Raise e end.

(** ** SHA-256 (FIPS 180-4), as computed by [hashlib.sha256(...).digest()] *)

Module Sha256.
Local Open Scope N_scope.

Definition modulus : N := 2 ^ 32.
Definition ones : N := modulus - 1.

Definition add32 (x y : N) : N := (x + y) mod modulus.
Definition rotr (n x : N) : N :=
  N.lor (N.shiftr x n) (N.shiftl x (32 - n) mod modulus).
Definition shr (n x : N) : N := N.shiftr x n.
Definition neg32 (x : N) : N := N.lxor x ones.

Definition Ch (x y z : N) : N := N.lxor (N.land x y) (N.land (neg32 x) z).
Definition Maj (x y z : N) : N :=
  N.lxor (N.lxor (N.land x y) (N.land x z)) (N.land y z).
Definition bsig0 (x : N) : N := N.lxor (N.lxor (rotr 2 x) (rotr 13 x)) (rotr 22 x).
Definition bsig1 (x : N) : N := N.lxor (N.lxor (rotr 6 x) (rotr 11 x)) (rotr 25 x).
Definition ssig0 (x : N) : N := N.lxor (N.lxor (rotr 7 x) (rotr 18 x)) (shr 3 x).
Definition ssig1 (x : N) : N := N.lxor (N.lxor (rotr 17 x) (rotr 19 x)) (shr 10 x).

(** The constants are the leading 32 fractional bits of the square roots
    (initial hash value) and cube roots (round constants) of the first
    primes; they are derived here rather than tabulated. *)

Definition is_prime (n : N) : bool :=
  (1 <? n) &&
  forallb (fun d => negb (n mod d =? 0) || (n <=? d))
          (map N.of_nat (seq 2 (N.to_nat (N.sqrt n)))).

Definition first_primes (k : nat) : list N :=
  firstn k (filter is_prime (map N.of_nat (seq 0 320))).

(** Integer cube root by binary search on the bits of the root. *)
Fixpoint cbrt_bits (bit : nat) (n r : N) : N :=
  match bit with
  | O => r
  | S b =>
      let c := r + 2 ^ N.of_nat b in
      cbrt_bits b n (if c * c * c <=? n then c else r)
  end.
Definition cbrt (n : N) : N := cbrt_bits 64 n 0.

Definition K : list N :=
  Eval vm_compute in map (fun p => cbrt (p * 2 ^ 96) mod modulus) (first_primes 64).

Definition H0 : list N :=
  Eval vm_compute in map (fun p => N.sqrt (p * 2 ^ 64) mod modulus) (first_primes 8).

(** Message padding: a one bit, zero bits, then the bit length on 64 bits. *)
Definition be_bytes (width : nat) (x : N) : list N :=
  map (fun i => N.shiftr x (8 * N.of_nat i) mod 256) (rev (seq 0 width)).

Definition pad (msg : list N) : list N :=
  let len := N.of_nat (List.length msg) in
  let zeros := (64 - (len + 9) mod 64) mod 64 in
  msg ++ [128] ++ repeat 0 (N.to_nat zeros) ++ be_bytes 8 (8 * len).

Fixpoint chunks (size count : nat) (l : list N) : list (list N) :=
  match count with
  | O => []
  | S c => firstn size l :: chunks size c (skipn size l)
  end.

Definition be_word (bs : list N) : N :=
  fold_left (fun acc b => acc * 256 + b) bs 0.

Definition words_of_block (block : list N) : list N :=
  map be_word (chunks 4 16 block).

(** The working variables a..h. *)
Record regs : Type := Regs { ra : N; rb : N; rc : N; rd : N; re : N; rf : N; rg : N; rh : N }.

Definition regs_of_list (l : list N) : regs :=
  Regs (nth 0 l 0) (nth 1 l 0) (nth 2 l 0) (nth 3 l 0)
       (nth 4 l 0) (nth 5 l 0) (nth 6 l 0) (nth 7 l 0).
Definition list_of_regs (r : regs) : list N :=
  [ra r; rb r; rc r; rd r; re r; rf r; rg r; rh r].

(** One round.  The message schedule is kept as a window of the sixteen most
    recent words: its head is W(t), and W(t+16) is appended. *)
Definition round (st : regs * list N) (k : N) : regs * list N :=
  let (r, win) := st in
  let wt := nth 0 win 0 in
  let t1 := add32 (add32 (add32 (add32 (rh r) (bsig1 (re r))) (Ch (re r) (rf r) (rg r))) k) wt in
  let t2 := add32 (bsig0 (ra r)) (Maj (ra r) (rb r) (rc r)) in
  let wnext := add32 (add32 (add32 (ssig1 (nth 14 win 0)) (nth 9 win 0))
                            (ssig0 (nth 1 win 0))) wt in
  (Regs (add32 t1 t2) (ra r) (rb r) (rc r) (add32 (rd r) t1) (re r) (rf r) (rg r),
   tl win ++ [wnext]).

Definition compress (h : list N) (block : list N) : list N :=
  let (r, _) := fold_left round K (regs_of_list h, words_of_block block) in
  map (fun p => add32 (fst p) (snd p)) (combine h (list_of_regs r)).

Definition digest_words (msg : list N) : list N :=
  let padded := pad msg in
  fold_left compress (chunks 64 (List.length padded / 64) padded) H0.

Definition sha256 (msg : bytes) : bytes :=
  map byte_of_N (flat_map (be_bytes 4) (digest_words (map Byte.to_N msg))).

End Sha256.

(** ** Base64, as [base64.b64encode] and [base64.b64decode] compute it *)

Module Base64.
Local Open Scope N_scope.

Definition alphabet : pystr :=
  lit "ABCDEFGHIJKLMNOPQRSTUVWXYZabcdefghijklmnopqrstuvwxyz0123456789+/".

(** [table_b2a_base64]: the character of a six-bit value. *)
Definition b2a (v : N) : N := nth (N.to_nat v) alphabet 0.

(** ['='] *)
Definition PAD : N := 61.

(** RFC 4648 encoding with padding, three input bytes to four characters. *)
Fixpoint encode_groups (l : list N) : pystr :=
  match l with
  | [] => []
  | [a] =>
      [b2a (N.shiftr a 2); b2a (N.shiftl (N.land a 3) 4); PAD; PAD]
  | [a; b] =>
      [b2a (N.shiftr a 2);
       b2a (N.lor (N.shiftl (N.land a 3) 4) (N.shiftr b 4));
       b2a (N.shiftl (N.land b 15) 2); PAD]
  | a :: b :: c :: rest =>
      b2a (N.shiftr a 2)
      :: b2a (N.lor (N.shiftl (N.land a 3) 4) (N.shiftr b 4))
      :: b2a (N.lor (N.shiftl (N.land b 15) 2) (N.shiftr c 6))
      :: b2a (N.land c 63)
      :: encode_groups rest
  end.

(** [base64.b64encode(data).decode('utf-8')]: the output is ASCII, so the
    decoding step cannot fail and yields the same code points. *)
Definition b64encode (data : bytes) : pystr := encode_groups (map Byte.to_N data).

(** [table_a2b_base64]: the six-bit value of a character, if it has one. *)
Fixpoint index_of (c : N) (l : list N) (i : N) : option N :=
  match l with
  | [] => None
  | x :: r => if x =? c then Some i else index_of c r (i + 1)
  end.
Definition a2b (c : N) : option N := index_of c alphabet 0.

(** The decoding loop of [binascii.a2b_base64] in its default, non-strict
    mode: characters outside the alphabet are skipped, a pad character ends
    the input once it completes a quad, and leftover characters of an
    incomplete quad raise [binascii.Error]. *)
Fixpoint a2b_loop (s : list N) (quad_pos : nat) (leftchar : N) (pads : nat)
         (out : list N) : result (list N) :=
  match s with
  | [] => match quad_pos with O => Ok out | _ => Raise BinasciiError end
  | this_ch :: rest =>
      if this_ch =? PAD then
        if (2 <=? quad_pos)%nat then
          if (4 <=? quad_pos + S pads)%nat then Ok out
          else a2b_loop rest quad_pos leftchar (S pads) out
        else a2b_loop rest quad_pos leftchar pads out
      else
        match a2b this_ch with
        | None => a2b_loop rest quad_pos leftchar pads out
        | Some v =>
            match quad_pos with
            | 0%nat => a2b_loop rest 1 v 0 out
            | 1%nat =>
                a2b_loop rest 2 (N.land v 15) 0
                         (out ++ [N.lor (N.shiftl leftchar 2) (N.shiftr v 4) mod 256])
            | 2%nat =>
                a2b_loop rest 3 (N.land v 3) 0
                         (out ++ [N.lor (N.shiftl leftchar 4) (N.shiftr v 2) mod 256])
            | _ =>
                a2b_loop rest 0 0 0
                         (out ++ [N.lor (N.shiftl leftchar 6) v mod 256])
            end
        end
  end.

(** [base64.b64decode(s)] on a [str]: the string is first encoded as ASCII
    ([ValueError] on any other character), then decoded. *)
Definition b64decode (s : pystr) : result bytes :=
  if forallb (fun c => c <? 128) s then
    rbind (a2b_loop s 0 0 0 []) (fun out => Ok (map byte_of_N out))
  else Raise ValueError.

End Base64.

(** ** [str.encode('utf-8')], [str.strip()] and [str.split(' ')] *)

Module PyStr.
Local Open Scope N_scope.

Definition utf8_char (c : N) : result (list N) :=
  if c <? 0x80 then Ok [c]
  else if c <? 0x800 then
    Ok [N.lor 0xC0 (N.shiftr c 6); N.lor 0x80 (N.land c 0x3F)]
  else if (0xD800 <=? c) && (c <=? 0xDFFF) then Raise UnicodeEncodeError
  else if c <? 0x10000 then
    Ok [N.lor 0xE0 (N.shiftr c 12); N.lor 0x80 (N.land (N.shiftr c 6) 0x3F);
        N.lor 0x80 (N.land c 0x3F)]
  else if c <=? 0x10FFFF then
    Ok [N.lor 0xF0 (N.shiftr c 18); N.lor 0x80 (N.land (N.shiftr c 12) 0x3F);
        N.lor 0x80 (N.land (N.shiftr c 6) 0x3F); N.lor 0x80 (N.land c 0x3F)]
  else Raise UnicodeEncodeError.

(** [s.encode('utf-8')]: a lone surrogate (which [sys.argv] produces for an
    undecodable argument byte) raises [UnicodeEncodeError]. *)
Fixpoint encode_utf8 (s : pystr) : result bytes :=
  match s with
  | [] => Ok []
  | c :: r =>
      rbind (utf8_char c) (fun bs =>
      rbind (encode_utf8 r) (fun rs => Ok (map byte_of_N bs ++ rs)))
  end.

(** [str.isspace] on one character. *)
Definition is_space (c : N) : bool :=
  ((0x09 <=? c) && (c <=? 0x0D)) || ((0x1C <=? c) && (c <=? 0x20))
  || (c =? 0x85) || (c =? 0xA0) || (c =? 0x1680)
  || ((0x2000 <=? c) && (c <=? 0x200A))
  || (c =? 0x2028) || (c =? 0x2029) || (c =? 0x202F) || (c =? 0x205F)
  || (c =? 0x3000).

Fixpoint lstrip (s : pystr) : pystr :=
  match s with
  | [] => []
  | c :: r => if is_space c then lstrip r else s
  end.

(** [s.strip()] *)
Definition strip (s : pystr) : pystr := rev (lstrip (rev (lstrip s))).

(** [s.split(sep)] for a one-character separator: empty tokens are kept. *)
Fixpoint split (sep : N) (s : pystr) : list pystr :=
  match s with
  | [] => [[]]
  | c :: r =>
      if c =? sep then [] :: split sep r
      else match split sep r with
           | [] => [[c]]
           | tok :: toks => (c :: tok) :: toks
           end
  end.

Definition SPACE : N := 32.

End PyStr.

(** ** Parsed JSON documents and Python's dynamic operations on them *)

#[local] Set Warnings "-register-all".

Inductive json : Type :=
| JNull
| JBool (b : bool)
| JNum (z : Z)
| JStr (s : pystr)
| JArr (items : list json)
| JObj (fields : list (pystr * json))
| JFloat (x : PrimFloat.float).

(** [json.load] tells the two kinds of number apart by their spelling: a
    number without fraction and exponent is an [int] ([JNum]), any other a
    [float] ([JFloat]).  A [dict] is the list of its items in insertion order
    (keys are unique after parsing). *)

Fixpoint assoc (k : pystr) (fields : list (pystr * json)) : option json :=
  match fields with
  | [] => None
  | (k', v) :: r => if pystr_eqb k' k then Some v else assoc k r
  end.

(** [d.get(key, default)]: only a [dict] has the method. *)
Definition py_get (d : json) (key : pystr) (default : json) : result json :=
  match d with
  | JObj fields =>
      Ok (match assoc key fields with Some v => v | None => default end)
  | _ => Raise AttributeError
  end.

(** [d[key] = value] on the items of a [dict]. *)
Fixpoint set_item (key : pystr) (value : json) (fields : list (pystr * json))
  : list (pystr * json) :=
  match fields with
  | [] => [(key, value)]
  | (k, v) :: r =>
      if pystr_eqb k key then (k, value) :: r else (k, v) :: set_item key value r
  end.

(** Truth value of an object in a condition. *)
Definition truthy (v : json) : bool :=
  match v with
  | JNull => false
  | JBool b => b
  | JNum z => negb (z =? 0)%Z
  | JStr s => match s with [] => false | _ => true end
  | JArr l => match l with [] => false | _ => true end
  | JObj f => match f with [] => false | _ => true end
  | JFloat x => negb (PrimFloat.eqb x PrimFloat.zero)
  end.

(** ** Computations that may raise and may draw entropy *)

(** The system entropy source, as the tape of bytes it will deliver. *)
Definition entropy := nat -> byte.

Definition M (A : Type) : Type := entropy -> result A * entropy.

Definition ret {A} (a : A) : M A := fun e => (Ok a, e).
Definition raise {A} (x : exn) : M A := fun e => (Raise x, e).
Definition lift {A} (r : result A) : M A := fun e => (r, e).
Definition bind {A B} (m : M A) (k : A -> M B) : M B :=
  fun e => match m e with
           | (Ok a, e') => k a e'
           | (Raise x, e') => (Raise x, e')
           end.

(** [try: body except Exception: handler] *)
Definition try_except {A} (body : M A) (catches : exn -> bool) (handler : M A) : M A :=
  fun e => match body e with
           | (Ok a, e') => (Ok a, e')
           | (Raise x, e') => if catches x then handler e' else (Raise x, e')
           end.

Declare Scope py_scope.
Delimit Scope py_scope with py.
Notation "x <- m ;; k" := (bind m (fun x => k))
  (at level 61, m at next level, right associativity) : py_scope.

(** [secrets.token_bytes(n)]: the next [n] bytes of the tape. *)
Definition token_bytes (n : nat) : M bytes :=
  fun e => (Ok (map e (seq 0 n)), fun i => e (n + i)%nat).

(** ** [scripts/hash-password.py] *)

(** What [os.path.exists], [open] and [json.load] find at a path: nothing, or
    a file whose loading raises or returns the parsed document. *)
Inductive file_state : Type :=
| Absent
| Present (load : result json).

Definition filesystem := pystr -> file_state.

Module HashPassword.
Import Sha256 Base64 PyStr.
Local Open Scope py_scope.

(** [generate_random_salt(length=32)] *)
Definition generate_random_salt (length : nat) : M bytes := token_bytes length.

(** [hash_password(password, salt=None)] *)
Definition hash_password (password : pystr) (salt : option bytes) : M pystr :=
  salt <- match salt with
          | None => generate_random_salt 32
          | Some s => ret s
          end ;;
  password_bytes <- lift (encode_utf8 password) ;;
  let combined := salt ++ password_bytes in
  let hash1 := sha256 combined in
  let hash2 := sha256 hash1 in
  let hash_b64 := b64encode hash2 in
  let salt_b64 := b64encode salt in
  ret (hash_b64 ++ [SPACE] ++ salt_b64).

(** [verify_password(password, existing_hash)].  [existing_hash] is whatever
    the caller passes: a command-line string, or any value found in the
    credential store; only a [str] has [strip]. *)
Definition verify_password (password : pystr) (existing_hash : json) : M bool :=
  try_except
    match existing_hash with
    | JStr s =>
        let parts := split SPACE (strip s) in
        if negb (List.length parts =? 2)%nat then ret false
        else
          match parts with
          | [hash_b64; salt_b64] =>
              salt <- lift (b64decode salt_b64) ;;
              new_hash <- hash_password password (Some salt) ;;
              ret (pystr_eqb new_hash s)
          | _ => ret false
          end
    | _ => raise AttributeError
    end
    is_Exception
    (ret false).

(** [load_existing_hashes(security_json_path)] *)
Definition load_existing_hashes (fs : filesystem) (security_json_path : pystr)
  : result json :=
  match fs security_json_path with
  | Absent => Ok (JObj [])
  | Present load =>
      match
        rbind load (fun security_data =>
        rbind (py_get security_data (lit "authentication") (JObj [])) (fun auth =>
        py_get auth (lit "credentials") (JObj [])))
      with
      | Ok credentials => Ok credentials
      | Raise JSONDecodeError => Ok (JObj [])
      | Raise OSError => Ok (JObj [])
      | Raise x => Raise x
      end
  end.

(** [verify_and_reuse(username, password, security_json_path)] *)
Definition verify_and_reuse (fs : filesystem)
           (username password security_json_path : pystr) : M json :=
  existing_hashes <- lift (load_existing_hashes fs security_json_path) ;;
  existing_hash <- lift (py_get existing_hashes username JNull) ;;
  if truthy existing_hash then
    matches <- verify_password password existing_hash ;;
    if matches then ret existing_hash
    else (h <- hash_password password None ;; ret (JStr h))
  else (h <- hash_password password None ;; ret (JStr h)).

(** The namespace [argparse] hands to [main]. *)
Record args : Type := Args {
  arg_password : option pystr;
  arg_verify : option (pystr * pystr);
  arg_reuse : option (pystr * pystr * pystr);
  arg_salt_bytes : Z
}.

(** What a run writes to standard output, and its exit status. *)
Inductive printed : Type :=
| Line (v : json)
| Help.

Record outcome : Type := Outcome { stdout : list printed; exit_code : Z }.

(** The standard output of a run, as what writing to it does: [print] puts
    the line there, or raises (so does a stream whose encoding cannot express
    a character of the line, with [UnicodeEncodeError]).  A failure that
    shows only when the stream is flushed at exit is not modelled. *)
Definition console : Type := printed -> result unit.

Definition print (out : console) (p : printed) : M unit := lift (out p).

Definition msg_match : pystr := 0x2713%N :: lit " Password matches hash".
Definition msg_no_match : pystr := 0x2717%N :: lit " Password does NOT match hash".

(** [main()], after [parser.parse_args()], on the standard output [out].  An
    exception that [print] raises is not caught. *)
Definition main (out : console) (fs : filesystem) (a : args) : M outcome :=
  match arg_verify a with
  | Some (password, expected_hash) =>
      ok <- verify_password password (JStr expected_hash) ;;
      if ok then
        done <- print out (Line (JStr msg_match)) ;;
        ret (Outcome [Line (JStr msg_match)] 0)
      else
        done <- print out (Line (JStr msg_no_match)) ;;
        ret (Outcome [Line (JStr msg_no_match)] 1)
  | None =>
      match arg_reuse a with
      | Some (username, password, security_json_path) =>
          hash_result <- verify_and_reuse fs username password security_json_path ;;
          done <- print out (Line hash_result) ;;
          ret (Outcome [Line hash_result] 0)
      | None =>
          match arg_password a with
          | Some (c :: p) =>
              hashed <- hash_password (c :: p) None ;;
              done <- print out (Line (JStr hashed)) ;;
              ret (Outcome [Line (JStr hashed)] 0)
          | _ =>
              done <- print out Help ;;
              ret (Outcome [Help] 1)
          end
      end
  end.

End HashPassword.

(** ** [scripts/health-api.py] *)

Module HealthApi.

(** An exception together with [str(e)]; [URLError] (and its subclass
    [HTTPError]) is told apart because [check_solr] does so. *)
Inductive hexn : Type :=
| URLError (message : pystr)
| OtherError (message : pystr).

Definition str_of_exn (x : hexn) : pystr :=
  match x with URLError m => m | OtherError m => m end.

Inductive hresult (A : Type) : Type :=
| HOk (a : A)
| HRaise (x : hexn).
Arguments HOk {A} a.
Arguments HRaise {A} x.

Definition hbind {A B} (r : hresult A) (k : A -> hresult B) : hresult B :=
  match r with HOk a => k a | HRaise x => HRaise x end.

Declare Scope health_scope.
Delimit Scope health_scope with health.
Notation "x <- m ;; k" := (hbind m (fun x => k))
  (at level 61, m at next level, right associativity) : health_scope.
Local Open Scope health_scope.

(** [type(v).__name__] *)
Definition type_name (v : json) : pystr :=
  match v with
  | JNull => lit "NoneType"
  | JBool _ => lit "bool"
  | JNum _ => lit "int"
  | JStr _ => lit "str"
  | JArr _ => lit "list"
  | JObj _ => lit "dict"
  | JFloat _ => lit "float"
  end.

Definition no_attribute (v : json) (attr : pystr) : hexn :=
  OtherError (lit "'" ++ type_name v ++ lit "' object has no attribute '" ++ attr ++ lit "'").

(** [d.get(key, default)] *)
Definition hget (d : json) (key : pystr) (default : json) : hresult json :=
  match d with
  | JObj fields =>
      HOk (match assoc key fields with Some v => v | None => default end)
  | _ => HRaise (no_attribute d (lit "get"))
  end.

(** [d.items()] *)
Definition hitems (d : json) : hresult (list (pystr * json)) :=
  match d with
  | JObj fields => HOk fields
  | _ => HRaise (no_attribute d (lit "items"))
  end.

(** What fetching one admin endpoint gives: [create_auth_request(url)],
    [response.read()] and [json.loads] either return the parsed body or raise. *)
Definition fetched := hresult json.

Fixpoint hmap {A B} (f : A -> hresult B) (l : list A) : hresult (list B) :=
  match l with
  | [] => HOk []
  | a :: r => b <- f a ;; bs <- hmap f r ;; HOk (b :: bs)
  end.

(** A reply written by the handler: [send_response] with a JSON body, or
    [send_error]. *)
Inductive reply : Type :=
| Reply (status_code : Z) (content_type : pystr) (body : json)
| ErrorReply (status_code : Z) (message : pystr).

Section Handler.

(** The environment: [CUSTOMER_NAME]. *)
Variable CUSTOMER_NAME : pystr.

(** The floating-point arithmetic of the report is kept abstract:
    [round(v / 1024 / 1024, 2)], [round((used / max) * 100, 2)], and
    [x // 1000] on a [float]. *)
Variable round_mb : json -> hresult json.
Variable usage_percent : json -> json -> hresult json.
Variable float_floordiv_1000 : PrimFloat.float -> PrimFloat.float.

(** [v // 1000]: floor division on integers ([bool] is a subclass of [int]),
    a [float] for a [float]. *)
Definition floordiv_1000 (v : json) : hresult json :=
  match v with
  | JNum z => HOk (JNum (z / 1000))
  | JBool _ => HOk (JNum 0)
  | JFloat x => HOk (JFloat (float_floordiv_1000 x))
  | _ => HRaise (OtherError
           (lit "unsupported operand type(s) for //: '" ++ type_name v ++ lit "' and 'int'"))
  end.

(** [check_solr] *)
Definition check_solr (ping : fetched) : json :=
  match
    data <- ping ;;
    status <- hget data (lit "status") JNull ;;
    header <- hget data (lit "responseHeader") (JObj []) ;;
    qtime <- hget header (lit "QTime") (JNum 0) ;;
    HOk (JObj [(lit "available", JBool true);
               (lit "status", status);
               (lit "response_time_ms", qtime)])
  with
  | HOk v => v
  | HRaise (URLError m) =>
      JObj [(lit "available", JBool false); (lit "error", JStr m)]
  | HRaise (OtherError m) =>
      JObj [(lit "available", JBool false);
            (lit "error", JStr (lit "Unexpected error: " ++ m))]
  end.

Definition core_entry (item : pystr * json) : hresult (list json) :=
  let (core_name, core_data) := item in
  match core_name with
  | [] => HOk []
  | _ =>
      index <- hget core_data (lit "index") (JObj []) ;;
      num_docs <- hget index (lit "numDocs") (JNum 0) ;;
      size <- hget index (lit "sizeInBytes") (JNum 0) ;;
      size_mb <- round_mb size ;;
      last_modified <- hget index (lit "lastModified") (JStr (lit "unknown")) ;;
      HOk [JObj [(lit "name", JStr core_name);
                 (lit "num_docs", num_docs);
                 (lit "size_mb", size_mb);
                 (lit "last_modified", last_modified)]]
  end.

(** [get_cores] *)
Definition get_cores (cores : fetched) : json :=
  match
    data <- cores ;;
    status <- hget data (lit "status") (JObj []) ;;
    items <- hitems status ;;
    entries <- hmap core_entry items ;;
    HOk (JArr (List.concat entries))
  with
  | HOk v => v
  | HRaise x => JArr [JObj [(lit "error", JStr (str_of_exn x))]]
  end.

(** [get_system_info] *)
Definition get_system_info (system : fetched) : json :=
  match
    data <- system ;;
    jvm <- hget data (lit "jvm") (JObj []) ;;
    memory0 <- hget jvm (lit "memory") (JObj []) ;;
    memory <- hget memory0 (lit "raw") (JObj []) ;;
    lucene <- hget data (lit "lucene") (JObj []) ;;
    solr_version <- hget lucene (lit "solr-spec-version") (JStr (lit "unknown")) ;;
    jvm_version <- hget jvm (lit "version") (JStr (lit "unknown")) ;;
    used <- hget memory (lit "used") (JNum 0) ;;
    used_mb <- round_mb used ;;
    total <- hget memory (lit "total") (JNum 0) ;;
    total_mb <- round_mb total ;;
    max <- hget memory (lit "max") (JNum 0) ;;
    max_mb <- round_mb max ;;
    max_set <- hget memory (lit "max") JNull ;;
    percent <- (if truthy max_set then
                  max1 <- hget memory (lit "max") (JNum 1) ;;
                  usage_percent used max1
                else HOk (JNum 0)) ;;
    jmx <- hget jvm (lit "jmx") (JObj []) ;;
    uptime_ms <- hget jmx (lit "upTimeMS") (JNum 0) ;;
    uptime <- floordiv_1000 uptime_ms ;;
    HOk (JObj [(lit "solr_version", solr_version);
               (lit "jvm_version", jvm_version);
               (lit "memory", JObj [(lit "used_mb", used_mb);
                                    (lit "total_mb", total_mb);
                                    (lit "max_mb", max_mb);
                                    (lit "usage_percent", percent)]);
               (lit "uptime_seconds", uptime)])
  with
  | HOk v => v
  | HRaise x => JObj [(lit "error", JStr (str_of_exn x))]
  end.

(** [health_data["errors"].append(message)] *)
Definition append_error (message : pystr) (fields : list (pystr * json))
  : list (pystr * json) :=
  match assoc (lit "errors") fields with
  | Some (JArr errors) => set_item (lit "errors") (JArr (errors ++ [JStr message])) fields
  | _ => fields
  end.

Definition initial_health_data : list (pystr * json) :=
  [(lit "customer", JStr CUSTOMER_NAME);
   (lit "version", JStr (lit "2.2.0"));
   (lit "status", JStr (lit "unknown"));
   (lit "solr", JObj []);
   (lit "cores", JArr []);
   (lit "system", JObj []);
   (lit "errors", JArr [])].

(** The [try] block of [handle_health], from the initial document. *)
Definition health_checks (ping cores system : fetched) : hresult (list (pystr * json)) :=
  let solr_health := check_solr ping in
  let health_data := set_item (lit "solr") solr_health initial_health_data in
  available <- hget solr_health (lit "available") JNull ;;
  if truthy available then
    let health_data := set_item (lit "status") (JStr (lit "healthy")) health_data in
    let health_data := set_item (lit "cores") (get_cores cores) health_data in
    let health_data := set_item (lit "system") (get_system_info system) health_data in
    HOk health_data
  else
    let health_data := set_item (lit "status") (JStr (lit "unhealthy")) health_data in
    HOk (append_error (lit "Solr is not available") health_data).

(** [handle_health] *)
Definition handle_health (ping cores system : fetched) : reply :=
  let health_data :=
    match health_checks ping cores system with
    | HOk health_data => health_data
    | HRaise x =>
        append_error (str_of_exn x)
          (set_item (lit "status") (JStr (lit "error"))
             (set_item (lit "solr") (check_solr ping) initial_health_data))
    end in
  let status_code :=
    match assoc (lit "status") health_data with
    | Some (JStr s) => if pystr_eqb s (lit "healthy") then 200%Z else 503%Z
    | _ => 503%Z
    end in
  Reply status_code (lit "application/json") (JObj health_data).

(** [handle_ping] *)
Definition handle_ping : reply :=
  Reply 200 (lit "application/json") (JObj [(lit "status", JStr (lit "ok"))]).

(** [do_GET] *)
Definition do_GET (path : pystr) (ping cores system : fetched) : reply :=
  if pystr_eqb path (lit "/health") then handle_health ping cores system
  else if pystr_eqb path (lit "/ping") then handle_ping
  else ErrorReply 404 (lit "Not Found").

End Handler.

End HealthApi.

(** ** The dashboard scripts *)

Module Dashboard.

(** Here a computation returns [None] when the script raises ([TypeError],
    [AttributeError] or [KeyError]) and stops without writing its output. *)

Definition obind {A B} (o : option A) (k : A -> option B) : option B :=
  match o with Some a => k a | None => None end.

Declare Scope dash_scope.
Delimit Scope dash_scope with dash.
Notation "x <- m ;; k" := (obind m (fun x => k))
  (at level 61, m at next level, right associativity) : dash_scope.
Local Open Scope dash_scope.

Fixpoint omap {A B} (f : A -> option B) (l : list A) : option (list B) :=
  match l with
  | [] => Some []
  | a :: r => b <- f a ;; bs <- omap f r ;; Some (b :: bs)
  end.

(** [d.get(key, default)] *)
Definition get (d : json) (key : pystr) (default : json) : option json :=
  match d with
  | JObj fields => Some (match assoc key fields with Some v => v | None => default end)
  | _ => None
  end.

(** *** Numbers: the operands of [+] and [max] *)

(** A number is an [int] ([bool] is a subclass of [int], with [True] as 1
    and [False] as 0) or a [float]. *)
Inductive num : Type :=
| NInt (z : Z)
| NFloat (x : PrimFloat.float).

Definition as_num (v : json) : option num :=
  match v with
  | JNum z => Some (NInt z)
  | JBool b => Some (NInt (if b then 1 else 0))
  | JFloat x => Some (NFloat x)
  | _ => None
  end.

Definition of_num (n : num) : json :=
  match n with
  | NInt z => JNum z
  | NFloat x => JFloat x
  end.

(** The conversion [+] applies to an [int] next to a [float]: the nearest
    binary64 value, ties to even; there is none for an integer that rounds
    beyond the range, and Python raises [OverflowError]. *)
Definition float_of_int (z : Z) : option PrimFloat.float :=
  match SpecFloat.binary_normalize FloatOps.prec FloatOps.emax z 0 false with
  | SpecFloat.S754_infinity _ => None
  | sf => Some (FloatOps.SF2Prim sf)
  end.

(** [a + b] *)
Definition num_add (a b : num) : option num :=
  match a, b with
  | NInt x, NInt y => Some (NInt (x + y))
  | NFloat x, NFloat y => Some (NFloat (PrimFloat.add x y))
  | NInt x, NFloat y => fx <- float_of_int x ;; Some (NFloat (PrimFloat.add fx y))
  | NFloat x, NInt y => fy <- float_of_int y ;; Some (NFloat (PrimFloat.add x fy))
  end.

(** How an [int] [z] compares with a [float] [x].  Python compares the two
    by their exact values, without rounding the integer; [None] when [x] is
    not a number. *)
Definition compare_int_float (z : Z) (x : PrimFloat.float) : option comparison :=
  match FloatOps.Prim2SF x with
  | SpecFloat.S754_nan => None
  | SpecFloat.S754_infinity negative => Some (if negative then Gt else Lt)
  | SpecFloat.S754_zero _ => Some (z ?= 0)%Z
  | SpecFloat.S754_finite negative m e =>
      let v := if negative then Z.neg m else Z.pos m in
      Some (if (0 <=? e)%Z then (z ?= v * 2 ^ e)%Z else (z * 2 ^ (- e) ?= v)%Z)
  end.

(** [a > b]; a comparison with a NaN is false. *)
Definition num_gt (a b : num) : bool :=
  match a, b with
  | NInt x, NInt y => (y <? x)%Z
  | NFloat x, NFloat y => PrimFloat.ltb y x
  | NInt z, NFloat x =>
      match compare_int_float z x with Some Gt => true | _ => false end
  | NFloat x, NInt z =>
      match compare_int_float z x with Some Lt => true | _ => false end
  end.

(** [max(values, default=d)]: the first value is kept until a later one is
    greater. *)
Definition py_max (values : list num) (default : num) : num :=
  match values with
  | [] => default
  | v :: r => fold_left (fun m x => if num_gt x m then x else m) r v
  end.

Definition DQ : pystr := [34%N].

(** *** [add-query-performance-dashboard.py] *)

(** The row and the five panels, with the values of [next_id] and [next_y]
    at the point where each literal is built. *)

Definition query_row (next_id next_y : num) : json :=
  JObj [(lit "collapsed", JBool false);
        (lit "gridPos", JObj [(lit "h", JNum 1);
          (lit "w", JNum 24);
          (lit "x", JNum 0);
          (lit "y", of_num next_y)]);
        (lit "id", of_num next_id);
        (lit "panels", JArr []);
        (lit "title", JStr (lit "Query Performance Analysis"));
        (lit "type", JStr (lit "row"))].

Definition panel_latency (next_id next_y : num) : json :=
  JObj [(lit "id", of_num next_id);
        (lit "gridPos", JObj [(lit "h", JNum 8);
          (lit "w", JNum 12);
          (lit "x", JNum 0);
          (lit "y", of_num next_y)]);
        (lit "type", JStr (lit "graph"));
        (lit "title", JStr (lit "Query Latency Percentiles"));
        (lit "description", JStr (lit "Query response time distribution (p50, p95, p99)"));
        (lit "targets", JArr [JObj [(lit "expr", JStr (lit "histogram_quantile(0.50, rate(solr_metrics_core_query_time_bucket{core=~" ++ DQ ++ lit "$core" ++ DQ ++ lit ",instance=~" ++ DQ ++ lit "$instance" ++ DQ ++ lit "}[5m]))"));
            (lit "legendFormat", JStr (lit "p50 (median)"));
            (lit "refId", JStr (lit "A"))];
          JObj [(lit "expr", JStr (lit "histogram_quantile(0.95, rate(solr_metrics_core_query_time_bucket{core=~" ++ DQ ++ lit "$core" ++ DQ ++ lit ",instance=~" ++ DQ ++ lit "$instance" ++ DQ ++ lit "}[5m]))"));
            (lit "legendFormat", JStr (lit "p95"));
            (lit "refId", JStr (lit "B"))];
          JObj [(lit "expr", JStr (lit "histogram_quantile(0.99, rate(solr_metrics_core_query_time_bucket{core=~" ++ DQ ++ lit "$core" ++ DQ ++ lit ",instance=~" ++ DQ ++ lit "$instance" ++ DQ ++ lit "}[5m]))"));
            (lit "legendFormat", JStr (lit "p99"));
            (lit "refId", JStr (lit "C"))]]);
        (lit "yaxes", JArr [JObj [(lit "format", JStr (lit "ms"));
            (lit "label", JStr (lit "Latency"))];
          JObj [(lit "format", JStr (lit "short"))]]);
        (lit "xaxis", JObj [(lit "mode", JStr (lit "time"));
          (lit "show", JBool true)]);
        (lit "lines", JBool true);
        (lit "fill", JNum 0);
        (lit "linewidth", JNum 2);
        (lit "pointradius", JNum 2);
        (lit "points", JBool false);
        (lit "bars", JBool false);
        (lit "stack", JBool false);
        (lit "percentage", JBool false);
        (lit "legend", JObj [(lit "show", JBool true);
          (lit "values", JBool true);
          (lit "current", JBool true);
          (lit "max", JBool true);
          (lit "alignAsTable", JBool true)]);
        (lit "nullPointMode", JStr (lit "null"));
        (lit "tooltip", JObj [(lit "shared", JBool true);
          (lit "sort", JNum 0);
          (lit "value_type", JStr (lit "individual"))]);
        (lit "thresholds", JArr [JObj [(lit "value", JNum 100);
            (lit "colorMode", JStr (lit "critical"));
            (lit "op", JStr (lit "gt"));
            (lit "fill", JBool true);
            (lit "line", JBool true)];
          JObj [(lit "value", JNum 500);
            (lit "colorMode", JStr (lit "custom"));
            (lit "op", JStr (lit "gt"));
            (lit "fill", JBool true);
            (lit "line", JBool true);
            (lit "fillColor", JStr (lit "rgba(234, 112, 112, 0.2)"));
            (lit "lineColor", JStr (lit "rgb(234, 112, 112)"))]])].

Definition panel_slow (next_id next_y : num) : json :=
  JObj [(lit "id", of_num next_id);
        (lit "gridPos", JObj [(lit "h", JNum 8);
          (lit "w", JNum 12);
          (lit "x", JNum 12);
          (lit "y", of_num next_y)]);
        (lit "type", JStr (lit "graph"));
        (lit "title", JStr (lit "Slow Queries (>1s)"));
        (lit "description", JStr (lit "Number of queries taking longer than 1 second"));
        (lit "targets", JArr [JObj [(lit "expr", JStr (lit "sum(rate(solr_metrics_core_query_time_bucket{core=~" ++ DQ ++ lit "$core" ++ DQ ++ lit ",instance=~" ++ DQ ++ lit "$instance" ++ DQ ++ lit ",le=" ++ DQ ++ lit "1000" ++ DQ ++ lit "}[5m])) by (core)"));
            (lit "legendFormat", JStr (lit "{{core}} - queries >1s"));
            (lit "refId", JStr (lit "A"))]]);
        (lit "yaxes", JArr [JObj [(lit "format", JStr (lit "reqps"));
            (lit "label", JStr (lit "Queries/sec"))];
          JObj [(lit "format", JStr (lit "short"))]]);
        (lit "xaxis", JObj [(lit "mode", JStr (lit "time"));
          (lit "show", JBool true)]);
        (lit "lines", JBool true);
        (lit "fill", JNum 2);
        (lit "linewidth", JNum 2);
        (lit "pointradius", JNum 2);
        (lit "points", JBool false);
        (lit "bars", JBool false);
        (lit "stack", JBool false);
        (lit "percentage", JBool false);
        (lit "legend", JObj [(lit "show", JBool true);
          (lit "values", JBool true);
          (lit "current", JBool true);
          (lit "total", JBool true);
          (lit "alignAsTable", JBool true)]);
        (lit "nullPointMode", JStr (lit "null"));
        (lit "tooltip", JObj [(lit "shared", JBool true);
          (lit "sort", JNum 2);
          (lit "value_type", JStr (lit "individual"))]);
        (lit "alert", JObj [(lit "name", JStr (lit "High Slow Query Rate"));
          (lit "conditions", JArr [JObj [(lit "evaluator", JObj [(lit "params", JArr [JNum 10]);
                (lit "type", JStr (lit "gt"))]);
              (lit "operator", JObj [(lit "type", JStr (lit "and"))]);
              (lit "query", JObj [(lit "params", JArr [JStr (lit "A");
                  JStr (lit "5m");
                  JStr (lit "now")])]);
              (lit "reducer", JObj [(lit "params", JArr []);
                (lit "type", JStr (lit "avg"))]);
              (lit "type", JStr (lit "query"))]]);
          (lit "executionErrorState", JStr (lit "alerting"));
          (lit "frequency", JStr (lit "1m"));
          (lit "handler", JNum 1);
          (lit "message", JStr (lit "Slow query rate is high"));
          (lit "noDataState", JStr (lit "no_data"));
          (lit "notifications", JArr [])])].

Definition panel_rate (next_id next_y : num) : json :=
  JObj [(lit "id", of_num next_id);
        (lit "gridPos", JObj [(lit "h", JNum 8);
          (lit "w", JNum 12);
          (lit "x", JNum 0);
          (lit "y", of_num next_y)]);
        (lit "type", JStr (lit "graph"));
        (lit "title", JStr (lit "Query Rate by Handler"));
        (lit "description", JStr (lit "Queries per second by request handler"));
        (lit "targets", JArr [JObj [(lit "expr", JStr (lit "sum(rate(solr_metrics_core_query_requests_total{core=~" ++ DQ ++ lit "$core" ++ DQ ++ lit ",instance=~" ++ DQ ++ lit "$instance" ++ DQ ++ lit "}[5m])) by (handler)"));
            (lit "legendFormat", JStr (lit "{{handler}}"));
            (lit "refId", JStr (lit "A"))]]);
        (lit "yaxes", JArr [JObj [(lit "format", JStr (lit "reqps"));
            (lit "label", JStr (lit "Queries/sec"))];
          JObj [(lit "format", JStr (lit "short"))]]);
        (lit "xaxis", JObj [(lit "mode", JStr (lit "time"));
          (lit "show", JBool true)]);
        (lit "lines", JBool true);
        (lit "fill", JNum 1);
        (lit "linewidth", JNum 2);
        (lit "pointradius", JNum 2);
        (lit "points", JBool false);
        (lit "bars", JBool false);
        (lit "stack", JBool true);
        (lit "percentage", JBool false);
        (lit "legend", JObj [(lit "show", JBool true);
          (lit "values", JBool true);
          (lit "current", JBool true);
          (lit "total", JBool true);
          (lit "alignAsTable", JBool true)]);
        (lit "nullPointMode", JStr (lit "null as zero"));
        (lit "tooltip", JObj [(lit "shared", JBool true);
          (lit "sort", JNum 2);
          (lit "value_type", JStr (lit "individual"))])].

Definition panel_cache (next_id next_y : num) : json :=
  JObj [(lit "id", of_num next_id);
        (lit "gridPos", JObj [(lit "h", JNum 8);
          (lit "w", JNum 12);
          (lit "x", JNum 12);
          (lit "y", of_num next_y)]);
        (lit "type", JStr (lit "stat"));
        (lit "title", JStr (lit "Query Cache Hit Ratio"));
        (lit "description", JStr (lit "Percentage of queries served from cache"));
        (lit "targets", JArr [JObj [(lit "expr", JStr (lit "100 * (rate(solr_metrics_core_query_result_cache_hits_total{core=~" ++ DQ ++ lit "$core" ++ DQ ++ lit ",instance=~" ++ DQ ++ lit "$instance" ++ DQ ++ lit "}[5m]) / (rate(solr_metrics_core_query_result_cache_hits_total{core=~" ++ DQ ++ lit "$core" ++ DQ ++ lit ",instance=~" ++ DQ ++ lit "$instance" ++ DQ ++ lit "}[5m]) + rate(solr_metrics_core_query_result_cache_misses_total{core=~" ++ DQ ++ lit "$core" ++ DQ ++ lit ",instance=~" ++ DQ ++ lit "$instance" ++ DQ ++ lit "}[5m])))"));
            (lit "legendFormat", JStr (lit "{{core}}"));
            (lit "refId", JStr (lit "A"))]]);
        (lit "options", JObj [(lit "reduceOptions", JObj [(lit "values", JBool false);
            (lit "calcs", JArr [JStr (lit "lastNotNull")]);
            (lit "fields", JStr [])]);
          (lit "orientation", JStr (lit "auto"));
          (lit "textMode", JStr (lit "value_and_name"));
          (lit "colorMode", JStr (lit "value"));
          (lit "graphMode", JStr (lit "area"));
          (lit "justifyMode", JStr (lit "auto"))]);
        (lit "fieldConfig", JObj [(lit "defaults", JObj [(lit "unit", JStr (lit "percent"));
            (lit "decimals", JNum 1);
            (lit "min", JNum 0);
            (lit "max", JNum 100);
            (lit "thresholds", JObj [(lit "mode", JStr (lit "absolute"));
              (lit "steps", JArr [JObj [(lit "value", JNum 0);
                  (lit "color", JStr (lit "red"))];
                JObj [(lit "value", JNum 50);
                  (lit "color", JStr (lit "yellow"))];
                JObj [(lit "value", JNum 80);
                  (lit "color", JStr (lit "green"))]])])])])].

Definition panel_trend (next_id next_y : num) : json :=
  JObj [(lit "id", of_num next_id);
        (lit "gridPos", JObj [(lit "h", JNum 8);
          (lit "w", JNum 24);
          (lit "x", JNum 0);
          (lit "y", of_num next_y)]);
        (lit "type", JStr (lit "graph"));
        (lit "title", JStr (lit "Average Query Time Trend"));
        (lit "description", JStr (lit "Average query execution time over time by core"));
        (lit "targets", JArr [JObj [(lit "expr", JStr (lit "rate(solr_metrics_core_query_time_sum{core=~" ++ DQ ++ lit "$core" ++ DQ ++ lit ",instance=~" ++ DQ ++ lit "$instance" ++ DQ ++ lit "}[5m]) / rate(solr_metrics_core_query_requests_total{core=~" ++ DQ ++ lit "$core" ++ DQ ++ lit ",instance=~" ++ DQ ++ lit "$instance" ++ DQ ++ lit "}[5m])"));
            (lit "legendFormat", JStr (lit "{{core}}"));
            (lit "refId", JStr (lit "A"))]]);
        (lit "yaxes", JArr [JObj [(lit "format", JStr (lit "ms"));
            (lit "label", JStr (lit "Avg Time"))];
          JObj [(lit "format", JStr (lit "short"))]]);
        (lit "xaxis", JObj [(lit "mode", JStr (lit "time"));
          (lit "show", JBool true)]);
        (lit "lines", JBool true);
        (lit "fill", JNum 0);
        (lit "linewidth", JNum 2);
        (lit "pointradius", JNum 2);
        (lit "points", JBool false);
        (lit "bars", JBool false);
        (lit "stack", JBool false);
        (lit "percentage", JBool false);
        (lit "legend", JObj [(lit "show", JBool true);
          (lit "values", JBool true);
          (lit "current", JBool true);
          (lit "avg", JBool true);
          (lit "max", JBool true);
          (lit "alignAsTable", JBool true)]);
        (lit "nullPointMode", JStr (lit "null"));
        (lit "tooltip", JObj [(lit "shared", JBool true);
          (lit "sort", JNum 0);
          (lit "value_type", JStr (lit "individual"))]);
        (lit "thresholds", JArr [JObj [(lit "value", JNum 50);
            (lit "colorMode", JStr (lit "custom"));
            (lit "op", JStr (lit "gt"));
            (lit "fill", JBool false);
            (lit "line", JBool true);
            (lit "lineColor", JStr (lit "rgba(245, 150, 40, 0.8)"))];
          JObj [(lit "value", JNum 100);
            (lit "colorMode", JStr (lit "custom"));
            (lit "op", JStr (lit "gt"));
            (lit "fill", JBool false);
            (lit "line", JBool true);
            (lit "lineColor", JStr (lit "rgba(234, 112, 112, 0.8)"))]])].

(** [p.get("id", 0)], as an operand of [max] and [+] *)
Definition panel_id (p : json) : option num :=
  v <- get p (lit "id") (JNum 0) ;; as_num v.

(** [p.get("gridPos", {}).get("y", 0) + p.get("gridPos", {}).get("h", 0)] *)
Definition panel_bottom (p : json) : option num :=
  pos <- get p (lit "gridPos") (JObj []) ;;
  yv <- get pos (lit "y") (JNum 0) ;;
  hv <- get pos (lit "h") (JNum 0) ;;
  y <- as_num yv ;;
  h <- as_num hv ;;
  num_add y h.

(** The panels can be iterated as objects and appended to: a [list]. *)
Definition as_list (v : json) : option (list json) :=
  match v with JArr l => Some l | _ => None end.

(** [add_query_performance_panels(dashboard)].  A value that is not a number
    among the identifiers or the coordinates makes [max] or a later [+]
    raise. *)
Definition add_query_performance_panels (dashboard : json) : option json :=
  panels_value <- get dashboard (lit "panels") (JArr []) ;;
  existing_panels <- as_list panels_value ;;
  ids <- omap panel_id existing_panels ;;
  next_id <- num_add (py_max ids (NInt 0)) (NInt 1) ;;
  bottoms <- omap panel_bottom existing_panels ;;
  let next_y := py_max bottoms (NInt 0) in
  let row := query_row next_id next_y in
  next_id <- num_add next_id (NInt 1) ;;
  next_y <- num_add next_y (NInt 1) ;;
  let latency := panel_latency next_id next_y in
  next_id <- num_add next_id (NInt 1) ;;
  let slow := panel_slow next_id next_y in
  next_id <- num_add next_id (NInt 1) ;;
  next_y <- num_add next_y (NInt 8) ;;
  let rate := panel_rate next_id next_y in
  next_id <- num_add next_id (NInt 1) ;;
  let cache := panel_cache next_id next_y in
  next_id <- num_add next_id (NInt 1) ;;
  next_y <- num_add next_y (NInt 8) ;;
  let trend := panel_trend next_id next_y in
  match dashboard with
  | JObj fields =>
      panels <- match assoc (lit "panels") fields with
                | Some (JArr l) => Some l
                | _ => None
                end ;;
      let fields :=
        set_item (lit "panels")
                 (JArr (panels ++ [row; latency; slow; rate; cache; trend])) fields in
      version_value <- get (JObj fields) (lit "version") (JNum 0) ;;
      version <- as_num version_value ;;
      version <- num_add version (NInt 1) ;;
      let fields := set_item (lit "version") (of_num version) fields in
      let fields := set_item (lit "refresh") (JStr (lit "30s")) fields in
      Some (JObj fields)
  | _ => None
  end.

(** *** [add-grafana-templating.py] *)

Fixpoint prefix (p s : pystr) : bool :=
  match p, s with
  | [], _ => true
  | _ :: _, [] => false
  | a :: p', b :: s' => (a =? b)%N && prefix p' s'
  end.

(** [needle in hay] on strings *)
Fixpoint contains (needle hay : pystr) : bool :=
  prefix needle hay ||
  match hay with
  | [] => false
  | _ :: r => contains needle r
  end.

(** [s.replace(old, new)] for a non-empty [old]: occurrences are replaced from
    the left and do not overlap; [skip] counts the characters of a replaced
    occurrence still to be passed. *)
Fixpoint replace_from (skip : nat) (old new s : pystr) : pystr :=
  match s with
  | [] => []
  | c :: r =>
      match skip with
      | S k => replace_from k old new r
      | O =>
          if prefix old s then new ++ replace_from (List.length old - 1) old new r
          else c :: replace_from 0 old new r
      end
  end.
Definition replace (old new s : pystr) : pystr := replace_from 0 old new s.

(** [needle in v]: substring of a [str], element of a [list], key of a
    [dict]; anything else is not iterable. *)
Definition py_in (needle : pystr) (v : json) : option bool :=
  match v with
  | JStr s => Some (contains needle s)
  | JArr l =>
      Some (existsb (fun x => match x with JStr s => pystr_eqb s needle | _ => false end) l)
  | JObj f => Some (existsb (fun kv => pystr_eqb (fst kv) needle) f)
  | _ => None
  end.

(** [for x in v] *)
Definition py_iter (v : json) : option (list json) :=
  match v with
  | JArr l => Some l
  | JObj f => Some (map (fun kv => JStr (fst kv)) f)
  | JStr s => Some (map (fun c => JStr [c]) s)
  | _ => None
  end.

(** [v[key]] with a string key *)
Definition py_getitem (v : json) (key : pystr) : option json :=
  match v with
  | JObj f => assoc key f
  | _ => None
  end.

(** [v[key] = value] with a string key *)
Definition py_setitem (v : json) (key : pystr) (value : json) : option json :=
  match v with
  | JObj f => Some (JObj (set_item key value f))
  | _ => None
  end.

(** [v.replace(old, new)] *)
Definition py_replace (v : json) (old new : pystr) : option json :=
  match v with
  | JStr s => Some (JStr (replace old new s))
  | _ => None
  end.

Definition job_exporter : pystr := lit "job=" ++ DQ ++ lit "solr-exporter" ++ DQ.
Definition job_variable : pystr := lit "job=" ++ DQ ++ lit "$job" ++ DQ.
Definition job_and_instance : pystr :=
  job_variable ++ lit ",instance=~" ++ DQ ++ lit "$instance" ++ DQ.
Definition core_variable : pystr := lit "core=~" ++ DQ ++ lit "$core" ++ DQ.

(** The literal assigned to [dashboard['templating']]. *)
Definition templating : json :=
  JObj [(lit "list", JArr [JObj [(lit "current", JObj [(lit "selected", JBool false);
              (lit "text", JStr (lit "All"));
              (lit "value", JStr (lit "$__all"))]);
            (lit "datasource", JStr (lit "Prometheus"));
            (lit "definition", JStr (lit "label_values(up{job=" ++ DQ ++ lit "solr-exporter" ++ DQ ++ lit "}, instance)"));
            (lit "hide", JNum 0);
            (lit "includeAll", JBool true);
            (lit "label", JStr (lit "Instance"));
            (lit "multi", JBool true);
            (lit "name", JStr (lit "instance"));
            (lit "options", JArr []);
            (lit "query", JObj [(lit "query", JStr (lit "label_values(up{job=" ++ DQ ++ lit "solr-exporter" ++ DQ ++ lit "}, instance)"));
              (lit "refId", JStr (lit "StandardVariableQuery"))]);
            (lit "refresh", JNum 1);
            (lit "regex", JStr []);
            (lit "skipUrlSync", JBool false);
            (lit "sort", JNum 1);
            (lit "type", JStr (lit "query"))];
          JObj [(lit "current", JObj [(lit "selected", JBool false);
              (lit "text", JStr (lit "solr-exporter"));
              (lit "value", JStr (lit "solr-exporter"))]);
            (lit "datasource", JStr (lit "Prometheus"));
            (lit "definition", JStr (lit "label_values(up, job)"));
            (lit "hide", JNum 0);
            (lit "includeAll", JBool false);
            (lit "label", JStr (lit "Job"));
            (lit "multi", JBool false);
            (lit "name", JStr (lit "job"));
            (lit "options", JArr []);
            (lit "query", JObj [(lit "query", JStr (lit "label_values(up, job)"));
              (lit "refId", JStr (lit "StandardVariableQuery"))]);
            (lit "refresh", JNum 1);
            (lit "regex", JStr (lit ".*solr.*"));
            (lit "skipUrlSync", JBool false);
            (lit "sort", JNum 0);
            (lit "type", JStr (lit "query"))];
          JObj [(lit "allValue", JStr []);
            (lit "current", JObj [(lit "selected", JBool false);
              (lit "text", JStr (lit "All"));
              (lit "value", JStr (lit "$__all"))]);
            (lit "datasource", JStr (lit "Prometheus"));
            (lit "definition", JStr (lit "label_values(solr_metrics_core_query_requests_total, core)"));
            (lit "hide", JNum 0);
            (lit "includeAll", JBool true);
            (lit "label", JStr (lit "Core"));
            (lit "multi", JBool true);
            (lit "name", JStr (lit "core"));
            (lit "options", JArr []);
            (lit "query", JObj [(lit "query", JStr (lit "label_values(solr_metrics_core_query_requests_total, core)"));
              (lit "refId", JStr (lit "StandardVariableQuery"))]);
            (lit "refresh", JNum 1);
            (lit "regex", JStr []);
            (lit "skipUrlSync", JBool false);
            (lit "sort", JNum 1);
            (lit "type", JStr (lit "query"))]])].

Definition core_quoted : pystr := lit "core=" ++ DQ.

Fixpoint find_quote (s : pystr) : option nat :=
  match s with
  | [] => None
  | c :: r => if (c =? 34)%N then Some 0 else option_map S (find_quote r)
  end.

(** The [re.sub] call of line 112 on a string: every occurrence of the core
    label with a quoted value (the label, a quote, characters other than a
    quote, a quote) is replaced by the core variable, from the left. *)
Fixpoint re_sub_from (skip : nat) (s : pystr) : pystr :=
  match s with
  | [] => []
  | c :: r =>
      match skip with
      | S k => re_sub_from k r
      | O =>
          if prefix core_quoted s then
            match find_quote (skipn 6 s) with
            | Some n => core_variable ++ re_sub_from (6 + n) r
            | None => c :: re_sub_from 0 r
            end
          else c :: re_sub_from 0 r
      end
  end.
Definition re_sub_core (s : pystr) : pystr := re_sub_from 0 s.

(** Lines 101 to 115: the new value of [expr]. *)
Definition rewrite_expr (expr : json) : option json :=
  has_instance <- py_in (lit "instance=") expr ;;
  has_job <- py_in job_exporter expr ;;
  expr <- (if has_job then
             if has_instance then py_replace expr job_exporter job_variable
             else py_replace expr job_exporter job_and_instance
           else Some expr) ;;
  has_core <- py_in (lit "core=") expr ;;
  if has_core then Some expr
  else
    is_core_metric <- py_in (lit "solr_metrics_core") expr ;;
    if is_core_metric then
      hardcoded <- py_in core_quoted expr ;;
      if hardcoded then
        match expr with
        | JStr s => Some (JStr (re_sub_core s))
        | _ => None
        end
      else
        has_brace <- py_in (lit "}") expr ;;
        if has_brace then py_replace expr (lit "}") (lit "," ++ core_variable ++ lit "}")
        else Some expr
    else Some expr.

Definition update_target (target : json) : option json :=
  has_expr <- py_in (lit "expr") target ;;
  if has_expr then
    expr <- py_getitem target (lit "expr") ;;
    expr <- rewrite_expr expr ;;
    py_setitem target (lit "expr") expr
  else Some target.

(** The elements of a container after a loop that updated them in place:
    only a [list] holds objects that can change. *)
Definition updated (container : json) (elements : list json) : json :=
  match container with
  | JArr _ => JArr elements
  | _ => container
  end.

Definition update_panel (panel : json) : option json :=
  has_targets <- py_in (lit "targets") panel ;;
  if has_targets then
    targets <- py_getitem panel (lit "targets") ;;
    elements <- py_iter targets ;;
    elements <- omap update_target elements ;;
    py_setitem panel (lit "targets") (updated targets elements)
  else Some panel.

Definition new_title : pystr := lit "Solr Monitoring (Multi-Instance)".
Definition new_description : pystr :=
  lit "Solr performance monitoring dashboard with support for multiple instances. Use template variables to filter by instance, job, and core.".

(** The script, from the loaded dashboard to the document it writes. *)
Definition add_templating (dashboard : json) : option json :=
  match dashboard with
  | JObj fields =>
      let fields := set_item (lit "templating") templating fields in
      fields <- match assoc (lit "panels") fields with
                | None => Some fields
                | Some panels =>
                    elements <- py_iter panels ;;
                    elements <- omap update_panel elements ;;
                    Some (set_item (lit "panels") (updated panels elements) fields)
                end ;;
      let fields := set_item (lit "title") (JStr new_title) fields in
      let fields := set_item (lit "description") (JStr new_description) fields in
      version_value <- get (JObj fields) (lit "version") (JNum 0) ;;
      version <- as_num version_value ;;
      version <- num_add version (NInt 1) ;;
      Some (JObj (set_item (lit "version") (of_num version) fields))
  | _ => None
  end.

End Dashboard.

(** ** [create_auth_request] of [scripts/health-api.py] *)

Module HealthRequest.

(** The headers [create_auth_request] puts on the request it opens, given
    [SOLR_ADMIN_USER] and [SOLR_ADMIN_PASSWORD]: basic authentication when
    both are non-empty.  [credentials.encode()] is UTF-8 and may raise. *)
Definition create_auth_request (SOLR_ADMIN_USER SOLR_ADMIN_PASSWORD : pystr)
  : result (list (pystr * pystr)) :=
  if truthy (JStr SOLR_ADMIN_USER) && truthy (JStr SOLR_ADMIN_PASSWORD) then
    let credentials := SOLR_ADMIN_USER ++ lit ":" ++ SOLR_ADMIN_PASSWORD in
    rbind (PyStr.encode_utf8 credentials) (fun encoded =>
    let encoded_credentials := Base64.b64encode encoded in
    Ok [(lit "Authorization", lit "Basic " ++ encoded_credentials)])
  else Ok [].

End HealthRequest.

(** ** The dashboard scripts as programs on files *)

Module DashboardFiles.

(** [with open(path, 'w') as f: json.dump(document, f, indent=2)]; the file
    system is taken to accept the write, and a later [json.load] of the file
    gives the document back. *)
Definition write (fs : filesystem) (path : pystr) (document : json) : filesystem :=
  fun p => if pystr_eqb p path then Present (Ok document) else fs p.

(** How a run ends: normally, by [sys.exit(1)], or by an uncaught exception. *)
Inductive ending : Type :=
| Completed
| Exit1
| Traceback.

(** The standard output of a run, as what [print] does with a line there: it
    writes the line, or it raises (so does a stream whose encoding cannot
    express a character of the line, with [UnicodeEncodeError]).  A failure
    that shows only when the stream is flushed at exit is not modelled. *)
Definition console : Type := pystr -> result unit.

(** A script acts on the file system; it goes on with a value or stops. *)
Inductive step (A : Type) : Type :=
| Next (a : A)
| Stop (how : ending).
Arguments Next {A} a.
Arguments Stop {A} how.

Definition script (A : Type) : Type := filesystem -> step A * filesystem.

Definition sbind {A B} (m : script A) (k : A -> script B) : script B :=
  fun fs => match m fs with
            | (Next a, fs') => k a fs'
            | (Stop how, fs') => (Stop how, fs')
            end.

Declare Scope script_scope.
Delimit Scope script_scope with script.
Notation "x <- m ;; k" := (sbind m (fun x => k))
  (at level 61, m at next level, right associativity) : script_scope.
Local Open Scope script_scope.

Definition skip : script unit := fun fs => (Next tt, fs).

(** Consecutive calls of [print], one line each; an exception is not caught. *)
Fixpoint print_all (out : console) (lines : list pystr) : script unit :=
  match lines with
  | [] => skip
  | line :: rest =>
      fun fs => match out line with
                | Ok _ => print_all out rest fs
                | Raise _ => (Stop Traceback, fs)
                end
  end.

(** [os.path.exists(path)] *)
Definition path_exists (path : pystr) : script bool :=
  fun fs => (Next (match fs path with Absent => false | Present _ => true end), fs).

(** [with open(path, 'r') as f: json.load(f)] *)
Definition load (path : pystr) : script json :=
  fun fs => (match fs path with
             | Present (Ok document) => Next document
             | _ => Stop Traceback
             end, fs).

Definition dump (path : pystr) (document : json) : script unit :=
  fun fs => (Next tt, write fs path document).

(** A call of a function that may raise. *)
Definition call (returned : option json) : script json :=
  fun fs => (match returned with
             | Some document => Next document
             | None => Stop Traceback
             end, fs).

(** [sys.exit(1)] *)
Definition sys_exit_1 : script unit := fun fs => (Stop Exit1, fs).

Definition finish (run : step unit * filesystem) : ending * filesystem :=
  match run with
  | (Next _, fs) => (Completed, fs)
  | (Stop how, fs) => (how, fs)
  end.

Definition DASHBOARD_PATH : pystr := lit "monitoring/grafana/dashboards/solr-dashboard.json".

(** [backup_path], with [stamp] for
    [datetime.now().strftime('%Y%m%d-%H%M%S')]. *)
Definition backup_path (stamp : pystr) : pystr :=
  DASHBOARD_PATH ++ lit ".backup-query-" ++ stamp.

(** The lines [main] prints, in the order of the source. *)
Definition rule : pystr := repeat 61%N 70.

Definition banner : list pystr :=
  [rule; lit "  Add Query Performance Dashboard v2.5.0"; rule; []].

Definition msg_not_found : list pystr :=
  [0x274C%N :: lit " ERROR: Dashboard not found at " ++ DASHBOARD_PATH].

Definition msg_backup (stamp : pystr) : list pystr :=
  [0x1F4E6%N :: lit " Creating backup: " ++ backup_path stamp].

Definition msg_adding : list pystr :=
  [0x2705%N :: lit " Backup created";
   [];
   0x1F527%N :: lit " Adding query performance panels..."].

Definition msg_writing : list pystr :=
  [0x2705%N :: lit " Added 6 new panels:";
   lit "   - Query Latency Percentiles (p50, p95, p99)";
   lit "   - Slow Queries (>1s)";
   lit "   - Query Rate by Handler";
   lit "   - Query Cache Hit Ratio";
   lit "   - Average Query Time Trend";
   [];
   0x1F4BE%N :: lit " Writing updated dashboard to " ++ DASHBOARD_PATH].

Definition msg_done : list pystr :=
  [0x2705%N :: lit " Dashboard updated successfully!";
   [];
   rule;
   lit "  Next Steps";
   rule;
   [];
   lit "1. Restart Grafana to load new dashboard:";
   lit "   docker compose restart grafana";
   [];
   lit "2. Open Grafana and navigate to Solr dashboard";
   lit "   http://localhost:3000";
   [];
   lit "3. Scroll down to see new 'Query Performance Analysis' section";
   [];
   lit "Note: Some metrics require Solr Exporter with extended config.";
   lit "      If panels show 'No data', check exporter configuration.";
   []].

(** [main()] of [add-query-performance-dashboard.py] on the standard output
    [out]. *)
Definition add_query_main (out : console) (stamp : pystr) (fs : filesystem)
  : ending * filesystem :=
  finish
    ((printed <- print_all out banner ;;
      found <- path_exists DASHBOARD_PATH ;;
      checked <- (if found then skip
                  else (printed <- print_all out msg_not_found ;; sys_exit_1)) ;;
      printed <- print_all out (msg_backup stamp) ;;
      dashboard <- load DASHBOARD_PATH ;;
      written <- dump (backup_path stamp) dashboard ;;
      printed <- print_all out msg_adding ;;
      dashboard <- call (Dashboard.add_query_performance_panels dashboard) ;;
      printed <- print_all out msg_writing ;;
      written <- dump DASHBOARD_PATH dashboard ;;
      print_all out msg_done) fs).

(** [n] runs of a script, each on the output of the one before. *)
Fixpoint runs (script : json -> option json) (n : nat) (d : json) : option json :=
  match n with
  | O => Some d
  | S k => Dashboard.obind (script d) (runs script k)
  end.

End DashboardFiles.

(** ** Notions used in the statements *)

(** Rendering of bytes in hexadecimal, for test vectors. *)
Definition hex_digit (n : N) : N :=
  (if n <? 10 then 48 + n else 87 + n)%N.
Definition hex (b : bytes) : pystr :=
  flat_map (fun x => let n := Byte.to_N x in [hex_digit (n / 16); hex_digit (n mod 16)]%N) b.
Definition ascii_bytes (s : string) : bytes :=
  map byte_of_ascii (list_ascii_of_string s).

(** A character of a base64 text: ASCII, and neither blank nor a space. *)
Definition b64_char (c : N) : bool :=
  (c <? 128)%N && negb (PyStr.is_space c) && negb (c =? PyStr.SPACE)%N.

(** The second and third six-bit values of a group of three bytes. *)
Definition sextet1 (a b : N) : N := N.lor (N.shiftl (N.land a 3) 4) (N.shiftr b 4).
Definition sextet2 (b c : N) : N := N.lor (N.shiftl (N.land b 15) 2) (N.shiftr c 6).

(** The text of a record with the given digest and salt. *)
Definition record_of (digest salt : bytes) : pystr :=
  Base64.b64encode digest ++ [PyStr.SPACE] ++ Base64.b64encode salt.

(** A tape of zero bytes, and one whose bytes count upwards. *)
Definition zero_tape : entropy := fun _ => x00.
Definition counting_tape : entropy := fun i => byte_of_N (N.of_nat i).

(** A text of ASCII characters only. *)
Definition ascii_text (s : pystr) : Prop := Forall (fun c => (c < 128)%N) s.

(** Two standard outputs, on the lines the hasher prints (strings and the
    help text, which is ASCII): one that takes every line, as with UTF-8, and
    one whose encoding is ASCII. *)
Definition utf8_console : HashPassword.console := fun _ => Ok tt.

Definition ascii_console : HashPassword.console :=
  fun p =>
    match p with
    | HashPassword.Line (JStr s) =>
        if forallb (fun c => (c <? 128)%N) s then Ok tt else Raise UnicodeEncodeError
    | _ => Ok tt
    end.

(** The fresh branch of [verify_and_reuse]. *)
Definition fresh_record (password : pystr) : M json :=
  bind (HashPassword.hash_password password None) (fun h => ret (JStr h)).

(** A store whose document is a JSON array. *)
Definition array_store : filesystem := fun _ => Present (Ok (JArr [])).

(** A store with the record of the password "secret123" under a salt of
    thirty-two zero bytes, for the user "solr". *)
Definition solr_record : pystr :=
  lit "2Y2R+9SLHTDf2nKMijEirmQwS8C2fRbQ/mQbDKVB7ZY= AAAAAAAAAAAAAAAAAAAAAAAAAAAAAAAAAAAAAAAAAAA=".

Definition solr_store : filesystem :=
  fun _ => Present (Ok (JObj [(lit "authentication",
                               JObj [(lit "credentials",
                                      JObj [(lit "solr", JStr solr_record)])])])).

(** [n + k] for a small integer [k], as [next_id += 1] and [next_y += 8]
    compute it: integer addition on an [int], floating-point addition of
    [float(k)] on a [float]. *)
Definition bump (n : Dashboard.num) (k : Z) : Dashboard.num :=
  match n with
  | Dashboard.NInt z => Dashboard.NInt (z + k)
  | Dashboard.NFloat x =>
      match Dashboard.float_of_int k with
      | Some f => Dashboard.NFloat (PrimFloat.add x f)
      | None => n
      end
  end.

(** The greatest of a list of integers, or the default for the empty list. *)
Definition int_max (values : list Z) (default : Z) : Z :=
  match values with
  | [] => default
  | v :: r => fold_left Z.max r v
  end.

(** The identifiers and the rows of the six appended panels, given the
    largest identifier [m] and the lowest free row [y]. *)
Definition new_ids (m : Dashboard.num) : list Dashboard.num :=
  [bump m 1;
   bump (bump m 1) 1;
   bump (bump (bump m 1) 1) 1;
   bump (bump (bump (bump m 1) 1) 1) 1;
   bump (bump (bump (bump (bump m 1) 1) 1) 1) 1;
   bump (bump (bump (bump (bump (bump m 1) 1) 1) 1) 1) 1].

Definition new_tops (y : Dashboard.num) : list Dashboard.num :=
  [y; bump y 1; bump y 1; bump (bump y 1) 8; bump (bump y 1) 8;
   bump (bump (bump y 1) 8) 8].

(** The panels one run of [add_query_performance_panels] appends, given the
    largest identifier [m] and the lowest free row [y] of the existing
    panels. *)
Definition appended (m y : Dashboard.num) : list json :=
  [Dashboard.query_row (bump m 1) y;
   Dashboard.panel_latency (bump (bump m 1) 1) (bump y 1);
   Dashboard.panel_slow (bump (bump (bump m 1) 1) 1) (bump y 1);
   Dashboard.panel_rate (bump (bump (bump (bump m 1) 1) 1) 1) (bump (bump y 1) 8);
   Dashboard.panel_cache (bump (bump (bump (bump (bump m 1) 1) 1) 1) 1)
                         (bump (bump y 1) 8);
   Dashboard.panel_trend (bump (bump (bump (bump (bump (bump m 1) 1) 1) 1) 1) 1)
                         (bump (bump (bump y 1) 8) 8)].

(** The document one run writes. *)
Definition after_run (fields : list (pystr * json)) (panels : list json)
           (m y version : Dashboard.num) : json :=
  JObj (set_item (lit "refresh") (JStr (lit "30s"))
         (set_item (lit "version") (Dashboard.of_num (bump version 1))
            (set_item (lit "panels") (JArr (panels ++ appended m y)) fields))).

(** [dashboard.get("version", 0)], as an operand of [+]. *)
Definition version_of (fields : list (pystr * json)) : option Dashboard.num :=
  Dashboard.as_num
    (match assoc (lit "version") fields with Some v => v | None => JNum 0 end).

(** The [float] nearest to an integer within the range, and the quotient of
    two such floats, as [json.load] reads "1e16" and "1.5". *)
Definition float_of (z : Z) : PrimFloat.float :=
  match Dashboard.float_of_int z with Some x => x | None => PrimFloat.infinity end.
Definition float_ratio (a b : Z) : PrimFloat.float :=
  PrimFloat.div (float_of a) (float_of b).

(** A dashboard whose only identifier and whose version are the float 1e16. *)
Definition float_dashboard : json :=
  JObj [(lit "panels", JArr [JObj [(lit "id", JFloat (float_of (10 ^ 16)))]]);
        (lit "version", JFloat (float_of (10 ^ 16)))].

(** A dashboard with one panel, identifier 7, at version 3. *)
Definition sample_dashboard : json :=
  JObj [(lit "title", JStr (lit "Solr Monitoring"));
        (lit "panels",
         JArr [JObj [(lit "id", JNum 7);
                     (lit "gridPos", JObj [(lit "h", JNum 8); (lit "w", JNum 24);
                                           (lit "x", JNum 0); (lit "y", JNum 0)]);
                     (lit "title", JStr (lit "Heap"))]]);
        (lit "version", JNum 3)].

Definition panel_count (d : json) : option nat :=
  match Dashboard.get d (lit "panels") JNull with
  | Some (JArr l) => Some (List.length l)
  | _ => None
  end.

(** The name of a core entry built by [get_cores]. *)
Definition core_name_of (entry : json) : pystr :=
  match entry with
  | JObj ((_, JStr name) :: _) => name
  | _ => []
  end.

(** The keys of a core entry. *)
Definition core_keys : list pystr :=
  [lit "name"; lit "num_docs"; lit "size_mb"; lit "last_modified"].

Definition non_empty (s : pystr) : bool :=
  match s with [] => false | _ => true end.

(** The [y] coordinate of a panel's grid position. *)
Definition panel_top (p : json) : option Dashboard.num :=
  Dashboard.obind (Dashboard.get p (lit "gridPos") (JObj [])) (fun pos =>
  Dashboard.obind (Dashboard.get pos (lit "y") (JNum 0)) Dashboard.as_num).

(** The identifiers of a dashboard's panels. *)
Definition panel_ids (d : json) : option (list Dashboard.num) :=
  Dashboard.obind (Dashboard.get d (lit "panels") JNull) (fun v =>
  Dashboard.obind (Dashboard.as_list v) (Dashboard.omap Dashboard.panel_id)).

(** [dashboard.get("version", 0)] of a document, as a number. *)
Definition version (d : json) : option Dashboard.num :=
  Dashboard.obind (Dashboard.get d (lit "version") (JNum 0)) Dashboard.as_num.

(** The two steps of the expression rewriting, on strings: the job label,
    then the core filter. *)
Definition job_step (s : pystr) : pystr :=
  if Dashboard.contains Dashboard.job_exporter s then
    Dashboard.replace Dashboard.job_exporter
      (if Dashboard.contains (lit "instance=") s then Dashboard.job_variable
       else Dashboard.job_and_instance) s
  else s.

Definition core_step (s : pystr) : pystr :=
  if negb (Dashboard.contains (lit "core=") s)
     && Dashboard.contains (lit "solr_metrics_core") s
     && Dashboard.contains (lit "}") s
  then Dashboard.replace (lit "}") (lit "," ++ Dashboard.core_variable ++ lit "}") s
  else s.

(** The ping answers the code takes as "available": a JSON object whose
    [responseHeader], when present, is an object. *)
Definition usable_ping (fields : list (pystr * json)) : Prop :=
  forall v, assoc (lit "responseHeader") fields = Some v -> exists h, v = JObj h.

(** A store whose [credentials] entry is a list. *)
Definition list_credentials_store : filesystem :=
  fun _ => Present (Ok (JObj [(lit "authentication",
                               JObj [(lit "credentials", JArr [])])])).

(* ====================================================================== *)
(** * Properties *)

(** ** Test vectors *)

(** FIPS 180-4 test vectors. *)
Example sha256_empty :
  hex (Sha256.sha256 []) =
  lit "e3b0c44298fc1c149afbf4c8996fb92427ae41e4649b934ca495991b7852b855".
Proof. vm_compute. reflexivity. Qed.

Example sha256_abc :
  hex (Sha256.sha256 (ascii_bytes "abc")) =
  lit "ba7816bf8f01cfea414140de5dae2223b00361a396177a9cb410ff61f20015ad".
Proof. vm_compute. reflexivity. Qed.

Example sha256_two_blocks :
  hex (Sha256.sha256 (ascii_bytes "abcdbcdecdefdefgefghfghighijhijkijkljklmklmnlmnomnopnopq")) =
  lit "248d6a61d20638b8e5c026930c3e6039a33ce45964ff2167f6ecedd419db06c1".
Proof. vm_compute. reflexivity. Qed.

(** RFC 4648 test vectors, and the decoder on malformed text. *)
Example b64encode_vectors :
  map Base64.b64encode
      [ascii_bytes ""; ascii_bytes "f"; ascii_bytes "fo"; ascii_bytes "foo";
       ascii_bytes "foob"; ascii_bytes "fooba"; ascii_bytes "foobar"]
  = [lit ""; lit "Zg=="; lit "Zm8="; lit "Zm9v"; lit "Zm9vYg=="; lit "Zm9vYmE=";
     lit "Zm9vYmFy"].
Proof. vm_compute. reflexivity. Qed.

Example b64decode_vectors :
  map Base64.b64decode [lit "Zm9vYmE="; lit "Zm9v YmE="; lit "Zm9vYmE"; lit "Z"; lit "="]
  = [Ok (ascii_bytes "fooba"); Ok (ascii_bytes "fooba"); Raise BinasciiError;
     Raise BinasciiError; Ok []].
Proof. vm_compute. reflexivity. Qed.

Example b64decode_not_ascii : Base64.b64decode [233%N] = Raise ValueError.
Proof. reflexivity. Qed.

(** UTF-8: one to four bytes, and a lone surrogate. *)
Example encode_utf8_vectors :
  map PyStr.encode_utf8 [[0x41]; [0xE9]; [0x20AC]; [0x1F600]; [0xDCFF]]%N
  = [Ok [x41]; Ok [xc3; xa9]; Ok [xe2; x82; xac]; Ok [xf0; x9f; x98; x80];
     Raise UnicodeEncodeError].
Proof. vm_compute. reflexivity. Qed.

Example strip_split_vectors :
  PyStr.split PyStr.SPACE (PyStr.strip (lit " a b  ")) = [lit "a"; lit "b"]
  /\ PyStr.split PyStr.SPACE (lit "a  b") = [lit "a"; lit ""; lit "b"]
  /\ PyStr.split PyStr.SPACE (lit "") = [lit ""]
  /\ PyStr.strip (lit "ab" ++ [10%N]) = lit "ab".
Proof. vm_compute. repeat split. Qed.

(** The record of the spec's scenario, and its verification. *)
Example secret123_record :
  fst (HashPassword.hash_password (lit "secret123") (Some (repeat x00 32)) zero_tape)
  = Ok solr_record.
Proof. vm_compute. reflexivity. Qed.

Example verify_password_vectors :
  map (fun pr => fst (HashPassword.verify_password (fst pr) (snd pr) zero_tape))
      [(lit "secret123", JStr solr_record);
       (lit "secret124", JStr solr_record);
       (lit "secret123", JStr (solr_record ++ lit " "));
       (lit "secret123", JStr (lit "abc"));
       (lit "secret123", JStr (lit "abc def"));
       (lit "secret123", JNum 5);
       ([0xDCFF%N], JStr solr_record)]
  = [Ok true; Ok false; Ok false; Ok false; Ok false; Ok false; Ok false].
Proof. vm_compute. reflexivity. Qed.

(** The expression rewriting of the templating script. *)
Example rewrite_expr_vectors :
  Dashboard.rewrite_expr
    (JStr (lit "up{job=" ++ Dashboard.DQ ++ lit "solr-exporter" ++ Dashboard.DQ ++ lit "}"))
  = Some (JStr (lit "up{job=" ++ Dashboard.DQ ++ lit "$job" ++ Dashboard.DQ
                ++ lit ",instance=~" ++ Dashboard.DQ ++ lit "$instance" ++ Dashboard.DQ
                ++ lit "}"))
  /\ Dashboard.rewrite_expr (JStr (lit "rate(solr_metrics_core_errors_total{}[5m])"))
     = Some (JStr (lit "rate(solr_metrics_core_errors_total{,core=~" ++ Dashboard.DQ
                   ++ lit "$core" ++ Dashboard.DQ ++ lit "}[5m])"))
  /\ Dashboard.rewrite_expr (JNum 1) = None
  /\ Dashboard.replace (lit "aa") (lit "b") (lit "aaa") = lit "ba".
Proof. vm_compute. repeat split. Qed.

(** Python's arithmetic on the numbers of a document: [1.5 + 1] is [2.5] and
    [1e16 + 1] is [1e16]; [2**53 + 1] is greater than the float [2.0**53], to
    which [+] rounds it; [2**1024 + 0.0] raises; [max] keeps the first of two
    equal values and never replaces a value by a NaN. *)
Example number_vectors :
  Dashboard.num_add (Dashboard.NFloat (float_ratio 3 2)) (Dashboard.NInt 1)
  = Some (Dashboard.NFloat (float_ratio 5 2))
  /\ Dashboard.num_add (Dashboard.NFloat (float_of (10 ^ 16))) (Dashboard.NInt 1)
     = Some (Dashboard.NFloat (float_of (10 ^ 16)))
  /\ Dashboard.num_gt (Dashboard.NInt (2 ^ 53 + 1)) (Dashboard.NFloat (float_of (2 ^ 53)))
     = true
  /\ Dashboard.num_add (Dashboard.NInt (2 ^ 53 + 1)) (Dashboard.NFloat PrimFloat.zero)
     = Some (Dashboard.NFloat (float_of (2 ^ 53)))
  /\ Dashboard.num_add (Dashboard.NInt (2 ^ 1024)) (Dashboard.NFloat PrimFloat.zero) = None
  /\ Dashboard.py_max [Dashboard.NInt 1; Dashboard.NFloat (float_of 1)] (Dashboard.NInt 0)
     = Dashboard.NInt 1
  /\ Dashboard.py_max [Dashboard.NFloat (float_of 1); Dashboard.NInt 1] (Dashboard.NInt 0)
     = Dashboard.NFloat (float_of 1)
  /\ Dashboard.py_max [Dashboard.NInt 1; Dashboard.NFloat PrimFloat.nan] (Dashboard.NInt 0)
     = Dashboard.NInt 1
  /\ Dashboard.py_max [Dashboard.NInt 3; Dashboard.NFloat (float_ratio 7 2); Dashboard.NInt 2]
                      (Dashboard.NInt 0)
     = Dashboard.NFloat (float_ratio 7 2).
Proof. vm_compute. repeat split. Qed.

(** ** Bounded quantification by enumeration *)

Lemma below_enumerated (n : nat) (x : N) :
  (x < N.of_nat n)%N -> In x (map N.of_nat (seq 0 n)).
Proof.
  intros Hx. apply in_map_iff. exists (N.to_nat x). split.
  - apply N2Nat.id.
  - apply in_seq. lia.
Qed.

Lemma forall_below (n : nat) (P : N -> bool) :
  forallb P (map N.of_nat (seq 0 n)) = true ->
  forall x, (x < N.of_nat n)%N -> P x = true.
Proof.
  intros Hall x Hx. rewrite forallb_forall in Hall.
  apply Hall, below_enumerated, Hx.
Qed.

Lemma forall_below2 (n m : nat) (P : N -> N -> bool) :
  forallb (fun x => forallb (P x) (map N.of_nat (seq 0 m))) (map N.of_nat (seq 0 n)) = true ->
  forall x y, (x < N.of_nat n)%N -> (y < N.of_nat m)%N -> P x y = true.
Proof.
  intros Hall x y Hx Hy.
  apply (forall_below m (P x)); [|exact Hy].
  apply (forall_below n (fun x => forallb (P x) (map N.of_nat (seq 0 m)))); assumption.
Qed.

Lemma byte_to_N_lt (b : byte) : (Byte.to_N b < 256)%N.
Proof. pose proof (Byte.to_N_bounded b). lia. Qed.

Lemma byte_of_to_N (b : byte) : byte_of_N (Byte.to_N b) = b.
Proof.
  unfold byte_of_N. rewrite N.mod_small by apply byte_to_N_lt.
  now rewrite Byte.of_to_N.
Qed.

(** ** Base64: alphabet and round trip *)

Section Base64Facts.
Import Base64.
Local Open Scope N_scope.

Lemma b2a_table (v : N) :
  v < 64 ->
  a2b (b2a v) = Some v /\ (b2a v =? PAD) = false /\ b64_char (b2a v) = true.
Proof.
  intros Hv.
  pose proof (forall_below 64
    (fun v => match a2b (b2a v) with Some w => w =? v | None => false end
              && negb (b2a v =? PAD) && b64_char (b2a v))) as H.
  specialize (H ltac:(vm_compute; reflexivity) v Hv). cbv beta in H.
  apply andb_prop in H as [H Hc]. apply andb_prop in H as [Ha Hp].
  repeat split.
  - destruct (a2b (b2a v)); [|discriminate]. apply N.eqb_eq in Ha. now subst.
  - now apply negb_true_iff.
  - exact Hc.
Qed.

(** The six-bit values of a group are in range, and the decoder's shifts
    rebuild the bytes; each fact involves at most two bytes and is checked on
    all of them. *)
Lemma sextets_of_pair (a b : N) :
  a < 256 -> b < 256 ->
  N.shiftr a 2 < 64 /\ sextet1 a b < 64 /\ sextet2 a b < 64 /\ N.land a 63 < 64
  /\ N.lor (N.shiftl (N.shiftr a 2) 2) (N.shiftr (sextet1 a b) 4) mod 256 = a
  /\ N.lor (N.shiftl (N.land (sextet1 a b) 15) 4) (N.shiftr (sextet2 b a) 2) mod 256 = b
  /\ N.lor (N.shiftl (N.land (sextet2 a b) 3) 6) (N.land b 63) mod 256 = b.
Proof.
  intros Ha Hb.
  pose proof (forall_below2 256 256
    (fun a b =>
       (N.shiftr a 2 <? 64) && (sextet1 a b <? 64) && (sextet2 a b <? 64)
       && (N.land a 63 <? 64)
       && (N.lor (N.shiftl (N.shiftr a 2) 2) (N.shiftr (sextet1 a b) 4) mod 256 =? a)
       && (N.lor (N.shiftl (N.land (sextet1 a b) 15) 4) (N.shiftr (sextet2 b a) 2) mod 256 =? b)
       && (N.lor (N.shiftl (N.land (sextet2 a b) 3) 6) (N.land b 63) mod 256 =? b))) as H.
  specialize (H ltac:(vm_compute; reflexivity) a b Ha Hb). cbv beta in H.
  repeat (apply andb_prop in H as [H ?]).
  repeat match goal with
         | E : (_ <? _) = true |- _ => apply N.ltb_lt in E
         | E : (_ =? _) = true |- _ => apply N.eqb_eq in E
         end.
  tauto.
Qed.

Ltac unbool H :=
  cbv beta in H;
  repeat match type of H with
         | (_ && _) = true => let H' := fresh H in apply andb_prop in H as [H H']
         end;
  repeat match goal with
         | E : (_ <? _) = true |- _ => apply N.ltb_lt in E
         | E : (_ =? _) = true |- _ => apply N.eqb_eq in E
         end.

Lemma final_group1 (a : N) :
  a < 256 ->
  N.shiftl (N.land a 3) 4 < 64
  /\ N.lor (N.shiftl (N.shiftr a 2) 2)
           (N.shiftr (N.shiftl (N.land a 3) 4) 4) mod 256 = a.
Proof.
  intros Ha.
  pose proof (forall_below 256
    (fun a => (N.shiftl (N.land a 3) 4 <? 64)
              && (N.lor (N.shiftl (N.shiftr a 2) 2)
                        (N.shiftr (N.shiftl (N.land a 3) 4) 4) mod 256 =? a))
    ltac:(vm_compute; reflexivity) a Ha) as H.
  unbool H. tauto.
Qed.

Lemma final_group2 (a b : N) :
  a < 256 -> b < 256 ->
  N.shiftl (N.land b 15) 2 < 64
  /\ N.lor (N.shiftl (N.land (sextet1 a b) 15) 4)
           (N.shiftr (N.shiftl (N.land b 15) 2) 2) mod 256 = b.
Proof.
  intros Ha Hb.
  pose proof (forall_below2 256 256
    (fun a b => (N.shiftl (N.land b 15) 2 <? 64)
                && (N.lor (N.shiftl (N.land (sextet1 a b) 15) 4)
                          (N.shiftr (N.shiftl (N.land b 15) 2) 2) mod 256 =? b))
    ltac:(vm_compute; reflexivity) a b Ha Hb) as H.
  unbool H. tauto.
Qed.

(** The middle byte of a group depends on all three bytes through two
    sextets; each sextet contributes a nibble of the middle byte only. *)
Lemma middle_byte (a b c : N) :
  a < 256 -> b < 256 -> c < 256 ->
  N.lor (N.shiftl (N.land (sextet1 a b) 15) 4) (N.shiftr (sextet2 b c) 2) mod 256 = b.
Proof.
  intros Ha Hb Hc.
  pose proof (forall_below2 256 256
    (fun a b => (N.land (sextet1 a b) 15 =? N.shiftr b 4)
                && (N.shiftr (sextet2 a b) 2 =? N.land a 15)
                && (N.lor (N.shiftl (N.shiftr a 4) 4) (N.land a 15) mod 256 =? a))
    ltac:(vm_compute; reflexivity)) as E.
  pose proof (E a b Ha Hb) as E1. pose proof (E b c Hb Hc) as E2.
  unbool E1. unbool E2. congruence.
Qed.

(** The decoder on one character of the alphabet. *)
Lemma a2b_loop_sextet (v : N) rest quad_pos leftchar pads out :
  v < 64 ->
  a2b_loop (b2a v :: rest) quad_pos leftchar pads out =
  match quad_pos with
  | 0%nat => a2b_loop rest 1 v 0 out
  | 1%nat =>
      a2b_loop rest 2 (N.land v 15) 0
               (out ++ [N.lor (N.shiftl leftchar 2) (N.shiftr v 4) mod 256])
  | 2%nat =>
      a2b_loop rest 3 (N.land v 3) 0
               (out ++ [N.lor (N.shiftl leftchar 4) (N.shiftr v 2) mod 256])
  | _ =>
      a2b_loop rest 0 0 0 (out ++ [N.lor (N.shiftl leftchar 6) v mod 256])
  end.
Proof.
  intros Hv. destruct (b2a_table v Hv) as (Hdec & Hpad & _).
  cbn [a2b_loop]. now rewrite Hpad, Hdec.
Qed.

Ltac decode_sextet H := rewrite (a2b_loop_sextet _ _ _ _ _ _ H).

(** Lists taken three elements at a time. *)
Lemma list_ind3 (A : Type) (P : list A -> Prop) :
  P [] -> (forall a, P [a]) -> (forall a b, P [a; b]) ->
  (forall a b c l, P l -> P (a :: b :: c :: l)) ->
  forall l, P l.
Proof.
  intros H0 H1 H2 H3.
  assert (forall l, P l /\ (forall a, P (a :: l)) /\ (forall a b, P (a :: b :: l))) as H.
  { induction l as [|x l (IH0 & IH1 & IH2)].
    - auto.
    - repeat split; auto. }
  intros l. apply H.
Qed.

Lemma a2b_loop_encode_groups (l out : list N) :
  Forall (fun x => x < 256) l ->
  a2b_loop (encode_groups l) 0 0 0 out = Ok (out ++ l).
Proof.
  revert out. induction l as [|a|a b|a b c l IH] using list_ind3; intros out Hl.
  - cbn. now rewrite app_nil_r.
  - inversion_clear Hl as [|? ? Ha _].
    destruct (sextets_of_pair a a Ha Ha) as (H0 & _).
    destruct (final_group1 a Ha) as (H1 & R0).
    cbn [encode_groups]. decode_sextet H0. decode_sextet H1.
    rewrite R0. reflexivity.
  - inversion_clear Hl as [|? ? Ha Hl']. inversion_clear Hl' as [|? ? Hb _].
    destruct (sextets_of_pair a b Ha Hb) as (H0 & H1 & _ & _ & R0 & _).
    destruct (final_group2 a b Ha Hb) as (H2 & R1).
    cbn [encode_groups]. fold (sextet1 a b).
    decode_sextet H0. decode_sextet H1. decode_sextet H2.
    rewrite R0, R1. cbn. now rewrite <- !app_assoc.
  - inversion_clear Hl as [|? ? Ha Hl']. inversion_clear Hl' as [|? ? Hb Hl''].
    inversion_clear Hl'' as [|? ? Hc Hl].
    destruct (sextets_of_pair a b Ha Hb) as (H0 & H1 & _ & _ & R0 & _).
    destruct (sextets_of_pair b c Hb Hc) as (_ & _ & H2 & _ & _ & _ & R2).
    destruct (sextets_of_pair c c Hc Hc) as (_ & _ & _ & H3 & _).
    pose proof (middle_byte a b c Ha Hb Hc) as R1.
    cbn [encode_groups]. fold (sextet1 a b) (sextet2 b c).
    decode_sextet H0. decode_sextet H1. decode_sextet H2. decode_sextet H3.
    rewrite R0, R1, R2, IH by assumption.
    now rewrite <- !app_assoc.
Qed.

Lemma encode_groups_chars (l : list N) :
  Forall (fun x => x < 256) l -> Forall (fun c => b64_char c = true) (encode_groups l).
Proof.
  induction l as [|a|a b|a b c l IH] using list_ind3; intros Hl.
  - constructor.
  - inversion_clear Hl as [|? ? Ha _].
    destruct (sextets_of_pair a a Ha Ha) as (H0 & _).
    destruct (final_group1 a Ha) as (H1 & _).
    cbn [encode_groups]. repeat constructor; try apply b2a_table; assumption.
  - inversion_clear Hl as [|? ? Ha Hl']. inversion_clear Hl' as [|? ? Hb _].
    destruct (sextets_of_pair a b Ha Hb) as (H0 & H1 & _).
    destruct (final_group2 a b Ha Hb) as (H2 & _).
    cbn [encode_groups]. repeat constructor; try apply b2a_table; assumption.
  - inversion_clear Hl as [|? ? Ha Hl']. inversion_clear Hl' as [|? ? Hb Hl''].
    inversion_clear Hl'' as [|? ? Hc Hl].
    destruct (sextets_of_pair a b Ha Hb) as (H0 & H1 & _).
    destruct (sextets_of_pair b c Hb Hc) as (_ & _ & H2 & _).
    destruct (sextets_of_pair c c Hc Hc) as (_ & _ & _ & H3 & _).
    cbn [encode_groups]. repeat constructor; try apply b2a_table; auto.
Qed.

Lemma bytes_below_256 (s : bytes) : Forall (fun x => x < 256) (map Byte.to_N s).
Proof. apply Forall_forall. intros x Hx. apply in_map_iff in Hx as (b & <- & _). apply byte_to_N_lt. Qed.

Lemma b64encode_chars (s : bytes) : Forall (fun c => b64_char c = true) (b64encode s).
Proof. apply encode_groups_chars, bytes_below_256. Qed.

Lemma b64encode_nil (s : bytes) : b64encode s = [] -> s = [].
Proof.
  unfold b64encode. destruct s as [|a [|b [|c r]]]; cbn; intros H; try discriminate; reflexivity.
Qed.

(** Decoding inverts encoding. *)
Lemma b64decode_b64encode (s : bytes) : b64decode (b64encode s) = Ok s.
Proof.
  unfold b64decode.
  assert (forallb (fun c => c <? 128) (b64encode s) = true) as ->.
  { apply forallb_forall. intros c Hc.
    pose proof (b64encode_chars s) as H. rewrite Forall_forall in H.
    specialize (H c Hc). unfold b64_char in H.
    apply andb_prop in H as [H _]. now apply andb_prop in H as [H _]. }
  unfold b64encode. rewrite a2b_loop_encode_groups by apply bytes_below_256.
  cbn [rbind app]. f_equal. rewrite map_map.
  rewrite <- (map_id s) at 2. apply map_ext, byte_of_to_N.
Qed.

End Base64Facts.

(** ** Strings: [strip] and [split] on text without blanks *)

Section PyStrFacts.
Import PyStr.
Local Open Scope N_scope.

Lemma b64_char_not_space (c : N) : b64_char c = true -> is_space c = false /\ (c =? SPACE) = false.
Proof.
  unfold b64_char. intros H. apply andb_prop in H as [H H2]. apply andb_prop in H as [_ H1].
  split; now apply negb_true_iff.
Qed.

Lemma strip_unchanged (a z : N) (m m' : pystr) :
  a :: m = m' ++ [z] -> is_space a = false -> is_space z = false ->
  strip (a :: m) = a :: m.
Proof.
  intros E Ha Hz. unfold strip. cbn [lstrip]. rewrite Ha.
  rewrite E, rev_app_distr. cbn [rev app lstrip]. rewrite Hz.
  change (z :: rev m') with (rev [z] ++ rev m').
  now rewrite <- rev_app_distr, rev_involutive.
Qed.

Lemma split_no_sep (sep : N) (s : pystr) :
  Forall (fun c => (c =? sep) = false) s -> split sep s = [s].
Proof.
  induction 1 as [|c s Hc _ IH]; cbn [split]; [reflexivity|].
  now rewrite Hc, IH.
Qed.

Lemma split_at_sep (sep : N) (x y : pystr) :
  Forall (fun c => (c =? sep) = false) x ->
  split sep (x ++ sep :: y) = x :: split sep y.
Proof.
  induction 1 as [|c s Hc _ IH]; cbn [split app].
  - now rewrite N.eqb_refl.
  - now rewrite Hc, IH.
Qed.

End PyStrFacts.

(** ** SHA-256 yields thirty-two bytes *)

Section Sha256Facts.
Import Sha256.

Lemma compress_length (h block : list N) :
  List.length h = 8%nat -> List.length (compress h block) = 8%nat.
Proof.
  intros Hh. unfold compress.
  destruct (fold_left round K (regs_of_list h, words_of_block block)) as [r w].
  rewrite length_map, length_combine, Hh. reflexivity.
Qed.

Lemma fold_left_keeps_length (A B : Type) (f : list A -> B -> list A) (n : nat) :
  (forall h b, List.length h = n -> List.length (f h b) = n) ->
  forall (blocks : list B) (h : list A),
    List.length h = n -> List.length (fold_left f blocks h) = n.
Proof.
  intros Hf blocks. induction blocks as [|b bs IH]; intros h Hh; cbn [fold_left].
  - exact Hh.
  - apply IH, Hf, Hh.
Qed.

Lemma digest_words_length (msg : list N) : List.length (digest_words msg) = 8%nat.
Proof.
  unfold digest_words.
  apply (fold_left_keeps_length _ _ compress 8 compress_length).
  reflexivity.
Qed.

Lemma sha256_length (msg : bytes) : List.length (sha256 msg) = 32%nat.
Proof.
  unfold sha256. rewrite length_map.
  pose proof (digest_words_length (map Byte.to_N msg)) as H.
  destruct (digest_words (map Byte.to_N msg)) as [|w0 [|w1 [|w2 [|w3 [|w4 [|w5 [|w6 [|w7 [|]]]]]]]]];
    try discriminate H.
  reflexivity.
Qed.

End Sha256Facts.

(** ** The password hasher *)

Section HashPasswordFacts.
Import Sha256 Base64 PyStr HashPassword.

Lemma b64encode_no_space (s : bytes) :
  Forall (fun c => (c =? SPACE)%N = false) (b64encode s).
Proof.
  eapply Forall_impl; [|apply b64encode_chars].
  intros c Hc. now apply b64_char_not_space.
Qed.

Lemma record_tokens (digest salt : bytes) :
  split SPACE (record_of digest salt) = [b64encode digest; b64encode salt].
Proof.
  unfold record_of. cbn [app].
  rewrite split_at_sep by apply b64encode_no_space.
  now rewrite split_no_sep by apply b64encode_no_space.
Qed.

Lemma record_strip (digest salt : bytes) :
  digest <> [] -> salt <> [] -> strip (record_of digest salt) = record_of digest salt.
Proof.
  intros Hd Hs. unfold record_of.
  pose proof (b64encode_chars digest) as Cd. pose proof (b64encode_chars salt) as Cs.
  destruct (b64encode digest) as [|a m] eqn:Ed.
  { now apply b64encode_nil in Ed. }
  destruct (exists_last (l := b64encode salt)) as (m' & z & Es).
  { intros E. now apply b64encode_nil in E. }
  rewrite Es in *. cbn [app].
  apply (strip_unchanged a z (m ++ SPACE :: m' ++ [z]) (a :: m ++ SPACE :: m')).
  - cbn [app]. f_equal. rewrite <- app_assoc. reflexivity.
  - inversion_clear Cd as [|? ? Ha _]. now apply b64_char_not_space in Ha.
  - apply Forall_app in Cs as [_ Cz]. inversion_clear Cz as [|? ? Hz _].
    now apply b64_char_not_space in Hz.
Qed.

Lemma sha256_not_nil (msg : bytes) : sha256 msg <> [].
Proof.
  intros E. pose proof (sha256_length msg) as H. rewrite E in H. discriminate H.
Qed.

Lemma pystr_eqb_refl (s : pystr) : pystr_eqb s s = true.
Proof. unfold pystr_eqb. destruct (list_eq_dec N.eq_dec s s); congruence. Qed.

Lemma pystr_eqb_eq (s t : pystr) : pystr_eqb s t = true <-> s = t.
Proof. unfold pystr_eqb. destruct (list_eq_dec N.eq_dec s t); split; congruence. Qed.

(** [hash_password] with an explicit salt leaves the entropy source alone
    and fails only when the password cannot be encoded. *)
Lemma hash_password_explicit (password : pystr) (salt : bytes) (e : entropy) :
  hash_password password (Some salt) e =
  (rbind (encode_utf8 password)
         (fun pb => Ok (record_of (sha256 (sha256 (salt ++ pb))) salt)), e).
Proof.
  unfold hash_password, bind, ret, lift, record_of.
  destruct (encode_utf8 password); reflexivity.
Qed.

(** Without a salt, the next thirty-two bytes of entropy are used. *)
Lemma hash_password_fresh (password : pystr) (e : entropy) :
  hash_password password None e =
  (rbind (encode_utf8 password)
         (fun pb => Ok (record_of (sha256 (sha256 (map e (seq 0 32) ++ pb)))
                                  (map e (seq 0 32)))),
   fun i => e (32 + i)%nat).
Proof.
  unfold hash_password, bind, ret, lift, record_of, generate_random_salt, token_bytes.
  destruct (encode_utf8 password); reflexivity.
Qed.

(** The verification of a string, step by step. *)
Lemma verify_password_str (password s : pystr) (e : entropy) :
  verify_password password (JStr s) e =
  (Ok match split SPACE (strip s) with
      | [hash_b64; salt_b64] =>
          match b64decode salt_b64 with
          | Ok salt =>
              match encode_utf8 password with
              | Ok pb => pystr_eqb (record_of (sha256 (sha256 (salt ++ pb))) salt) s
              | Raise _ => false
              end
          | Raise _ => false
          end
      | _ => false
      end, e).
Proof.
  unfold verify_password, try_except.
  destruct (split SPACE (strip s)) as [|h [|t [|x r]]]; cbn [List.length Nat.eqb negb];
    try reflexivity.
  unfold bind, lift, ret. destruct (b64decode t) as [salt|x]; [|reflexivity].
  rewrite hash_password_explicit.
  destruct (encode_utf8 password); reflexivity.
Qed.

Lemma verify_password_not_str (password : pystr) (v : json) (e : entropy) :
  (forall s, v <> JStr s) -> verify_password password v e = (Ok false, e).
Proof.
  intros H. destruct v; try reflexivity. now destruct (H s).
Qed.

(** [verify_password] always returns, and never touches the entropy source. *)
Lemma verify_password_returns (password : pystr) (v : json) (e : entropy) :
  exists b, verify_password password v e = (Ok b, e).
Proof.
  destruct v; try (exists false; reflexivity).
  rewrite verify_password_str. eexists. reflexivity.
Qed.

(** What a successful verification says about the record. *)
Lemma verify_password_true (password : pystr) (v : json) (e e' : entropy) :
  verify_password password v e = (Ok true, e') ->
  exists s hash_b64 salt_b64 salt pb,
    v = JStr s /\ split SPACE (strip s) = [hash_b64; salt_b64]
    /\ b64decode salt_b64 = Ok salt /\ encode_utf8 password = Ok pb
    /\ s = record_of (sha256 (sha256 (salt ++ pb))) salt.
Proof.
  intros H. destruct v as [| | |s| | |]; try discriminate H.
  rewrite verify_password_str in H.
  destruct (split SPACE (strip s)) as [|h [|t [|x r]]] eqn:Esplit; try discriminate H.
  destruct (b64decode t) as [salt|] eqn:Edec; try discriminate H.
  destruct (encode_utf8 password) as [pb|] eqn:Epw; try discriminate H.
  injection H as H _. apply pystr_eqb_eq in H.
  exists s, h, t, salt, pb. repeat split; congruence.
Qed.

(** Round trip on a record whose salt is not empty. *)
Lemma verify_password_record (password : pystr) (pb salt : bytes) (e : entropy) :
  encode_utf8 password = Ok pb -> salt <> [] ->
  verify_password password (JStr (record_of (sha256 (sha256 (salt ++ pb))) salt)) e
  = (Ok true, e).
Proof.
  intros Hpw Hs. rewrite verify_password_str.
  rewrite record_strip by (apply sha256_not_nil || assumption).
  rewrite record_tokens, b64decode_b64encode, Hpw.
  now rewrite pystr_eqb_refl.
Qed.

End HashPasswordFacts.

Section HashPasswordClaims.
Import Sha256 Base64 PyStr HashPassword.

Lemma encode_groups_length (l : list N) :
  List.length (encode_groups l) = 4 * ((List.length l + 2) / 3).
Proof.
  induction l as [|a|a b|a b c l IH] using list_ind3; try reflexivity.
  cbn [encode_groups List.length]. rewrite IH.
  replace (S (S (S (List.length l))) + 2) with (List.length l + 2 + 1 * 3) by lia.
  rewrite Nat.div_add by discriminate. lia.
Qed.

Lemma b64encode_length (s : bytes) :
  List.length (b64encode s) = 4 * ((List.length s + 2) / 3).
Proof. unfold b64encode. now rewrite encode_groups_length, length_map. Qed.

(** C1: for a password [P] whose UTF-8 encoding is [pb] and any salt [S],
    [hash_password P S] returns exactly
    [base64(SHA-256(SHA-256(S ++ pb))) ++ " " ++ base64(S)]: the second round
    is applied to the raw first digest, both tokens are padded base64 (the
    digest token has 44 characters, the salt token four characters per
    started group of three bytes), the digest token comes first and the two
    are separated by exactly one space, and the result does not depend on the
    state of the entropy source. *)
Theorem C1_hash_password_format (P : pystr) (S pb : bytes) (e : entropy) :
  encode_utf8 P = Ok pb ->
  hash_password P (Some S) e
  = (Ok (b64encode (sha256 (sha256 (S ++ pb))) ++ [SPACE] ++ b64encode S), e)
  /\ split SPACE (b64encode (sha256 (sha256 (S ++ pb))) ++ [SPACE] ++ b64encode S)
     = [b64encode (sha256 (sha256 (S ++ pb))); b64encode S]
  /\ List.length (b64encode (sha256 (sha256 (S ++ pb)))) = 44
  /\ List.length (b64encode S) = 4 * ((List.length S + 2) / 3)
  /\ forall e', fst (hash_password P (Some S) e') = fst (hash_password P (Some S) e).
Proof.
  intros Hpw. repeat split.
  - rewrite hash_password_explicit, Hpw. reflexivity.
  - apply record_tokens.
  - rewrite b64encode_length, sha256_length. reflexivity.
  - apply b64encode_length.
  - intros e'. now rewrite !hash_password_explicit.
Qed.

(** The spec's scenario: password "secret123" with a salt of 32 zero bytes. *)
Lemma C1_hash_password_format_witness :
  hash_password (lit "secret123") (Some (repeat x00 32)) zero_tape
  = (Ok (b64encode (sha256 (sha256 (repeat x00 32 ++ ascii_bytes "secret123")))
         ++ [SPACE] ++ b64encode (repeat x00 32)), zero_tape).
Proof.
  apply (C1_hash_password_format (lit "secret123") (repeat x00 32)
           (ascii_bytes "secret123") zero_tape).
  vm_compute. reflexivity.
Defined.

(** C2, as stated, fails for the empty salt: the record then ends with the
    separating space, [strip] removes it and a single token is left. *)
Lemma C2_empty_salt_counterexample :
  exists r,
    hash_password (lit "secret123") (Some []) zero_tape = (Ok r, zero_tape)
    /\ verify_password (lit "secret123") (JStr r) zero_tape = (Ok false, zero_tape).
Proof.
  eexists. split.
  - rewrite hash_password_explicit. vm_compute. reflexivity.
  - rewrite verify_password_str. vm_compute. reflexivity.
Qed.

(** C2 (amended): for every password [P] that can be encoded, every
    non-empty salt [S] and the fresh salt drawn when none is supplied,
    [hash_password] returns a record, and [verify_password] accepts it. *)
Theorem C2_round_trip (P : pystr) (pb : bytes) :
  encode_utf8 P = Ok pb ->
  (forall (S : bytes) (e : entropy), S <> [] ->
     exists r, hash_password P (Some S) e = (Ok r, e)
               /\ verify_password P (JStr r) e = (Ok true, e))
  /\ (forall e : entropy,
        exists r e', hash_password P None e = (Ok r, e')
                     /\ verify_password P (JStr r) e' = (Ok true, e')).
Proof.
  intros Hpw. split.
  - intros S e HS. eexists. split.
    + rewrite hash_password_explicit, Hpw. reflexivity.
    + cbn [rbind]. now apply verify_password_record.
  - intros e. eexists. eexists. split.
    + rewrite hash_password_fresh, Hpw. reflexivity.
    + cbn [rbind]. apply verify_password_record; [assumption|discriminate].
Qed.

Lemma C2_round_trip_witness :
  exists r,
    hash_password (lit "secret123") (Some (repeat x00 32)) zero_tape = (Ok r, zero_tape)
    /\ verify_password (lit "secret123") (JStr r) zero_tape = (Ok true, zero_tape).
Proof.
  apply (C2_round_trip (lit "secret123") (ascii_bytes "secret123")).
  - vm_compute. reflexivity.
  - discriminate.
Defined.

(** The outcome of [verify_password] does not depend on the entropy source. *)
Lemma verify_password_entropy (P : pystr) (R : json) (b : bool) (e e' : entropy) :
  verify_password P R e = (Ok b, e) -> verify_password P R e' = (Ok b, e').
Proof.
  destruct R as [| | |s| | |]; cbn; try (intros H; injection H as <-; reflexivity).
  rewrite !verify_password_str. intros H. injection H as <-. reflexivity.
Qed.

(** C3: [verify_password] returns a boolean for every password and every
    value [R], and leaves the entropy source alone.  It returns [False] when
    [R] is not a string, when [R] (stripped or not) does not split on a
    space into exactly two tokens, when the salt token does not decode, and
    when hashing the password with the decoded salt fails or yields a string
    other than [R]; it returns [True] only if the record recomputed with the
    decoded salt is [R] itself. *)
Theorem C3_verify_password_total (P : pystr) (R : json) (e : entropy) :
  (exists b, verify_password P R e = (Ok b, e))
  /\ ((forall s, R <> JStr s) -> verify_password P R e = (Ok false, e))
  /\ (forall s, R = JStr s ->
        List.length (split SPACE s) <> 2 \/ List.length (split SPACE (strip s)) <> 2 ->
        verify_password P R e = (Ok false, e))
  /\ (forall s hash_b64 salt_b64 x, R = JStr s ->
        split SPACE (strip s) = [hash_b64; salt_b64] ->
        b64decode salt_b64 = Raise x ->
        verify_password P R e = (Ok false, e))
  /\ (forall s hash_b64 salt_b64 salt r, R = JStr s ->
        split SPACE (strip s) = [hash_b64; salt_b64] ->
        b64decode salt_b64 = Ok salt ->
        hash_password P (Some salt) e = (r, e) -> r <> Ok s ->
        verify_password P R e = (Ok false, e))
  /\ (verify_password P R e = (Ok true, e) ->
      exists s hash_b64 salt_b64 salt,
        R = JStr s /\ split SPACE (strip s) = [hash_b64; salt_b64]
        /\ b64decode salt_b64 = Ok salt
        /\ hash_password P (Some salt) e = (Ok s, e)).
Proof.
  split; [apply verify_password_returns|].
  split; [apply verify_password_not_str|].
  split; [|split; [|split]].
  - intros s -> Hlen.
    destruct (verify_password_returns P (JStr s) e) as ([|] & Hb); [|exact Hb].
    exfalso. apply verify_password_true in Hb
      as (s' & h & t & salt & pb & Es & Hsplit & _ & _ & Hrec).
    injection Es as <-. destruct Hlen as [Hlen|Hlen]; apply Hlen.
    + rewrite Hrec, record_tokens. reflexivity.
    + rewrite Hsplit. reflexivity.
  - intros s h t x -> Hsplit Hdec. rewrite verify_password_str, Hsplit, Hdec. reflexivity.
  - intros s h t salt r -> Hsplit Hdec Hhash Hne.
    rewrite verify_password_str, Hsplit, Hdec.
    rewrite hash_password_explicit in Hhash. injection Hhash as <-.
    destruct (encode_utf8 P) as [pb|]; [|reflexivity]. cbn [rbind] in Hne.
    destruct (pystr_eqb _ s) eqn:E; [|reflexivity].
    apply pystr_eqb_eq in E. now rewrite E in Hne.
  - intros H. apply verify_password_true in H
      as (s & h & t & salt & pb & -> & Hsplit & Hdec & Hpw & Hrec).
    exists s, h, t, salt. repeat split; try assumption.
    rewrite hash_password_explicit, Hpw. cbn [rbind]. now rewrite <- Hrec.
Qed.

(** C4, at a store whose document is a JSON array: [load_existing_hashes]
    raises [AttributeError] instead of returning a mapping. *)
Theorem C4_load_raises_on_array :
  load_existing_hashes array_store (lit "security.json") = Raise AttributeError.
Proof. reflexivity. Qed.

(** What [load_existing_hashes] does absorb: an absent file, a file that
    cannot be read and a file that is not JSON all give the empty mapping. *)
Lemma load_existing_hashes_tolerated (fs : filesystem) (path : pystr) :
  (fs path = Absent \/ fs path = Present (Raise JSONDecodeError)
   \/ fs path = Present (Raise OSError)) ->
  load_existing_hashes fs path = Ok (JObj []).
Proof.
  unfold load_existing_hashes. intros [-> | [-> | ->]]; reflexivity.
Qed.

(** On a JSON object whose [authentication] entry is an object, the
    [credentials] entry is returned as it is. *)
Lemma load_existing_hashes_object (fs : filesystem) (path : pystr)
      (doc auth : list (pystr * json)) (creds : json) :
  fs path = Present (Ok (JObj doc)) ->
  assoc (lit "authentication") doc = Some (JObj auth) ->
  assoc (lit "credentials") auth = Some creds ->
  load_existing_hashes fs path = Ok creds.
Proof.
  unfold load_existing_hashes. intros -> Hauth Hcreds.
  cbn [rbind py_get]. rewrite Hauth. cbn [rbind py_get]. now rewrite Hcreds.
Qed.

Lemma verify_and_reuse_cases (fs : filesystem) (u pw path : pystr) (e : entropy) :
  verify_and_reuse fs u pw path e =
  match load_existing_hashes fs path with
  | Raise x => (Raise x, e)
  | Ok store =>
      match py_get store u JNull with
      | Raise x => (Raise x, e)
      | Ok rec =>
          if truthy rec then
            match verify_password pw rec e with
            | (Ok true, _) => (Ok rec, e)
            | _ => fresh_record pw e
            end
          else fresh_record pw e
      end
  end.
Proof.
  unfold verify_and_reuse, bind at 1, lift at 1.
  destruct (load_existing_hashes fs path) as [store|x]; [|reflexivity].
  unfold bind at 1, lift.
  destruct (py_get store u JNull) as [rec|x]; [|reflexivity].
  destruct (truthy rec); [|reflexivity].
  unfold bind at 1.
  destruct (verify_password_returns pw rec e) as (b & ->).
  destruct b; reflexivity.
Qed.

Lemma fresh_record_value (pw : pystr) (e : entropy) :
  fresh_record pw e =
  (rbind (encode_utf8 pw)
         (fun pb => Ok (JStr (record_of (sha256 (sha256 (map e (seq 0 32) ++ pb)))
                                        (map e (seq 0 32))))),
   fun i => e (32 + i)).
Proof.
  unfold fresh_record, bind. rewrite hash_password_fresh.
  destruct (encode_utf8 pw); reflexivity.
Qed.

(** A record that verifies is a non-empty string. *)
Lemma verified_is_truthy (pw : pystr) (rec : json) (e e' : entropy) :
  verify_password pw rec e = (Ok true, e') -> truthy rec = true.
Proof.
  intros H. apply verify_password_true in H
    as (s & h & t & salt & pb & -> & _ & _ & _ & ->).
  unfold record_of. cbn [truthy].
  destruct (b64encode (sha256 (sha256 (salt ++ pb)))); reflexivity.
Qed.

(** C5, as stated, fails when the store holds no record for the user: two
    consecutive calls on an absent store draw different salts and return
    different records. *)
Lemma C5_fresh_twice_counterexample :
  exists r1 e1 r2 e2,
    verify_and_reuse (fun _ => Absent) (lit "solr") (lit "secret123")
                     (lit "security.json") counting_tape = (Ok r1, e1)
    /\ verify_and_reuse (fun _ => Absent) (lit "solr") (lit "secret123")
                        (lit "security.json") e1 = (Ok r2, e2)
    /\ r1 <> r2.
Proof.
  assert (encode_utf8 (lit "secret123") = Ok (ascii_bytes "secret123")) as Hpw
    by (vm_compute; reflexivity).
  do 4 eexists. split; [|split].
  - rewrite verify_and_reuse_cases. cbn [load_existing_hashes py_get assoc truthy].
    rewrite fresh_record_value, Hpw. cbn [rbind]. reflexivity.
  - rewrite verify_and_reuse_cases. cbn [load_existing_hashes py_get assoc truthy].
    rewrite fresh_record_value, Hpw. cbn [rbind]. reflexivity.
  - intros H. vm_compute in H. discriminate H.
Qed.

(** C5 (amended): when the store holds a record for [u] that verifies
    against [pw], [verify_and_reuse] returns that record unchanged and draws
    no entropy, so every further call on the unmodified store returns the
    same string. *)
Theorem C5_reuse_is_stable (fs : filesystem) (u pw path : pystr)
        (creds : list (pystr * json)) (rec : json) (e : entropy) :
  load_existing_hashes fs path = Ok (JObj creds) ->
  assoc u creds = Some rec ->
  verify_password pw rec e = (Ok true, e) ->
  forall e', verify_and_reuse fs u pw path e' = (Ok rec, e').
Proof.
  intros Hload Hrec Hver e'.
  rewrite verify_and_reuse_cases, Hload. cbn [py_get]. rewrite Hrec.
  rewrite (verified_is_truthy pw rec e e Hver).
  now rewrite (verify_password_entropy pw rec true e e' Hver).
Qed.

Lemma C5_reuse_is_stable_witness :
  verify_and_reuse solr_store (lit "solr") (lit "secret123")
                   (lit "security.json") counting_tape
  = (Ok (JStr solr_record), counting_tape).
Proof.
  refine (C5_reuse_is_stable solr_store (lit "solr") (lit "secret123")
            (lit "security.json") [(lit "solr", JStr solr_record)]
            (JStr solr_record) zero_tape _ _ _ counting_tape).
  - vm_compute. reflexivity.
  - vm_compute. reflexivity.
  - vm_compute. reflexivity.
Defined.

(** C6: when the store has no entry for [u], or its entry does not verify
    against [pw], and in particular when the store file is absent or empty
    (not a JSON document), [verify_and_reuse] returns what [hash_password pw]
    returns without a salt: a record built on the next thirty-two bytes of
    the entropy source. *)
Theorem C6_fresh_branch (fs : filesystem) (u pw path : pystr) (e : entropy) :
  (forall creds, load_existing_hashes fs path = Ok (JObj creds) ->
     assoc u creds = None
     \/ (exists rec, assoc u creds = Some rec
                     /\ verify_password pw rec e = (Ok false, e)) ->
     verify_and_reuse fs u pw path e
     = bind (hash_password pw None) (fun h => ret (JStr h)) e)
  /\ (fs path = Absent \/ fs path = Present (Raise JSONDecodeError) ->
      load_existing_hashes fs path = Ok (JObj [])
      /\ verify_and_reuse fs u pw path e
         = bind (hash_password pw None) (fun h => ret (JStr h)) e)
  /\ hash_password pw None e
     = (fst (hash_password pw (Some (map e (seq 0 32))) e), fun i => e (32 + i))
  /\ List.length (map e (seq 0 32)) = 32.
Proof.
  split; [|split; [|split]].
  - intros creds Hload Hcase. rewrite verify_and_reuse_cases, Hload. cbn [py_get].
    destruct Hcase as [-> | (rec & -> & Hver)]; [reflexivity|].
    rewrite Hver. now destruct (truthy rec).
  - intros Hfile.
    assert (load_existing_hashes fs path = Ok (JObj [])) as Hload
      by (apply load_existing_hashes_tolerated; tauto).
    split; [exact Hload|].
    rewrite verify_and_reuse_cases, Hload. reflexivity.
  - rewrite hash_password_fresh, hash_password_explicit. reflexivity.
  - rewrite length_map, length_seq. reflexivity.
Qed.

(** C9: whatever [verify_and_reuse] returns verifies against the password,
    and it does return as soon as the password can be encoded and the store
    yields a mapping. *)
Theorem C9_returned_record_verifies (fs : filesystem) (u pw path : pystr) (e : entropy) :
  (forall r e', verify_and_reuse fs u pw path e = (Ok r, e') ->
                verify_password pw r e' = (Ok true, e'))
  /\ (forall pb creds, encode_utf8 pw = Ok pb ->
        load_existing_hashes fs path = Ok (JObj creds) ->
        exists r e', verify_and_reuse fs u pw path e = (Ok r, e')).
Proof.
  assert (forall r e', fresh_record pw e = (Ok r, e') ->
                       verify_password pw r e' = (Ok true, e')) as Hfresh.
  { intros r e'. rewrite fresh_record_value.
    destruct (encode_utf8 pw) as [pb|] eqn:Hpw; cbn [rbind]; intros H; [|discriminate H].
    injection H as <- <-.
    apply (verify_password_record pw pb (map e (seq 0 32)) _ Hpw). discriminate. }
  split.
  - intros r e'. rewrite verify_and_reuse_cases.
    destruct (load_existing_hashes fs path) as [store|]; [|discriminate].
    destruct (py_get store u JNull) as [rec|]; [|discriminate].
    destruct (truthy rec); [|apply Hfresh].
    destruct (verify_password_returns pw rec e) as (b & Hb). rewrite Hb.
    destruct b; [|apply Hfresh].
    intros H. injection H as <- <-. exact Hb.
  - intros pb creds Hpw Hload. rewrite verify_and_reuse_cases, Hload. cbn [py_get].
    assert (exists r e', fresh_record pw e = (Ok r, e')) as Hret.
    { rewrite fresh_record_value, Hpw. cbn [rbind]. eauto. }
    destruct (assoc u creds) as [rec|]; [|exact Hret].
    destruct (truthy rec); [|exact Hret].
    destruct (verify_password_returns pw rec e) as (b & ->).
    destruct b; [eauto|exact Hret].
Qed.

(** Every character of a record is ASCII. *)
Lemma record_ascii (digest salt : bytes) : ascii_text (record_of digest salt).
Proof.
  unfold ascii_text, record_of.
  assert (forall b, Forall (fun c => (c < 128)%N) (b64encode b)) as H.
  { intros b. eapply Forall_impl; [|apply b64encode_chars].
    intros c Hc. unfold b64_char in Hc.
    apply andb_prop in Hc as [Hc _]. apply andb_prop in Hc as [Hc _].
    now apply N.ltb_lt. }
  apply Forall_app. split; [apply H|].
  apply Forall_app. split; [|apply H].
  constructor; [reflexivity|constructor].
Qed.

(** C10: a call of [hash_password] without a salt uses exactly the next
    thirty-two bytes of entropy as its salt, and so does every path of [main]
    that hashes.  In the plain mode [main] prints the record of the password
    under these thirty-two bytes; in the [--reuse] mode it prints what
    [verify_and_reuse] returns, which is the stored record (no entropy drawn)
    or, again, the record under the next thirty-two bytes.  This holds for
    every value of [--salt-bytes], which [main] never reads: its whole
    behaviour is the same for every value. *)
Theorem C10_salt_size_is_fixed :
  (forall pw e,
     hash_password pw None e
     = (fst (hash_password pw (Some (map e (seq 0 32))) e), fun i => e (32 + i))
     /\ List.length (map e (seq 0 32)) = 32)
  /\ (forall out fs a n e,
        main out fs (Args (arg_password a) (arg_verify a) (arg_reuse a) n) e
        = main out fs a e)
  /\ (forall out fs n c p e,
        main out fs (Args (Some (c :: p)) None None n) e
        = (rbind (fst (hash_password (c :: p) (Some (map e (seq 0 32))) e))
                 (fun r => rbind (out (Line (JStr r)))
                                 (fun _ => Ok (Outcome [Line (JStr r)] 0))),
           fun i => e (32 + i)))
  /\ (forall out fs n positional u pw path e,
        main out fs (Args positional None (Some (u, pw, path)) n) e
        = (rbind (fst (verify_and_reuse fs u pw path e))
                 (fun h => rbind (out (Line h)) (fun _ => Ok (Outcome [Line h] 0))),
           snd (verify_and_reuse fs u pw path e))
        /\ verify_and_reuse fs u pw path e
           = match load_existing_hashes fs path with
             | Raise x => (Raise x, e)
             | Ok store =>
                 match py_get store u JNull with
                 | Raise x => (Raise x, e)
                 | Ok rec =>
                     match truthy rec, verify_password pw rec e with
                     | true, (Ok true, _) => (Ok rec, e)
                     | _, _ =>
                         (rbind (fst (hash_password pw (Some (map e (seq 0 32))) e))
                                (fun r => Ok (JStr r)),
                          fun i => e (32 + i))
                     end
                 end
             end).
Proof.
  split; [|split; [|split]].
  - intros pw e. split.
    + rewrite hash_password_fresh, hash_password_explicit. reflexivity.
    + rewrite length_map, length_seq. reflexivity.
  - intros out fs a n e. reflexivity.
  - intros out fs n c p e. unfold main. cbn [arg_verify arg_reuse arg_password].
    unfold bind at 1. rewrite hash_password_fresh, hash_password_explicit. cbn [fst].
    destruct (encode_utf8 (c :: p)) as [pb|x]; cbn [rbind]; [|reflexivity].
    unfold bind, print, lift, ret.
    destruct (out (Line (JStr (record_of (sha256 (sha256 (map e (seq 0 32) ++ pb)))
                                         (map e (seq 0 32))))));
      reflexivity.
  - intros out fs n positional u pw path e. split.
    + unfold main. cbn [arg_verify arg_reuse]. unfold bind at 1.
      destruct (verify_and_reuse fs u pw path e) as [[h|x] e']; cbn [fst snd rbind];
        [|reflexivity].
      unfold bind, print, lift, ret. destruct (out (Line h)); reflexivity.
    + rewrite verify_and_reuse_cases.
      assert (fresh_record pw e
              = (rbind (fst (hash_password pw (Some (map e (seq 0 32))) e))
                       (fun r => Ok (JStr r)),
                 fun i => e (32 + i))) as Hfresh.
      { rewrite fresh_record_value, hash_password_explicit. cbn [fst].
        destruct (encode_utf8 pw); reflexivity. }
      destruct (load_existing_hashes fs path) as [store|x]; [|reflexivity].
      destruct (py_get store u JNull) as [rec|x]; [|reflexivity].
      destruct (truthy rec); [|exact Hfresh].
      destruct (verify_password_returns pw rec e) as (b & ->).
      destruct b; [reflexivity|exact Hfresh].
Qed.

End HashPasswordClaims.

(** ** Dictionaries as item lists *)

Section DictFacts.

Lemma assoc_set_item_same (k : pystr) (v : json) (f : list (pystr * json)) :
  assoc k (set_item k v f) = Some v.
Proof.
  induction f as [|[k0 v0] r IH]; cbn [set_item assoc].
  - now rewrite pystr_eqb_refl.
  - destruct (pystr_eqb k0 k) eqn:E; cbn [assoc]; rewrite E; [reflexivity|exact IH].
Qed.

Lemma assoc_set_item_other (k k' : pystr) (v : json) (f : list (pystr * json)) :
  k' <> k -> assoc k (set_item k' v f) = assoc k f.
Proof.
  intros Hne. induction f as [|[k0 v0] r IH]; cbn [set_item assoc].
  - destruct (pystr_eqb k' k) eqn:E; [|reflexivity].
    apply pystr_eqb_eq in E. contradiction.
  - destruct (pystr_eqb k0 k') eqn:E; cbn [assoc].
    + apply pystr_eqb_eq in E. subst k0.
      destruct (pystr_eqb k' k) eqn:E'; [|reflexivity].
      apply pystr_eqb_eq in E'. contradiction.
    + now rewrite IH.
Qed.

End DictFacts.

(** ** The health aggregator *)

Section HealthApiClaims.
Import HealthApi.

Variable CUSTOMER_NAME : pystr.
Variable round_mb : json -> hresult json.
Variable usage_percent : json -> json -> hresult json.
Variable float_floordiv_1000 : PrimFloat.float -> PrimFloat.float.

(** [check_solr] always returns a dictionary that starts with ["available"]. *)
Lemma check_solr_shape (ping : fetched) :
  exists (available : bool) rest,
    check_solr ping = JObj ((lit "available", JBool available) :: rest).
Proof.
  unfold check_solr. destruct ping as [data|[m|m]]; cbn [hbind]; try (now eauto).
  destruct (hget data (lit "status") JNull) as [status|[m|m]]; cbn [hbind]; try (now eauto).
  destruct (hget data (lit "responseHeader") (JObj [])) as [header|[m|m]];
    cbn [hbind]; try (now eauto).
  destruct (hget header (lit "QTime") (JNum 0)) as [qtime|[m|m]]; cbn [hbind]; now eauto.
Qed.

Lemma handle_health_available (ping cores system : fetched) rest :
  check_solr ping = JObj ((lit "available", JBool true) :: rest) ->
  handle_health CUSTOMER_NAME round_mb usage_percent float_floordiv_1000 ping cores system
  = Reply 200 (lit "application/json")
      (JObj [(lit "customer", JStr CUSTOMER_NAME);
             (lit "version", JStr (lit "2.2.0"));
             (lit "status", JStr (lit "healthy"));
             (lit "solr", check_solr ping);
             (lit "cores", get_cores round_mb cores);
             (lit "system", get_system_info round_mb usage_percent float_floordiv_1000 system);
             (lit "errors", JArr [])]).
Proof.
  intros Hsolr. unfold handle_health, health_checks. rewrite Hsolr.
  generalize (get_cores round_mb cores) (get_system_info round_mb usage_percent float_floordiv_1000 system).
  intros c s. reflexivity.
Qed.

Lemma handle_health_unavailable (ping cores system : fetched) rest :
  check_solr ping = JObj ((lit "available", JBool false) :: rest) ->
  handle_health CUSTOMER_NAME round_mb usage_percent float_floordiv_1000 ping cores system
  = Reply 503 (lit "application/json")
      (JObj [(lit "customer", JStr CUSTOMER_NAME);
             (lit "version", JStr (lit "2.2.0"));
             (lit "status", JStr (lit "unhealthy"));
             (lit "solr", check_solr ping);
             (lit "cores", JArr []);
             (lit "system", JObj []);
             (lit "errors", JArr [JStr (lit "Solr is not available")])]).
Proof.
  intros Hsolr. unfold handle_health, health_checks. rewrite Hsolr. reflexivity.
Qed.

(** C7: whatever the three upstream fetches give, [GET /health] answers with
    a JSON document holding the fields [status], [solr], [cores], [system]
    and [errors] (after [customer] and [version]), with HTTP status 200
    exactly when the document's status is "healthy" and 503 otherwise; and
    [GET /ping] always answers 200 with the static body [{"status": "ok"}]. *)
Theorem C7_health_status_mapping (ping cores system : fetched) :
  (exists code doc,
     do_GET CUSTOMER_NAME round_mb usage_percent float_floordiv_1000 (lit "/health") ping cores system
     = Reply code (lit "application/json") (JObj doc)
     /\ map fst doc
        = [lit "customer"; lit "version"; lit "status"; lit "solr"; lit "cores";
           lit "system"; lit "errors"]
     /\ (code = 200%Z <-> assoc (lit "status") doc = Some (JStr (lit "healthy")))
     /\ (code = 200%Z \/ code = 503%Z))
  /\ do_GET CUSTOMER_NAME round_mb usage_percent float_floordiv_1000 (lit "/ping") ping cores system
     = Reply 200 (lit "application/json") (JObj [(lit "status", JStr (lit "ok"))]).
Proof.
  split; [|reflexivity].
  change (do_GET CUSTOMER_NAME round_mb usage_percent float_floordiv_1000 (lit "/health") ping cores system)
    with (handle_health CUSTOMER_NAME round_mb usage_percent float_floordiv_1000 ping cores system).
  destruct (check_solr_shape ping) as ([|] & rest & Hsolr).
  - rewrite (handle_health_available ping cores system rest Hsolr).
    do 2 eexists. split; [reflexivity|]. split; [reflexivity|]. split; [|now left].
    split; reflexivity.
  - rewrite (handle_health_unavailable ping cores system rest Hsolr).
    do 2 eexists. split; [reflexivity|]. split; [reflexivity|]. split; [|now right].
    split; intros H; discriminate H.
Qed.

End HealthApiClaims.

(** ** The dashboard scripts *)

Section DashboardClaims.
Import Dashboard.
Local Open Scope Z_scope.

Ltac distinct_keys := let H := fresh in intros H; vm_compute in H; discriminate H.

Lemma omap_app (A B : Type) (f : A -> option B) (l l' : list A) (r r' : list B) :
  omap f l = Some r -> omap f l' = Some r' -> omap f (l ++ l') = Some (r ++ r').
Proof.
  revert r. induction l as [|a l IH]; intros r; cbn [omap app].
  - intros H. injection H as <-. tauto.
  - destruct (f a) as [b|]; cbn [obind]; [|discriminate].
    destruct (omap f l) as [bs|]; cbn [obind]; [|discriminate].
    intros H H'. injection H as <-. now rewrite (IH bs eq_refl H').
Qed.

Lemma omap_length (A B : Type) (f : A -> option B) (l : list A) (r : list B) :
  omap f l = Some r -> List.length r = List.length l.
Proof.
  revert r. induction l as [|a l IH]; intros r; cbn [omap].
  - intros H. now injection H as <-.
  - destruct (f a) as [b|]; cbn [obind]; [|discriminate].
    destruct (omap f l) as [bs|]; cbn [obind]; [|discriminate].
    intros H. injection H as <-. cbn [List.length]. now rewrite (IH bs eq_refl).
Qed.

(** A function that accepts its own results does so on lists. *)
Lemma omap_again (A : Type) (f : A -> option A) (l l' : list A) :
  (forall x y, f x = Some y -> exists z, f y = Some z) ->
  omap f l = Some l' -> exists l'', omap f l' = Some l''.
Proof.
  intros Hf. revert l'. induction l as [|a l IH]; intros l'; cbn [omap].
  - intros H. injection H as <-. exists []. reflexivity.
  - destruct (f a) as [b|] eqn:Ea; cbn [obind]; [|discriminate].
    destruct (omap f l) as [bs|]; cbn [obind]; [|discriminate].
    intros H. injection H as <-.
    destruct (Hf a b Ea) as (c & Ec). destruct (IH bs eq_refl) as (cs & Ecs).
    exists (c :: cs). cbn [omap]. rewrite Ec, Ecs. reflexivity.
Qed.

(** *** Numbers *)

Lemma as_num_of_num (n : num) : as_num (of_num n) = Some n.
Proof. destruct n; reflexivity. Qed.

(** Adding a small integer never raises. *)
Lemma num_add_small (n : num) (k : Z) :
  float_of_int k <> None -> num_add n (NInt k) = Some (bump n k).
Proof.
  intros Hk. destruct n as [z|x]; [reflexivity|].
  unfold num_add, bump. destruct (float_of_int k); [reflexivity|contradiction].
Qed.

Lemma num_add_1 (n : num) : num_add n (NInt 1) = Some (bump n 1).
Proof. apply num_add_small. vm_compute. discriminate. Qed.

Lemma num_add_8 (n : num) : num_add n (NInt 8) = Some (bump n 8).
Proof. apply num_add_small. vm_compute. discriminate. Qed.

(** On integers [max] is the greatest element. *)
Lemma fold_left_max_ints (l : list Z) (a : Z) :
  fold_left (fun m x => if num_gt x m then x else m) (map NInt l) (NInt a)
  = NInt (fold_left Z.max l a).
Proof.
  revert a. induction l as [|x l IH]; intros a; cbn [map fold_left]; [reflexivity|].
  assert ((if num_gt (NInt x) (NInt a) then NInt x else NInt a) = NInt (Z.max a x)) as ->.
  { cbn [num_gt]. destruct (Z.ltb_spec a x); f_equal; lia. }
  apply IH.
Qed.

Lemma py_max_ints (l : list Z) (default : Z) :
  py_max (map NInt l) (NInt default) = NInt (int_max l default).
Proof. destruct l as [|x l]; [reflexivity|]. apply fold_left_max_ints. Qed.

Lemma fold_left_max_ge (l : list Z) (a : Z) :
  a <= fold_left Z.max l a /\ forall i, In i l -> i <= fold_left Z.max l a.
Proof.
  revert a. induction l as [|x l IH]; intros a; cbn [fold_left In].
  - split; [lia|tauto].
  - destruct (IH (Z.max a x)) as (H1 & H2). split; [lia|].
    intros i [<-|Hi]; [lia|auto].
Qed.

Lemma int_max_ge (l : list Z) (default i : Z) : In i l -> i <= int_max l default.
Proof.
  destruct l as [|x l]; [contradiction|]. cbn [int_max].
  destruct (fold_left_max_ge l x) as (H1 & H2). intros [<-|Hi]; auto.
Qed.

Lemma new_ids_ints (z : Z) :
  new_ids (NInt z) = map NInt (map (Z.add z) [1; 2; 3; 4; 5; 6]).
Proof.
  unfold new_ids. cbn [bump map].
  repeat (apply (f_equal2 cons); [f_equal; lia|]). reflexivity.
Qed.

Lemma new_tops_ints (z : Z) :
  new_tops (NInt z) = map NInt (map (Z.add z) [0; 1; 1; 9; 9; 17]).
Proof.
  unfold new_tops. cbn [bump map].
  repeat (apply (f_equal2 cons); [f_equal; lia|]). reflexivity.
Qed.

(** *** The appended panels *)

Lemma new_panel_ids (i y : num) :
  panel_id (query_row i y) = Some i /\ panel_id (panel_latency i y) = Some i
  /\ panel_id (panel_slow i y) = Some i /\ panel_id (panel_rate i y) = Some i
  /\ panel_id (panel_cache i y) = Some i /\ panel_id (panel_trend i y) = Some i.
Proof. repeat split; destruct i; vm_compute; reflexivity. Qed.

Lemma new_panel_bottoms (i y : num) :
  panel_bottom (query_row i y) = Some (bump y 1)
  /\ panel_bottom (panel_latency i y) = Some (bump y 8)
  /\ panel_bottom (panel_slow i y) = Some (bump y 8)
  /\ panel_bottom (panel_rate i y) = Some (bump y 8)
  /\ panel_bottom (panel_cache i y) = Some (bump y 8)
  /\ panel_bottom (panel_trend i y) = Some (bump y 8).
Proof. repeat split; destruct y; vm_compute; reflexivity. Qed.

Lemma appended_ids (m y : num) : omap panel_id (appended m y) = Some (new_ids m).
Proof.
  unfold appended. cbn [omap].
  repeat match goal with
         | |- context [panel_id (?p ?i ?y')] =>
             let E := fresh in
             assert (panel_id (p i y') = Some i) as E by apply new_panel_ids;
             rewrite E; clear E
         end.
  reflexivity.
Qed.

Lemma appended_bottoms (m y : num) :
  exists bottoms, omap panel_bottom (appended m y) = Some bottoms.
Proof.
  unfold appended. cbn [omap].
  repeat match goal with
         | |- context [panel_bottom (?p ?i ?y')] =>
             let E := fresh in
             first [ assert (panel_bottom (p i y') = Some (bump y' 1)) as E
                       by apply new_panel_bottoms
                   | assert (panel_bottom (p i y') = Some (bump y' 8)) as E
                       by apply new_panel_bottoms ];
             rewrite E; clear E
         end.
  cbn [obind]. eauto.
Qed.

Lemma appended_length (m y : num) : List.length (appended m y) = 6%nat.
Proof. reflexivity. Qed.

(** [add_query_performance_panels] returns exactly on a dictionary whose
    panels are a list of dictionaries with numbers as identifiers and grid
    coordinates, and whose version is a number. *)
Lemma add_query_performance_panels_eq (d : json) :
  add_query_performance_panels d =
  match d with
  | JObj fields =>
      match assoc (lit "panels") fields with
      | Some (JArr panels) =>
          match omap panel_id panels, omap panel_bottom panels, version_of fields with
          | Some ids, Some bottoms, Some version =>
              Some (after_run fields panels (py_max ids (NInt 0))
                              (py_max bottoms (NInt 0)) version)
          | _, _, _ => None
          end
      | _ => None
      end
  | _ => None
  end.
Proof.
  destruct d as [| | | | |fields|]; try reflexivity.
  unfold add_query_performance_panels, get. cbn [obind].
  destruct (assoc (lit "panels") fields) as [[| | | |panels| |]|] eqn:Ep;
    cbn [as_list obind]; try reflexivity.
  destruct (omap panel_id panels) as [ids|]; cbn [obind]; [|reflexivity].
  rewrite num_add_1. cbn [obind].
  destruct (omap panel_bottom panels) as [bottoms|]; cbn [obind]; [|reflexivity].
  repeat (first [rewrite num_add_1 | rewrite num_add_8]; cbn [obind]).
  rewrite assoc_set_item_other by distinct_keys. fold (version_of fields).
  destruct (version_of fields) as [version|]; cbn [obind]; [|reflexivity].
  rewrite num_add_1. reflexivity.
Qed.

Lemma after_run_fields (fields : list (pystr * json)) (panels : list json)
      (m y version : num) :
  exists fields',
    after_run fields panels m y version = JObj fields'
    /\ assoc (lit "panels") fields' = Some (JArr (panels ++ appended m y))
    /\ assoc (lit "version") fields' = Some (of_num (bump version 1)).
Proof.
  eexists. split; [reflexivity|]. split.
  - rewrite !assoc_set_item_other by distinct_keys. apply assoc_set_item_same.
  - rewrite assoc_set_item_other by distinct_keys. apply assoc_set_item_same.
Qed.

(** What a run that returns was given, and what it returns. *)
Lemma add_query_accepts (d d1 : json) :
  add_query_performance_panels d = Some d1 ->
  exists fields panels ids bottoms v,
    d = JObj fields
    /\ assoc (lit "panels") fields = Some (JArr panels)
    /\ omap panel_id panels = Some ids
    /\ omap panel_bottom panels = Some bottoms
    /\ version_of fields = Some v
    /\ d1 = after_run fields panels (py_max ids (NInt 0)) (py_max bottoms (NInt 0)) v.
Proof.
  rewrite add_query_performance_panels_eq.
  destruct d as [| | | | |fields|]; try discriminate.
  destruct (assoc (lit "panels") fields) as [[| | | |panels| |]|] eqn:Ep; try discriminate.
  destruct (omap panel_id panels) as [ids|] eqn:Ei; [|discriminate].
  destruct (omap panel_bottom panels) as [bottoms|] eqn:Eb; [|discriminate].
  destruct (version_of fields) as [v|] eqn:Ev; [|discriminate].
  intros H. injection H as <-. exists fields, panels, ids, bottoms, v. auto 10.
Qed.

(** One run of the appender on a dashboard it accepts; the result is
    accepted again. *)
Lemma add_query_step (fields : list (pystr * json)) (panels : list json)
      (ids bottoms : list num) (v : num) :
  assoc (lit "panels") fields = Some (JArr panels) ->
  omap panel_id panels = Some ids ->
  omap panel_bottom panels = Some bottoms ->
  version_of fields = Some v ->
  exists fields1 bottoms1,
    add_query_performance_panels (JObj fields) = Some (JObj fields1)
    /\ JObj fields1
       = after_run fields panels (py_max ids (NInt 0)) (py_max bottoms (NInt 0)) v
    /\ assoc (lit "panels") fields1
       = Some (JArr (panels ++ appended (py_max ids (NInt 0)) (py_max bottoms (NInt 0))))
    /\ omap panel_id (panels ++ appended (py_max ids (NInt 0)) (py_max bottoms (NInt 0)))
       = Some (ids ++ new_ids (py_max ids (NInt 0)))
    /\ omap panel_bottom
         (panels ++ appended (py_max ids (NInt 0)) (py_max bottoms (NInt 0)))
       = Some bottoms1
    /\ version_of fields1 = Some (bump v 1).
Proof.
  intros Hp Hi Hb Hv.
  destruct (after_run_fields fields panels (py_max ids (NInt 0)) (py_max bottoms (NInt 0)) v)
    as (fields1 & E1 & Hp1 & Hv1).
  destruct (appended_bottoms (py_max ids (NInt 0)) (py_max bottoms (NInt 0))) as (bs & Hbs).
  exists fields1, (bottoms ++ bs).
  split; [|split; [|split; [|split; [|split]]]].
  - rewrite add_query_performance_panels_eq, Hp, Hi, Hb, Hv. now rewrite E1.
  - now rewrite E1.
  - exact Hp1.
  - apply (omap_app _ _ _ _ _ _ _ Hi (appended_ids _ _)).
  - apply (omap_app _ _ _ _ _ _ _ Hb Hbs).
  - unfold version_of. rewrite Hv1. apply as_num_of_num.
Qed.

Lemma app_more_neq (A : Type) (l r : list A) : r <> [] -> l ++ r <> l.
Proof.
  intros Hr H. apply (f_equal (@List.length A)) in H.
  rewrite length_app in H. destruct r; [contradiction|]. cbn [List.length] in H.
  apply (f_equal Z.of_nat) in H. lia.
Qed.

(** No document is left unchanged by a run that returns: it has six panels
    more. *)
Lemma add_query_performance_panels_moves (d d1 : json) :
  add_query_performance_panels d = Some d1 -> d1 <> d.
Proof.
  intros H. apply add_query_accepts in H
    as (fields & panels & ids & bottoms & v & -> & Hp & _ & _ & _ & ->).
  destruct (after_run_fields fields panels (py_max ids (NInt 0)) (py_max bottoms (NInt 0)) v)
    as (fields1 & E1 & Hp1 & _).
  rewrite E1. intros E. injection E as ->. rewrite Hp in Hp1. injection Hp1 as Hp1.
  symmetry in Hp1. revert Hp1. apply app_more_neq. discriminate.
Qed.

(** *** The templating script on its own output *)

Lemma prefix_app (p q s : pystr) : prefix (p ++ q) s = true -> prefix p s = true.
Proof.
  revert s. induction p as [|a p IH]; intros s; [reflexivity|].
  destruct s as [|b s]; cbn [app prefix]; [discriminate|].
  intros H. apply andb_prop in H as [-> H]. now rewrite (IH s H).
Qed.

Lemma contains_app (p q s : pystr) : contains (p ++ q) s = true -> contains p s = true.
Proof.
  induction s as [|b s IH]; cbn [contains]; intros H.
  - apply orb_prop in H as [H|H]; [|discriminate H].
    now rewrite (prefix_app p q [] H).
  - apply orb_prop in H as [H|H].
    + now rewrite (prefix_app p q _ H).
    + rewrite (IH H). apply orb_true_r.
Qed.

(** On a string the rewriting of an expression always succeeds. *)
Lemma rewrite_expr_str (s : pystr) :
  rewrite_expr (JStr s) = Some (JStr (core_step (job_step s))).
Proof.
  unfold rewrite_expr. cbn [py_in obind].
  assert ((if contains job_exporter s
           then if contains (lit "instance=") s
                then py_replace (JStr s) job_exporter job_variable
                else py_replace (JStr s) job_exporter job_and_instance
           else Some (JStr s)) = Some (JStr (job_step s))) as ->.
  { unfold job_step. destruct (contains job_exporter s); [|reflexivity].
    destruct (contains (lit "instance=") s); reflexivity. }
  cbn [obind py_in]. unfold core_step.
  destruct (contains (lit "core=") (job_step s)) eqn:Ec; cbn [negb andb obind];
    [reflexivity|].
  destruct (contains (lit "solr_metrics_core") (job_step s)); cbn [andb obind];
    [|reflexivity].
  destruct (contains core_quoted (job_step s)) eqn:Eq.
  { apply (contains_app (lit "core=") DQ) in Eq. congruence. }
  cbn [obind]. destruct (contains (lit "}") (job_step s)); reflexivity.
Qed.

(** On a list or a dictionary it succeeds only when nothing is to be
    replaced, and then returns the value as it is. *)
Lemma rewrite_expr_other (expr expr' : json) :
  (forall s, expr <> JStr s) -> rewrite_expr expr = Some expr' -> expr' = expr.
Proof.
  intros Hs. destruct expr as [| | |s|l|f|x]; try discriminate.
  - exfalso. now apply (Hs s).
  - unfold rewrite_expr. cbn [py_in obind].
    repeat (match goal with
            | |- context [existsb ?P l] => destruct (existsb P l)
            end; cbn [obind py_in py_replace]);
      intros H; first [discriminate H | injection H as <-; reflexivity].
  - unfold rewrite_expr. cbn [py_in obind].
    repeat (match goal with
            | |- context [existsb ?P f] => destruct (existsb P f)
            end; cbn [obind py_in py_replace]);
      intros H; first [discriminate H | injection H as <-; reflexivity].
Qed.

Lemma rewrite_expr_again (expr expr' : json) :
  rewrite_expr expr = Some expr' -> exists expr'', rewrite_expr expr' = Some expr''.
Proof.
  intros H. destruct expr as [| | |s|l|f|x]; try discriminate H.
  - rewrite rewrite_expr_str in H. injection H as <-. rewrite rewrite_expr_str. eauto.
  - assert (expr' = JArr l) as -> by (apply rewrite_expr_other; [discriminate|exact H]).
    eauto.
  - assert (expr' = JObj f) as -> by (apply rewrite_expr_other; [discriminate|exact H]).
    eauto.
Qed.

Lemma key_in_set_item (k : pystr) (v : json) (f : list (pystr * json)) :
  existsb (fun kv => pystr_eqb (fst kv) k) (set_item k v f) = true.
Proof.
  induction f as [|[k0 v0] r IH]; cbn [set_item existsb fst].
  - now rewrite pystr_eqb_refl.
  - destruct (pystr_eqb k0 k) eqn:E; cbn [existsb fst]; rewrite E; [reflexivity|exact IH].
Qed.

(** A loop over a container whose elements were updated by [f] finds
    elements that [f] accepts again. *)
Lemma iter_updated_again (f : json -> option json) (container : json)
      (els els' : list json) :
  (forall x y, f x = Some y -> exists z, f y = Some z) ->
  py_iter container = Some els -> omap f els = Some els' ->
  exists els1 els1',
    py_iter (updated container els') = Some els1 /\ omap f els1 = Some els1'.
Proof.
  intros Hf Hit Hup.
  destruct container as [| | |s|l|g|x]; try discriminate Hit; cbn [updated].
  - exists els, els'. auto.
  - cbn [py_iter] in Hit. injection Hit as <-.
    destruct (omap_again _ f l els' Hf Hup) as (els'' & Hup').
    exists els', els''. auto.
  - exists els, els'. auto.
Qed.

Lemma update_target_again (target target' : json) :
  update_target target = Some target' ->
  exists target'', update_target target' = Some target''.
Proof.
  unfold update_target at 1.
  destruct (py_in (lit "expr") target) as [[|]|] eqn:Hin; cbn [obind]; try discriminate.
  - destruct target as [| | | | |f|]; cbn [py_getitem]; try discriminate.
    destruct (assoc (lit "expr") f) as [ev|]; cbn [obind]; [|discriminate].
    destruct (rewrite_expr ev) as [ev'|] eqn:Er; cbn [obind py_setitem]; [|discriminate].
    intros H. injection H as <-.
    destruct (rewrite_expr_again ev ev' Er) as (ev'' & Er').
    unfold update_target. cbn [py_in]. rewrite key_in_set_item.
    cbn [obind py_getitem]. rewrite assoc_set_item_same. cbn [obind].
    rewrite Er'. cbn [obind py_setitem]. eauto.
  - intros H. injection H as <-. unfold update_target. rewrite Hin. cbn [obind]. eauto.
Qed.

Lemma update_panel_again (panel panel' : json) :
  update_panel panel = Some panel' ->
  exists panel'', update_panel panel' = Some panel''.
Proof.
  unfold update_panel at 1.
  destruct (py_in (lit "targets") panel) as [[|]|] eqn:Hin; cbn [obind]; try discriminate.
  - destruct panel as [| | | | |f|]; cbn [py_getitem]; try discriminate.
    destruct (assoc (lit "targets") f) as [tv|]; cbn [obind]; [|discriminate].
    destruct (py_iter tv) as [els|] eqn:Hit; cbn [obind]; [|discriminate].
    destruct (omap update_target els) as [els'|] eqn:Hup; cbn [obind py_setitem];
      [|discriminate].
    intros H. injection H as <-.
    destruct (iter_updated_again update_target tv els els' update_target_again Hit Hup)
      as (els1 & els1' & Hit1 & Hup1).
    unfold update_panel. cbn [py_in]. rewrite key_in_set_item.
    cbn [obind py_getitem]. rewrite assoc_set_item_same. cbn [obind].
    rewrite Hit1. cbn [obind]. rewrite Hup1. cbn [obind py_setitem]. eauto.
  - intros H. injection H as <-. unfold update_panel. rewrite Hin. cbn [obind]. eauto.
Qed.

(** The document the script writes, from the entries after the panel loop. *)
Lemma add_templating_inv (fields : list (pystr * json)) (d1 : json) :
  add_templating (JObj fields) = Some d1 ->
  exists fieldsP v,
    d1 = JObj (set_item (lit "version") (of_num (bump v 1))
                (set_item (lit "description") (JStr new_description)
                   (set_item (lit "title") (JStr new_title) fieldsP)))
    /\ version_of fields = Some v
    /\ (match assoc (lit "panels") fields with
        | None => fieldsP = set_item (lit "templating") templating fields
        | Some panels =>
            exists els els',
              py_iter panels = Some els /\ omap update_panel els = Some els'
              /\ fieldsP = set_item (lit "panels") (updated panels els')
                             (set_item (lit "templating") templating fields)
        end).
Proof.
  unfold add_templating, get.
  rewrite (assoc_set_item_other (lit "panels") (lit "templating")) by distinct_keys.
  destruct (assoc (lit "panels") fields) as [panels|].
  - destruct (py_iter panels) as [els|]; cbn [obind]; [|discriminate].
    destruct (omap update_panel els) as [els'|] eqn:Eup; cbn [obind]; [|discriminate].
    rewrite !assoc_set_item_other by distinct_keys. fold (version_of fields).
    destruct (version_of fields) as [v|]; cbn [obind]; [|discriminate].
    rewrite num_add_1. cbn [obind].
    intros H. injection H as <-. eexists. exists v. split; [reflexivity|].
    split; [reflexivity|]. exists els, els'. auto.
  - cbn [obind].
    rewrite !assoc_set_item_other by distinct_keys. fold (version_of fields).
    destruct (version_of fields) as [v|]; cbn [obind]; [|discriminate].
    rewrite num_add_1. cbn [obind].
    intros H. injection H as <-. eexists. exists v. split; [reflexivity|].
    split; reflexivity.
Qed.

(** The script returns as soon as the panels can be updated and the version
    is a number. *)
Lemma add_templating_returns (fields : list (pystr * json)) (v : num) :
  version_of fields = Some v ->
  match assoc (lit "panels") fields with
  | None => True
  | Some panels =>
      exists els els', py_iter panels = Some els /\ omap update_panel els = Some els'
  end ->
  exists d1, add_templating (JObj fields) = Some d1.
Proof.
  intros Hv HP. unfold add_templating, get.
  rewrite (assoc_set_item_other (lit "panels") (lit "templating")) by distinct_keys.
  destruct (assoc (lit "panels") fields) as [panels|].
  - destruct HP as (els & els' & -> & Hup). cbn [obind]. rewrite Hup. cbn [obind].
    rewrite !assoc_set_item_other by distinct_keys. fold (version_of fields).
    rewrite Hv. cbn [obind]. rewrite num_add_1. cbn [obind]. eauto.
  - cbn [obind].
    rewrite !assoc_set_item_other by distinct_keys. fold (version_of fields).
    rewrite Hv. cbn [obind]. rewrite num_add_1. cbn [obind]. eauto.
Qed.

Lemma add_templating_version (d d1 : json) :
  add_templating d = Some d1 ->
  exists fields fields1 version,
    d = JObj fields /\ d1 = JObj fields1 /\ version_of fields = Some version
    /\ assoc (lit "version") fields1 = Some (of_num (bump version 1)).
Proof.
  intros H. destruct d as [| | | | |fields|]; try discriminate H.
  apply add_templating_inv in H as (fieldsP & v & -> & Hv & _).
  eexists fields, _, v. split; [reflexivity|]. split; [reflexivity|].
  split; [exact Hv|]. apply assoc_set_item_same.
Qed.

(** A second run on the output of a run that returned returns as well. *)
Lemma add_templating_again (d d1 : json) :
  add_templating d = Some d1 -> exists d2, add_templating d1 = Some d2.
Proof.
  intros H. destruct d as [| | | | |fields|]; try discriminate H.
  apply add_templating_inv in H as (fieldsP & v & -> & Hv & HP).
  apply (add_templating_returns _ (bump v 1)).
  - unfold version_of. rewrite assoc_set_item_same. apply as_num_of_num.
  - rewrite !assoc_set_item_other by distinct_keys.
    destruct (assoc (lit "panels") fields) as [panels|] eqn:Ep.
    + destruct HP as (els & els' & Hit & Hup & ->). rewrite assoc_set_item_same.
      destruct (iter_updated_again update_panel panels els els' update_panel_again Hit Hup)
        as (els1 & els1' & Hit1 & Hup1).
      exists els1, els1'. auto.
    + subst fieldsP. rewrite assoc_set_item_other by distinct_keys. now rewrite Ep.
Qed.

(** With an integer version the output differs from the input. *)
Lemma add_templating_moves (d d1 : json) (z : Z) :
  add_templating d = Some d1 -> version d = Some (NInt z) -> d1 <> d.
Proof.
  intros H Hz E. apply add_templating_version in H
    as (fields & fields1 & v & -> & -> & Hv & Hv1).
  injection E as ->. unfold version, get in Hz. cbn [obind] in Hz.
  fold (version_of fields) in Hz. rewrite Hv in Hz. injection Hz as ->.
  unfold version_of in Hv. rewrite Hv1 in Hv. cbn in Hv. injection Hv as Hv. lia.
Qed.

(** C8, as stated, fails: a second run of either script on its own output
    yields another document.  On the sample, the appender takes the panels
    from 1 to 7 and then to 13, and both scripts take the version from 3 to 4
    and then to 5. *)
Lemma C8_second_run_counterexample :
  (exists d1 d2,
     add_query_performance_panels sample_dashboard = Some d1
     /\ add_query_performance_panels d1 = Some d2
     /\ panel_count d1 = Some 7%nat /\ panel_count d2 = Some 13%nat
     /\ get d1 (lit "version") JNull = Some (JNum 4)
     /\ get d2 (lit "version") JNull = Some (JNum 5)
     /\ d2 <> d1)
  /\ (exists d1 d2,
        add_templating sample_dashboard = Some d1
        /\ add_templating d1 = Some d2
        /\ get d1 (lit "version") JNull = Some (JNum 4)
        /\ get d2 (lit "version") JNull = Some (JNum 5)
        /\ d2 <> d1).
Proof.
  split.
  - assert (exists d1, add_query_performance_panels sample_dashboard = Some d1)
      as (d1 & E1) by (eexists; vm_compute; reflexivity).
    assert (exists d2, add_query_performance_panels d1 = Some d2) as (d2 & E2).
    { vm_compute in E1. injection E1 as <-. eexists. vm_compute. reflexivity. }
    exists d1, d2. split; [exact E1|]. split; [exact E2|].
    pose proof (add_query_performance_panels_moves _ _ E2) as Hne.
    vm_compute in E1. injection E1 as <-. vm_compute in E2. injection E2 as <-.
    repeat split; try (vm_compute; reflexivity). exact Hne.
  - assert (exists d1, add_templating sample_dashboard = Some d1)
      as (d1 & E1) by (eexists; vm_compute; reflexivity).
    assert (exists d2, add_templating d1 = Some d2) as (d2 & E2).
    { vm_compute in E1. injection E1 as <-. eexists. vm_compute. reflexivity. }
    exists d1, d2. split; [exact E1|]. split; [exact E2|].
    assert (version d1 = Some (NInt 4)) as Hv1.
    { vm_compute in E1. injection E1 as <-. vm_compute. reflexivity. }
    pose proof (add_templating_moves _ _ 4 E2 Hv1) as Hne.
    vm_compute in E1. injection E1 as <-. vm_compute in E2. injection E2 as <-.
    repeat split; try (vm_compute; reflexivity). exact Hne.
Qed.

(** C8 (amended): the scripts are not idempotent.  A run of
    [add_query_performance_panels] that returns appends six panels; a second
    run on its output returns again and yields another document, with six
    panels more.  A second run of the templating script on its own output
    returns as well.  On a dashboard whose panel identifiers are integers the
    identifiers of the six new panels are the six integers after the greatest
    existing identifier (after 0 without panels); on a dashboard whose
    version is an integer every run of either script adds one to it, so the
    second run of the templating script yields another document too. *)
Theorem C8_runs_append_and_move_version (d d1 : json) :
  (add_query_performance_panels d = Some d1 ->
   exists fields fields1 panels ids version new,
     d = JObj fields /\ d1 = JObj fields1
     /\ assoc (lit "panels") fields = Some (JArr panels)
     /\ omap panel_id panels = Some ids
     /\ version_of fields = Some version
     /\ assoc (lit "panels") fields1 = Some (JArr (panels ++ new))
     /\ List.length new = 6%nat
     /\ (forall zs, ids = map NInt zs ->
           omap panel_id new
           = Some (map NInt (map (Z.add (int_max zs 0)) [1; 2; 3; 4; 5; 6])))
     /\ (forall z, version = NInt z ->
           assoc (lit "version") fields1 = Some (JNum (z + 1)))
     /\ exists d2,
          add_query_performance_panels d1 = Some d2 /\ d2 <> d1
          /\ panel_count d2 = Some (List.length panels + 12)%nat)
  /\ (add_templating d = Some d1 ->
      exists fields fields1 version,
        d = JObj fields /\ d1 = JObj fields1
        /\ version_of fields = Some version
        /\ (exists d2, add_templating d1 = Some d2)
        /\ (forall z, version = NInt z ->
              assoc (lit "version") fields1 = Some (JNum (z + 1))
              /\ exists d2, add_templating d1 = Some d2 /\ d2 <> d1)).
Proof.
  split.
  - intros H. apply add_query_accepts in H
      as (fields & panels & ids & bottoms & v & -> & Hp & Hi & Hb & Hv & ->).
    destruct (add_query_step fields panels ids bottoms v Hp Hi Hb Hv)
      as (fields1 & bottoms1 & _ & Ed1 & Hp1 & Hi1 & Hb1 & Hv1).
    exists fields, fields1, panels, ids, v,
      (appended (py_max ids (NInt 0)) (py_max bottoms (NInt 0))).
    split; [reflexivity|]. split; [symmetry; exact Ed1|]. split; [exact Hp|].
    split; [exact Hi|]. split; [exact Hv|]. split; [exact Hp1|].
    split; [reflexivity|]. split; [|split].
    + intros zs ->. rewrite appended_ids, py_max_ints, new_ids_ints. reflexivity.
    + intros z ->. unfold after_run in Ed1. injection Ed1 as ->.
      rewrite assoc_set_item_other by distinct_keys. apply assoc_set_item_same.
    + destruct (add_query_step fields1 _ _ _ _ Hp1 Hi1 Hb1 Hv1)
        as (fields2 & bottoms2 & E2 & _ & Hp2 & _).
      rewrite <- Ed1. exists (JObj fields2). split; [exact E2|].
      split; [exact (add_query_performance_panels_moves _ _ E2)|].
      unfold panel_count, get. rewrite Hp2, !length_app, !appended_length.
      f_equal. lia.
  - intros H. pose proof (add_templating_again _ _ H) as Hagain.
    pose proof (add_templating_version _ _ H)
      as (fields & fields1 & v & -> & -> & Hv & Hv1).
    exists fields, fields1, v.
    split; [reflexivity|]. split; [reflexivity|]. split; [exact Hv|].
    split; [exact Hagain|].
    intros z ->. split; [exact Hv1|].
    destruct Hagain as (d2 & H2). exists d2. split; [exact H2|].
    apply (add_templating_moves _ _ (z + 1) H2).
    unfold version, get. cbn [obind]. now rewrite Hv1.
Qed.

Lemma C8_runs_append_and_move_version_witness :
  exists d1,
    add_query_performance_panels sample_dashboard = Some d1
    /\ panel_count d1 = Some 7%nat
    /\ exists d2, add_query_performance_panels d1 = Some d2 /\ d2 <> d1.
Proof.
  assert (exists d1, add_query_performance_panels sample_dashboard = Some d1)
    as (d1 & E1) by (eexists; vm_compute; reflexivity).
  exists d1. split; [exact E1|].
  destruct (proj1 (C8_runs_append_and_move_version sample_dashboard d1) E1)
    as (fields & fields1 & panels & ids & version & new
        & _ & _ & _ & _ & _ & _ & _ & _ & _ & d2 & E2 & Hne & _).
  split; [|exists d2; split; assumption].
  vm_compute in E1. injection E1 as <-. vm_compute. reflexivity.
Defined.

End DashboardClaims.

(* ====================================================================== *)
(** * Further properties *)

(** ** The password hasher: accepted records *)

Section HashPasswordMore.
Import Sha256 Base64 PyStr HashPassword.

Lemma strip_trailing_space (a z : N) (m m' : pystr) :
  a :: m = m' ++ [z] -> is_space a = false -> is_space z = false ->
  strip ((a :: m) ++ [SPACE]) = a :: m.
Proof.
  intros E Ha Hz. unfold strip.
  assert (lstrip ((a :: m) ++ [SPACE]) = (a :: m) ++ [SPACE]) as ->
    by (cbn [app lstrip]; now rewrite Ha).
  rewrite rev_app_distr.
  assert (lstrip (rev [SPACE] ++ rev (a :: m)) = lstrip (rev (a :: m))) as ->
    by reflexivity.
  rewrite E, rev_app_distr. cbn [rev app lstrip]. rewrite Hz.
  change (z :: rev m') with (rev [z] ++ rev m').
  now rewrite <- rev_app_distr, rev_involutive.
Qed.

Lemma b64encode_ends (s : bytes) :
  s <> [] ->
  exists a m m' z, b64encode s = a :: m /\ b64encode s = m' ++ [z]
                   /\ is_space a = false /\ is_space z = false.
Proof.
  intros Hs. pose proof (b64encode_chars s) as C.
  destruct (b64encode s) as [|a m] eqn:E.
  { now apply b64encode_nil in E. }
  destruct (exists_last (l := a :: m)) as (m' & z & E'); [discriminate|].
  exists a, m, m', z. repeat split; try assumption.
  - inversion_clear C as [|? ? Ha _]. now apply b64_char_not_space in Ha.
  - rewrite E' in C. apply Forall_app in C as [_ Cz].
    inversion_clear Cz as [|? ? Hz _]. now apply b64_char_not_space in Hz.
Qed.

(** A record without salt splits into one token only. *)
Lemma record_without_salt (digest : bytes) :
  digest <> [] -> split SPACE (strip (record_of digest [])) = [b64encode digest].
Proof.
  intros Hd. destruct (b64encode_ends digest Hd) as (a & m & m' & z & E & E' & Ha & Hz).
  unfold record_of. change (b64encode []) with (@nil N). rewrite app_nil_r.
  pose proof (b64encode_no_space digest) as Hno.
  rewrite E in *. rewrite (strip_trailing_space a z m m' E' Ha Hz).
  now apply split_no_sep.
Qed.

Lemma verified_record (P s : pystr) (e e' : entropy) :
  verify_password P (JStr s) e = (Ok true, e') ->
  exists pb salt, encode_utf8 P = Ok pb /\ salt <> []
                  /\ s = record_of (sha256 (sha256 (salt ++ pb))) salt.
Proof.
  intros H. apply verify_password_true in H
    as (s' & h & t & salt & pb & Es & Hsplit & _ & Hpw & Hrec).
  injection Es as <-. exists pb, salt. repeat split; try assumption.
  intros ->. rewrite Hrec, record_without_salt in Hsplit by apply sha256_not_nil.
  discriminate Hsplit.
Qed.

(** X1: [verify_password] accepts exactly the strings that [hash_password]
    returns for that password with some non-empty salt. *)
Theorem X1_verify_accepts_exactly_the_records (P s : pystr) (e : entropy) :
  verify_password P (JStr s) e = (Ok true, e)
  <-> exists salt, salt <> [] /\ hash_password P (Some salt) e = (Ok s, e).
Proof.
  split.
  - intros H. apply verified_record in H as (pb & salt & Hpw & Hs & ->).
    exists salt. split; [exact Hs|]. rewrite hash_password_explicit, Hpw. reflexivity.
  - intros (salt & Hs & H). rewrite hash_password_explicit in H.
    destruct (encode_utf8 P) as [pb|] eqn:Hpw; cbn [rbind] in H; [|discriminate H].
    injection H as <-. now apply verify_password_record.
Qed.

(** X2: a record with a blank character (space, newline, tab, ...) added in
    front or at the end never verifies, although the parser strips blanks
    before it splits: the comparison is made with the unstripped string. *)
Theorem X2_padded_record_is_rejected (P s : pystr) (w : N) (e : entropy) :
  is_space w = true ->
  verify_password P (JStr (w :: s)) e = (Ok false, e)
  /\ verify_password P (JStr (s ++ [w])) e = (Ok false, e).
Proof.
  intros Hw. split.
  - destruct (verify_password_returns P (JStr (w :: s)) e) as ([|] & Hb); [|exact Hb].
    exfalso. apply verified_record in Hb as (pb & salt & _ & _ & Hrec).
    destruct (b64encode_ends (sha256 (sha256 (salt ++ pb))) (sha256_not_nil _))
      as (a & m & _ & _ & E & _ & Ha & _).
    unfold record_of in Hrec. rewrite E in Hrec. injection Hrec as -> _.
    congruence.
  - destruct (verify_password_returns P (JStr (s ++ [w])) e) as ([|] & Hb); [|exact Hb].
    exfalso. apply verified_record in Hb as (pb & salt & _ & Hs & Hrec).
    destruct (b64encode_ends salt Hs) as (_ & _ & m' & z & _ & E' & _ & Hz).
    unfold record_of in Hrec. rewrite E', !app_assoc in Hrec.
    apply app_inj_tail in Hrec as [_ ->]. congruence.
Qed.

Lemma X2_padded_record_is_rejected_witness :
  verify_password (lit "secret123") (JStr (10%N :: solr_record)) zero_tape
  = (Ok false, zero_tape)
  /\ verify_password (lit "secret123") (JStr (solr_record ++ [10%N])) zero_tape
     = (Ok false, zero_tape).
Proof.
  apply (X2_padded_record_is_rejected (lit "secret123") solr_record 10 zero_tape).
  reflexivity.
Defined.

(** X3: a record hashed without an explicit salt has the fixed layout of the
    credential file: 89 characters, the digest token of 44 characters, one
    space at index 44, and a salt token of 44 characters that decodes to the
    thirty-two bytes just drawn; nothing else is drawn. *)
Theorem X3_fresh_record_layout (P : pystr) (pb : bytes) (e : entropy) :
  encode_utf8 P = Ok pb ->
  exists r hash_b64 salt_b64,
    hash_password P None e = (Ok r, fun i => e (32 + i))
    /\ List.length r = 89
    /\ nth 44 r 0%N = SPACE
    /\ split SPACE r = [hash_b64; salt_b64]
    /\ List.length hash_b64 = 44 /\ List.length salt_b64 = 44
    /\ b64decode salt_b64 = Ok (map e (seq 0 32)).
Proof.
  intros Hpw. rewrite hash_password_fresh, Hpw. cbn [rbind].
  set (salt := map e (seq 0 32)).
  set (digest := sha256 (sha256 (salt ++ pb))).
  assert (List.length (b64encode digest) = 44) as Hd
    by (rewrite b64encode_length; unfold digest; rewrite sha256_length; reflexivity).
  assert (List.length (b64encode salt) = 44) as Hs
    by (rewrite b64encode_length; unfold salt; rewrite length_map, length_seq; reflexivity).
  exists (record_of digest salt), (b64encode digest), (b64encode salt).
  split; [reflexivity|]. split; [|split; [|split; [|split; [|split]]]].
  - unfold record_of. rewrite !length_app, Hd, Hs. reflexivity.
  - unfold record_of. rewrite app_nth2 by lia. rewrite Hd. reflexivity.
  - apply record_tokens.
  - exact Hd.
  - exact Hs.
  - apply b64decode_b64encode.
Qed.

Lemma X3_fresh_record_layout_witness :
  exists r hash_b64 salt_b64,
    hash_password (lit "secret123") None counting_tape
    = (Ok r, fun i => counting_tape (32 + i))
    /\ List.length r = 89
    /\ nth 44 r 0%N = SPACE
    /\ split SPACE r = [hash_b64; salt_b64]
    /\ List.length hash_b64 = 44 /\ List.length salt_b64 = 44
    /\ b64decode salt_b64 = Ok (map counting_tape (seq 0 32)).
Proof.
  apply (X3_fresh_record_layout (lit "secret123") (ascii_bytes "secret123") counting_tape).
  vm_compute. reflexivity.
Defined.

End HashPasswordMore.

(** ** The password hasher: the store and the command line *)

Section HashPasswordCli.
Import Sha256 Base64 PyStr HashPassword.

(** X4: on a document that parsed, [load_existing_hashes] returns exactly
    when the document is an object whose [authentication] entry is absent or
    an object; an absent [authentication] or [credentials] entry gives the
    empty mapping, and every other shape raises [AttributeError]. *)
Theorem X4_load_on_parsed_document (fs : filesystem) (path : pystr) (doc : json) :
  fs path = Present (Ok doc) ->
  ((exists creds, load_existing_hashes fs path = Ok creds)
   <-> exists fields,
         doc = JObj fields
         /\ forall v, assoc (lit "authentication") fields = Some v -> exists auth, v = JObj auth)
  /\ ((forall creds, load_existing_hashes fs path <> Ok creds) ->
      load_existing_hashes fs path = Raise AttributeError)
  /\ (forall fields, doc = JObj fields ->
        assoc (lit "authentication") fields = None ->
        load_existing_hashes fs path = Ok (JObj []))
  /\ (forall fields auth, doc = JObj fields ->
        assoc (lit "authentication") fields = Some (JObj auth) ->
        assoc (lit "credentials") auth = None ->
        load_existing_hashes fs path = Ok (JObj [])).
Proof.
  intros Hfs. unfold load_existing_hashes. rewrite Hfs. cbn [rbind].
  split; [|split; [|split]].
  - split.
    + intros (creds & H). destruct doc as [| | | | |fields|]; try discriminate H.
      exists fields. split; [reflexivity|]. intros v Hv. cbn [py_get rbind] in H.
      rewrite Hv in H. destruct v; try discriminate H. eauto.
    + intros (fields & -> & Hshape). cbn [py_get rbind].
      destruct (assoc (lit "authentication") fields) as [v|]; [|cbn; eauto].
      destruct (Hshape v eq_refl) as (auth & ->). cbn. eauto.
  - intros Hno. destruct doc as [| | | | |fields|]; try reflexivity.
    cbn [py_get rbind] in *.
    destruct (assoc (lit "authentication") fields) as [v|].
    + destruct v; try reflexivity. cbn in Hno. now destruct (Hno _ eq_refl).
    + cbn in Hno. now destruct (Hno _ eq_refl).
  - intros fields -> Hauth. cbn [py_get rbind]. rewrite Hauth. reflexivity.
  - intros fields auth -> Hauth Hcreds. cbn [py_get rbind]. rewrite Hauth.
    cbn [py_get rbind]. rewrite Hcreds. reflexivity.
Qed.

Lemma X4_load_on_parsed_document_witness :
  load_existing_hashes (fun _ => Present (Ok (JObj []))) (lit "security.json")
  = Ok (JObj []).
Proof.
  refine (proj1 (proj2 (proj2
            (X4_load_on_parsed_document (fun _ => Present (Ok (JObj [])))
               (lit "security.json") (JObj []) eq_refl))) [] eq_refl _).
  reflexivity.
Defined.

(** X5: when the store's [credentials] entry is not an object (a list, a
    string, a number, null), [verify_and_reuse] raises [AttributeError]
    before it hashes anything or draws entropy. *)
Theorem X5_reuse_raises_on_bad_credentials (fs : filesystem) (u pw path : pystr)
        (creds : json) (e : entropy) :
  load_existing_hashes fs path = Ok creds ->
  (forall fields, creds <> JObj fields) ->
  verify_and_reuse fs u pw path e = (Raise AttributeError, e).
Proof.
  intros Hload Hshape. rewrite verify_and_reuse_cases, Hload.
  destruct creds; try reflexivity. now destruct (Hshape fields).
Qed.

Lemma X5_reuse_raises_on_bad_credentials_witness :
  verify_and_reuse list_credentials_store (lit "solr") (lit "secret123")
                   (lit "security.json") zero_tape
  = (Raise AttributeError, zero_tape).
Proof.
  apply (X5_reuse_raises_on_bad_credentials list_credentials_store (lit "solr")
           (lit "secret123") (lit "security.json") (JArr []) zero_tape).
  - vm_compute. reflexivity.
  - intros fields H. discriminate H.
Defined.

(** X6: with [--verify], [main] ignores the positional password, [--reuse],
    [--salt-bytes] and the file system and draws no entropy.  It hands one
    line to [print]: the check mark line when the password matches, the
    cross line when it does not.  When the standard output takes the line the
    run exits with 0 on a match and with 1 otherwise; when [print] raises, as
    it does on an output whose encoding has no check mark, the exception is
    not caught, even on a match. *)
Theorem X6_main_verify_mode (out : console) (fs : filesystem) (a : args)
        (p h : pystr) (e : entropy) :
  arg_verify a = Some (p, h) ->
  exists b,
    verify_password p (JStr h) e = (Ok b, e)
    /\ main out fs a e
       = (rbind (out (Line (JStr (if b then msg_match else msg_no_match))))
                (fun _ => Ok (Outcome [Line (JStr (if b then msg_match else msg_no_match))]
                                      (if b then 0 else 1))), e)
    /\ (out (Line (JStr (if b then msg_match else msg_no_match))) = Ok tt ->
        main out fs a e
        = (Ok (Outcome [Line (JStr (if b then msg_match else msg_no_match))]
                       (if b then 0 else 1)), e))
    /\ (forall x, out (Line (JStr (if b then msg_match else msg_no_match))) = Raise x ->
                  main out fs a e = (Raise x, e)).
Proof.
  intros Hv. destruct (verify_password_returns p (JStr h) e) as (b & Hb).
  exists b. split; [exact Hb|].
  assert (main out fs a e
          = (rbind (out (Line (JStr (if b then msg_match else msg_no_match))))
                   (fun _ => Ok (Outcome [Line (JStr (if b then msg_match else msg_no_match))]
                                         (if b then 0 else 1))), e)) as Hmain.
  { unfold main. rewrite Hv. unfold bind at 1. rewrite Hb.
    unfold bind, print, lift, ret.
    destruct b;
      match goal with |- context [out ?l] => destruct (out l) end; reflexivity. }
  split; [exact Hmain|]. split.
  - intros Hout. rewrite Hmain, Hout. reflexivity.
  - intros x Hout. rewrite Hmain, Hout. reflexivity.
Qed.

(** The stored record of "secret123" is verified, on a standard output whose
    encoding is ASCII: the run ends with [UnicodeEncodeError]. *)
Lemma X6_main_verify_mode_witness :
  verify_password (lit "secret123") (JStr solr_record) counting_tape
  = (Ok true, counting_tape)
  /\ main ascii_console solr_store
          (Args (Some (lit "other")) (Some (lit "secret123", solr_record))
                (Some (lit "solr", lit "x", lit "security.json")) 16) counting_tape
     = (Raise UnicodeEncodeError, counting_tape)
  /\ main utf8_console solr_store
          (Args (Some (lit "other")) (Some (lit "secret123", solr_record))
                (Some (lit "solr", lit "x", lit "security.json")) 16) counting_tape
     = (Ok (Outcome [Line (JStr msg_match)] 0), counting_tape).
Proof.
  assert (verify_password (lit "secret123") (JStr solr_record) counting_tape
          = (Ok true, counting_tape)) as Hver.
  { rewrite verify_password_str. vm_compute. reflexivity. }
  split; [exact Hver|]. split.
  - destruct (X6_main_verify_mode ascii_console solr_store
                (Args (Some (lit "other")) (Some (lit "secret123", solr_record))
                      (Some (lit "solr", lit "x", lit "security.json")) 16)
                (lit "secret123") solr_record counting_tape eq_refl)
      as (b & Hb & _ & _ & Hraise).
    rewrite Hver in Hb. injection Hb as <-. apply Hraise. reflexivity.
  - destruct (X6_main_verify_mode utf8_console solr_store
                (Args (Some (lit "other")) (Some (lit "secret123", solr_record))
                      (Some (lit "solr", lit "x", lit "security.json")) 16)
                (lit "secret123") solr_record counting_tape eq_refl)
      as (b & Hb & _ & Hok & _).
    rewrite Hver in Hb. injection Hb as <-. apply Hok. reflexivity.
Defined.

(** X7: without [--verify], a run of [main] on a password that can be
    encoded hands exactly one record to [print], and that record is ASCII
    text and verifies against the password: in the plain mode for every
    non-empty password, in the [--reuse] mode whenever the store loads as a
    mapping.  So on every standard output that takes the record, as every
    output that takes ASCII text does, the run prints exactly one record and
    exits with 0. *)
Theorem X7_main_prints_a_verifying_record (out : console) (fs : filesystem) (a : args)
        (pw : pystr) (pb : bytes) (e : entropy) :
  arg_verify a = None ->
  encode_utf8 pw = Ok pb ->
  (arg_reuse a = None -> arg_password a = Some pw -> pw <> [] ->
   exists r,
     main out fs a e
     = (rbind (out (Line (JStr r))) (fun _ => Ok (Outcome [Line (JStr r)] 0)),
        fun i => e (32 + i))
     /\ ascii_text r
     /\ (out (Line (JStr r)) = Ok tt ->
         main out fs a e = (Ok (Outcome [Line (JStr r)] 0), fun i => e (32 + i)))
     /\ forall e', verify_password pw (JStr r) e' = (Ok true, e'))
  /\ (forall u path creds,
        arg_reuse a = Some (u, pw, path) ->
        load_existing_hashes fs path = Ok (JObj creds) ->
        exists r e',
          main out fs a e
          = (rbind (out (Line (JStr r))) (fun _ => Ok (Outcome [Line (JStr r)] 0)), e')
          /\ ascii_text r
          /\ (out (Line (JStr r)) = Ok tt ->
              main out fs a e = (Ok (Outcome [Line (JStr r)] 0), e'))
          /\ verify_password pw (JStr r) e' = (Ok true, e')).
Proof.
  intros Hv Hpw.
  assert (forall (r : json) e',
            bind (print out (Line r)) (fun _ => ret (Outcome [Line r] 0)) e'
            = (rbind (out (Line r)) (fun _ => Ok (Outcome [Line r] 0)), e')) as Hprint.
  { intros r e'. unfold bind, print, lift, ret. destruct (out (Line r)); reflexivity. }
  split.
  - intros Hr Hp Hne.
    assert (main out fs a e
            = (rbind (out (Line (JStr (record_of (sha256 (sha256 (map e (seq 0 32) ++ pb)))
                                                 (map e (seq 0 32))))))
                     (fun _ => Ok (Outcome
                                     [Line (JStr (record_of
                                                    (sha256 (sha256 (map e (seq 0 32) ++ pb)))
                                                    (map e (seq 0 32))))] 0)),
               fun i => e (32 + i))) as Hmain.
    { unfold main. rewrite Hv, Hr, Hp.
      destruct pw as [|c p]; [contradiction|].
      unfold bind at 1. rewrite hash_password_fresh, Hpw. cbn [rbind].
      apply Hprint. }
    eexists. split; [exact Hmain|]. split; [apply record_ascii|]. split.
    + intros Hout. rewrite Hmain, Hout. reflexivity.
    + intros e'. apply (verify_password_record pw pb (map e (seq 0 32)) e' Hpw).
      discriminate.
  - intros u path creds Hr Hload.
    assert (exists r e',
              main out fs a e
              = (rbind (out (Line (JStr r))) (fun _ => Ok (Outcome [Line (JStr r)] 0)), e')
              /\ ascii_text r
              /\ verify_password pw (JStr r) e' = (Ok true, e'))
      as (r & e' & Hmain & Ha & Hver).
    { unfold main. rewrite Hv, Hr. unfold bind at 1.
      rewrite verify_and_reuse_cases, Hload. cbn [py_get].
      assert (exists r e',
                (let (r1, e1) := fresh_record pw e in
                 match r1 with
                 | Ok a0 =>
                     bind (print out (Line a0)) (fun _ => ret (Outcome [Line a0] 0)) e1
                 | Raise x => (Raise x, e1)
                 end)
                = (rbind (out (Line (JStr r)))
                         (fun _ => Ok (Outcome [Line (JStr r)] 0)), e')
                /\ ascii_text r
                /\ verify_password pw (JStr r) e' = (Ok true, e')) as Hfresh.
      { rewrite fresh_record_value, Hpw. cbn [rbind]. rewrite Hprint.
        do 2 eexists. split; [reflexivity|]. split; [apply record_ascii|].
        apply (verify_password_record pw pb (map e (seq 0 32)) _ Hpw). discriminate. }
      destruct (assoc u creds) as [rec|]; [|exact Hfresh].
      destruct (truthy rec); [|exact Hfresh].
      destruct (verify_password_returns pw rec e) as (b & Hb). rewrite Hb.
      destruct b; [|exact Hfresh].
      destruct (verify_password_true pw rec e e Hb)
        as (s0 & h0 & t0 & salt & pb' & -> & _ & _ & _ & Hrec).
      rewrite Hprint. exists s0, e. split; [reflexivity|].
      split; [rewrite Hrec; apply record_ascii|exact Hb]. }
    exists r, e'. split; [exact Hmain|]. split; [exact Ha|]. split; [|exact Hver].
    intros Hout. rewrite Hmain, Hout. reflexivity.
Qed.

Lemma X7_main_prints_a_verifying_record_witness :
  exists r,
    main ascii_console solr_store (Args (Some (lit "secret123")) None None 32)
         counting_tape
    = (Ok (Outcome [Line (JStr r)] 0), fun i => counting_tape (32 + i))
    /\ forall e', verify_password (lit "secret123") (JStr r) e' = (Ok true, e').
Proof.
  destruct (proj1 (X7_main_prints_a_verifying_record ascii_console solr_store
                     (Args (Some (lit "secret123")) None None 32)
                     (lit "secret123") (ascii_bytes "secret123") counting_tape
                     eq_refl eq_refl) eq_refl eq_refl)
    as (r & _ & Ha & Hok & Hver).
  - discriminate.
  - exists r. split; [|exact Hver]. apply Hok.
    unfold ascii_console.
    assert (forallb (fun c => (c <? 128)%N) r = true) as ->; [|reflexivity].
    apply forallb_forall. intros c Hc.
    apply N.ltb_lt. exact (proj1 (Forall_forall _ _) Ha c Hc).
Defined.

End HashPasswordCli.

(** ** The health aggregator: availability and the three checks *)

Section HealthApiMore.
Import HealthApi.

Variable CUSTOMER_NAME : pystr.
Variable round_mb : json -> hresult json.
Variable usage_percent : json -> json -> hresult json.
Variable float_floordiv_1000 : PrimFloat.float -> PrimFloat.float.

Lemma check_solr_usable (fields : list (pystr * json)) :
  usable_ping fields ->
  exists status qtime,
    check_solr (HOk (JObj fields))
    = JObj [(lit "available", JBool true); (lit "status", status);
            (lit "response_time_ms", qtime)].
Proof.
  intros Hu. unfold check_solr. cbn [hbind hget].
  destruct (assoc (lit "responseHeader") fields) as [v|] eqn:Eh.
  - destruct (Hu v Eh) as (h & ->). cbn [hbind hget]. eauto.
  - cbn [hbind hget]. eauto.
Qed.

Lemma check_solr_unusable (ping : fetched) :
  (forall fields, ping = HOk (JObj fields) -> ~ usable_ping fields) ->
  exists msg,
    check_solr ping = JObj [(lit "available", JBool false); (lit "error", JStr msg)].
Proof.
  intros Hno. unfold check_solr. destruct ping as [data|[m|m]]; cbn [hbind]; eauto.
  destruct data as [| | | | |fields|]; cbn [hbind hget no_attribute]; eauto.
  destruct (assoc (lit "responseHeader") fields) as [v|] eqn:Eh.
  - destruct v as [| | | | |h|]; cbn [hbind hget no_attribute]; eauto.
    exfalso. apply (Hno fields eq_refl). intros v Hv. rewrite Hv in Eh.
    injection Eh as ->. eauto.
  - exfalso. apply (Hno fields eq_refl). intros v Hv. rewrite Hv in Eh. discriminate Eh.
Qed.

(** X8: [check_solr] reports Solr as available exactly when the ping
    request returned a JSON object whose [responseHeader], if any, is an
    object; then it copies [status] and [QTime] ([None] and 0 when absent).
    In every other case (the request failed, the body is not an object, the
    header is not an object) it reports unavailability with an error text,
    which for a [URLError] is the error's own text. *)
Theorem X8_check_solr_availability (ping : fetched) :
  (hget (check_solr ping) (lit "available") JNull = HOk (JBool true)
   <-> exists fields, ping = HOk (JObj fields) /\ usable_ping fields)
  /\ (forall fields header, ping = HOk (JObj fields) ->
        assoc (lit "responseHeader") fields = Some (JObj header) ->
        check_solr ping
        = JObj [(lit "available", JBool true);
                (lit "status",
                 match assoc (lit "status") fields with Some v => v | None => JNull end);
                (lit "response_time_ms",
                 match assoc (lit "QTime") header with Some v => v | None => JNum 0 end)])
  /\ ((forall fields, ping = HOk (JObj fields) -> ~ usable_ping fields) ->
      exists msg,
        check_solr ping
        = JObj [(lit "available", JBool false); (lit "error", JStr msg)])
  /\ (forall m, ping = HRaise (URLError m) ->
        check_solr ping = JObj [(lit "available", JBool false); (lit "error", JStr m)])
  /\ (forall fields, ping = HOk (JObj fields) ->
        assoc (lit "responseHeader") fields = None ->
        check_solr ping
        = JObj [(lit "available", JBool true);
                (lit "status",
                 match assoc (lit "status") fields with Some v => v | None => JNull end);
                (lit "response_time_ms", JNum 0)]).
Proof.
  split; [|split; [|split; [|split]]].
  - split.
    + intros H. destruct ping as [data|x].
      * destruct data as [| | | | |fields|]; try (cbn in H; discriminate H).
        exists fields. split; [reflexivity|].
        intros v Hv. unfold check_solr in H. cbn [hbind hget] in H. rewrite Hv in H.
        destruct v as [| | | | |h|]; try (cbn in H; discriminate H). eauto.
      * destruct x; cbn in H; discriminate H.
    + intros (fields & -> & Hu). destruct (check_solr_usable fields Hu) as (s & q & ->).
      reflexivity.
  - intros fields header -> Hh. unfold check_solr. cbn [hbind hget]. rewrite Hh.
    reflexivity.
  - apply check_solr_unusable.
  - intros m ->. reflexivity.
  - intros fields -> Hh. unfold check_solr. cbn [hbind hget]. rewrite Hh.
    reflexivity.
Qed.

(** X9: once the ping is usable the reply is 200 with status "healthy" and
    an empty [errors] list, whatever the core and system requests give: a
    failure of either is reported inside [cores] or [system] and does not
    change the status. *)
Theorem X9_failing_details_stay_healthy (fields : list (pystr * json))
        (cores system : fetched) :
  usable_ping fields ->
  exists doc,
    handle_health CUSTOMER_NAME round_mb usage_percent float_floordiv_1000 (HOk (JObj fields)) cores system
    = Reply 200 (lit "application/json") (JObj doc)
    /\ assoc (lit "status") doc = Some (JStr (lit "healthy"))
    /\ assoc (lit "errors") doc = Some (JArr [])
    /\ (forall x, cores = HRaise x ->
          assoc (lit "cores") doc
          = Some (JArr [JObj [(lit "error", JStr (str_of_exn x))]]))
    /\ (forall x, system = HRaise x ->
          assoc (lit "system") doc = Some (JObj [(lit "error", JStr (str_of_exn x))])).
Proof.
  intros Hu. destruct (check_solr_usable fields Hu) as (s & q & Hs).
  rewrite (handle_health_available CUSTOMER_NAME round_mb usage_percent float_floordiv_1000 _ cores system _ Hs).
  eexists. split; [reflexivity|].
  split; [reflexivity|]. split; [reflexivity|]. split.
  - intros x ->. reflexivity.
  - intros x ->. reflexivity.
Qed.

(** X10: when the ping is not usable, the core and system requests play no
    part: the reply is 503 with status "unhealthy", no cores, no system
    information and the one error "Solr is not available". *)
Theorem X10_unavailable_reply (ping cores system : fetched) :
  (forall fields, ping = HOk (JObj fields) -> ~ usable_ping fields) ->
  handle_health CUSTOMER_NAME round_mb usage_percent float_floordiv_1000 ping cores system
  = Reply 503 (lit "application/json")
      (JObj [(lit "customer", JStr CUSTOMER_NAME);
             (lit "version", JStr (lit "2.2.0"));
             (lit "status", JStr (lit "unhealthy"));
             (lit "solr", check_solr ping);
             (lit "cores", JArr []);
             (lit "system", JObj []);
             (lit "errors", JArr [JStr (lit "Solr is not available")])]).
Proof.
  intros Hno. destruct (check_solr_unusable ping Hno) as (msg & Hs).
  apply (handle_health_unavailable CUSTOMER_NAME round_mb usage_percent float_floordiv_1000 ping cores system _ Hs).
Qed.

Lemma core_entries_shape (items : list (pystr * json)) (entries : list (list json)) :
  hmap (core_entry round_mb) items = HOk entries ->
  map core_name_of (List.concat entries) = filter non_empty (map fst items)
  /\ Forall (fun entry => exists fields, entry = JObj fields /\ map fst fields = core_keys)
            (List.concat entries).
Proof.
  revert entries. induction items as [|[name data] items IH]; intros entries H.
  - injection H as <-. split; [reflexivity|constructor].
  - cbn [hmap] in H.
    destruct (core_entry round_mb (name, data)) as [entry|] eqn:E; cbn [hbind] in H;
      [|discriminate H].
    destruct (hmap (core_entry round_mb) items) as [rest|]; cbn [hbind] in H;
      [|discriminate H].
    injection H as <-. destruct (IH rest eq_refl) as (IHn & IHs).
    cbn [List.concat map fst filter]. unfold core_entry in E.
    destruct name as [|c name].
    + injection E as <-. cbn [app non_empty]. split; assumption.
    + destruct (hget data (lit "index") (JObj [])) as [index|]; cbn [hbind] in E;
        [|discriminate E].
      destruct (hget index (lit "numDocs") (JNum 0)) as [nd|]; cbn [hbind] in E;
        [|discriminate E].
      destruct (hget index (lit "sizeInBytes") (JNum 0)) as [sz|]; cbn [hbind] in E;
        [|discriminate E].
      destruct (round_mb sz) as [mb|]; cbn [hbind] in E; [|discriminate E].
      destruct (hget index (lit "lastModified") (JStr (lit "unknown"))) as [lm|];
        cbn [hbind] in E; [|discriminate E].
      injection E as <-. cbn [app non_empty map core_name_of]. split.
      * now rewrite IHn.
      * constructor; [|exact IHs]. eexists. split; reflexivity.
Qed.

(** X11: [get_cores] is all or nothing.  Either it returns one entry per
    core with a non-empty name, in the order of the [status] object and each
    with the keys name, num_docs, size_mb and last_modified, or (the request
    failed, the body has another shape, a size is not a number) it returns
    the single entry [{"error": text}]. *)
Theorem X11_get_cores_all_or_nothing (cores : fetched) :
  (exists text, get_cores round_mb cores = JArr [JObj [(lit "error", JStr text)]])
  \/ (exists items entries,
        hbind cores (fun data =>
        hbind (hget data (lit "status") (JObj [])) hitems) = HOk items
        /\ get_cores round_mb cores = JArr entries
        /\ map core_name_of entries = filter non_empty (map fst items)
        /\ Forall (fun entry => exists fields,
                      entry = JObj fields /\ map fst fields = core_keys) entries).
Proof.
  unfold get_cores. destruct cores as [data|x]; cbn [hbind]; [|eauto].
  destruct (hget data (lit "status") (JObj [])) as [status|x]; cbn [hbind]; [|eauto].
  destruct (hitems status) as [items|x]; cbn [hbind]; [|eauto].
  destruct (hmap (core_entry round_mb) items) as [entries|x] eqn:E; cbn [hbind]; [|eauto].
  right. exists items, (List.concat entries).
  destruct (core_entries_shape items entries E) as (Hn & Hs). auto.
Qed.

End HealthApiMore.

Lemma X9_failing_details_stay_healthy_witness :
  exists doc,
    HealthApi.handle_health (lit "default") (fun v => HealthApi.HOk v)
      (fun _ _ => HealthApi.HOk (JNum 0)) (fun x => x)
      (HealthApi.HOk (JObj [(lit "status", JStr (lit "OK"))]))
      (HealthApi.HRaise (HealthApi.URLError (lit "timed out")))
      (HealthApi.HRaise (HealthApi.OtherError (lit "bad body")))
    = HealthApi.Reply 200 (lit "application/json") (JObj doc)
    /\ assoc (lit "status") doc = Some (JStr (lit "healthy"))
    /\ assoc (lit "errors") doc = Some (JArr []).
Proof.
  destruct (X9_failing_details_stay_healthy (lit "default") (fun v => HealthApi.HOk v)
              (fun _ _ => HealthApi.HOk (JNum 0)) (fun x => x)
              [(lit "status", JStr (lit "OK"))]
              (HealthApi.HRaise (HealthApi.URLError (lit "timed out")))
              (HealthApi.HRaise (HealthApi.OtherError (lit "bad body"))))
    as (doc & H1 & H2 & H3 & _).
  - intros v H. vm_compute in H. discriminate H.
  - exists doc. auto.
Defined.

Lemma X10_unavailable_reply_witness :
  HealthApi.handle_health (lit "default") (fun v => HealthApi.HOk v)
    (fun _ _ => HealthApi.HOk (JNum 0)) (fun x => x)
    (HealthApi.HRaise (HealthApi.URLError (lit "Connection refused")))
    (HealthApi.HOk (JObj [])) (HealthApi.HOk (JObj []))
  = HealthApi.Reply 503 (lit "application/json")
      (JObj [(lit "customer", JStr (lit "default"));
             (lit "version", JStr (lit "2.2.0"));
             (lit "status", JStr (lit "unhealthy"));
             (lit "solr",
              HealthApi.check_solr
                (HealthApi.HRaise (HealthApi.URLError (lit "Connection refused"))));
             (lit "cores", JArr []);
             (lit "system", JObj []);
             (lit "errors", JArr [JStr (lit "Solr is not available")])]).
Proof.
  apply (X10_unavailable_reply (lit "default") (fun v => HealthApi.HOk v)
           (fun _ _ => HealthApi.HOk (JNum 0)) (fun x => x)).
  intros fields H. discriminate H.
Defined.

(** ** [create_auth_request] *)

Section HealthRequestMore.
Import PyStr Base64 HealthRequest.

Lemma encode_utf8_app (a b : pystr) :
  encode_utf8 (a ++ b)
  = rbind (encode_utf8 a) (fun x => rbind (encode_utf8 b) (fun y => Ok (x ++ y))).
Proof.
  induction a as [|c a IH]; cbn [app encode_utf8 rbind].
  - destruct (encode_utf8 b); reflexivity.
  - destruct (utf8_char c) as [bs|]; cbn [rbind]; [|reflexivity].
    rewrite IH. destruct (encode_utf8 a) as [x|]; cbn [rbind]; [|reflexivity].
    destruct (encode_utf8 b) as [y|]; cbn [rbind]; [|reflexivity].
    now rewrite app_assoc.
Qed.

(** X12: the request carries an [Authorization] header only when both the
    user and the password are set; it is "Basic " followed by a token that
    decodes to the UTF-8 bytes of user, a colon and the password.  With
    either of them empty no header is sent at all. *)
Theorem X12_basic_authentication_header (user password : pystr) :
  (user = [] \/ password = [] -> create_auth_request user password = Ok [])
  /\ (forall ub pb, user <> [] -> password <> [] ->
        encode_utf8 user = Ok ub -> encode_utf8 password = Ok pb ->
        exists token,
          create_auth_request user password
          = Ok [(lit "Authorization", lit "Basic " ++ token)]
          /\ b64decode token = Ok (ub ++ ascii_bytes ":" ++ pb)).
Proof.
  split.
  - intros [-> | ->]; [reflexivity|]. unfold create_auth_request.
    destruct user; reflexivity.
  - intros ub pb Hu Hp Eu Ep. unfold create_auth_request.
    destruct user as [|c u]; [contradiction|].
    destruct password as [|d p]; [contradiction|].
    cbn [truthy andb].
    rewrite encode_utf8_app, Eu. cbn [rbind].
    rewrite (encode_utf8_app (lit ":") (d :: p)), Ep.
    replace (encode_utf8 (lit ":")) with (Ok (ascii_bytes ":")) by reflexivity.
    cbn [rbind]. eexists. split; [reflexivity|]. apply b64decode_b64encode.
Qed.

End HealthRequestMore.

(** ** The query-performance appender: identifiers, layout, repeated runs *)

Section AddQueryMore.
Import Dashboard DashboardFiles.
Local Open Scope Z_scope.

Ltac other_key := let H := fresh in intros H; vm_compute in H; discriminate H.

(** Floats are kept as they are read, and added as floats: with the
    identifier 1.5 the row gets 2.5, and at 1e16, where adding one changes
    nothing, the six new panels get the identifier of the existing one and
    the version stays where it was. *)
Example float_identifiers :
  (exists d1,
     add_query_performance_panels
       (JObj [(lit "panels", JArr [JObj [(lit "id", JFloat (float_ratio 3 2))]])])
     = Some d1
     /\ panel_ids d1
        = Some (map NFloat [float_ratio 3 2; float_ratio 5 2; float_ratio 7 2;
                            float_ratio 9 2; float_ratio 11 2; float_ratio 13 2;
                            float_ratio 15 2]))
  /\ (exists d1,
        add_query_performance_panels float_dashboard = Some d1
        /\ panel_ids d1 = Some (repeat (NFloat (float_of (10 ^ 16))) 7)
        /\ version d1 = Some (NFloat (float_of (10 ^ 16)))).
Proof.
  split.
  - eexists. split; [vm_compute; reflexivity|]. vm_compute. reflexivity.
  - eexists. split; [vm_compute; reflexivity|]. split; vm_compute; reflexivity.
Qed.

(** X13: the appender returns exactly on a dictionary whose [panels] entry
    is a list of dictionaries whose identifiers are numbers, whose grid
    coordinates are numbers with a sum [y + h] (an integer beyond the range
    of a float has none with a float), and whose version, if any, is a
    number; a number is an integer, a boolean or a float.  In particular a
    dashboard without a [panels] key is refused ([KeyError]): the empty
    default only serves to compute the next identifier. *)
Theorem X13_appender_accepts_exactly (d : json) :
  (add_query_performance_panels d <> None
   <-> exists fields panels ids bottoms v,
         d = JObj fields
         /\ assoc (lit "panels") fields = Some (JArr panels)
         /\ omap panel_id panels = Some ids
         /\ omap panel_bottom panels = Some bottoms
         /\ version_of fields = Some v)
  /\ (forall fields, d = JObj fields -> assoc (lit "panels") fields = None ->
        add_query_performance_panels d = None)
  /\ (forall p : json,
        (panel_id p <> None
         <-> exists f n, p = JObj f
                         /\ as_num (match assoc (lit "id") f with
                                    | Some v => v
                                    | None => JNum 0
                                    end) = Some n)
        /\ (panel_bottom p <> None
            <-> exists f pos y h,
                  p = JObj f
                  /\ match assoc (lit "gridPos") f with
                     | Some v => v
                     | None => JObj []
                     end = JObj pos
                  /\ as_num (match assoc (lit "y") pos with
                             | Some v => v
                             | None => JNum 0
                             end) = Some y
                  /\ as_num (match assoc (lit "h") pos with
                             | Some v => v
                             | None => JNum 0
                             end) = Some h
                  /\ num_add y h <> None)).
Proof.
  split; [|split].
  - split.
    + destruct (add_query_performance_panels d) as [d1|] eqn:E; [|congruence].
      intros _. apply add_query_accepts in E
        as (fields & panels & ids & bottoms & v & H1 & H2 & H3 & H4 & H5 & _).
      exists fields, panels, ids, bottoms, v. auto.
    + intros (fields & panels & ids & bottoms & v & -> & Hp & Hi & Hb & Hv).
      destruct (add_query_step fields panels ids bottoms v Hp Hi Hb Hv)
        as (f1 & b1 & -> & _). discriminate.
  - intros fields -> Hp. rewrite add_query_performance_panels_eq, Hp. reflexivity.
  - intros p. split.
    + unfold panel_id, get. split.
      * destruct p as [| | | | |f|]; cbn [obind]; try congruence.
        destruct (as_num _) as [n|] eqn:E; [|congruence]. intros _. eauto.
      * intros (f & n & -> & E). cbn [obind]. rewrite E. discriminate.
    + unfold panel_bottom, get. split.
      * destruct p as [| | | | |f|]; cbn [obind]; try congruence.
        destruct (match assoc (lit "gridPos") f with Some v => v | None => JObj [] end)
          as [| | | | |pos|] eqn:Eg; cbn [obind]; try congruence.
        destruct (as_num (match assoc (lit "y") pos with Some v => v | None => JNum 0 end))
          as [y|] eqn:Ey; cbn [obind]; [|congruence].
        destruct (as_num (match assoc (lit "h") pos with Some v => v | None => JNum 0 end))
          as [h|] eqn:Eh; cbn [obind]; [|congruence].
        intros Hadd. exists f, pos, y, h. auto.
      * intros (f & pos & y & h & -> & Eg & Ey & Eh & Hadd). cbn [obind].
        rewrite Eg. cbn [obind]. rewrite Ey. cbn [obind]. rewrite Eh. exact Hadd.
Qed.

(** X14: the appended panels get the identifiers [max + 1], [max + 1 + 1]
    and so on, as Python adds.  When the existing identifiers are integers
    (a boolean counts as 0 or 1) these are the six integers after the
    greatest existing identifier, so each is greater than every existing
    one, and a dashboard whose identifiers were pairwise distinct keeps them
    so. *)
Theorem X14_appended_identifiers_are_new (d d1 : json) :
  add_query_performance_panels d = Some d1 ->
  exists ids,
    panel_ids d = Some ids
    /\ panel_ids d1 = Some (ids ++ new_ids (py_max ids (NInt 0)))
    /\ forall zs, ids = map NInt zs ->
         panel_ids d1
         = Some (map NInt (zs ++ map (Z.add (int_max zs 0)) [1; 2; 3; 4; 5; 6]))
         /\ (forall i j,
               In i zs -> In j (map (Z.add (int_max zs 0)) [1; 2; 3; 4; 5; 6]) -> i < j)
         /\ (NoDup zs -> NoDup (zs ++ map (Z.add (int_max zs 0)) [1; 2; 3; 4; 5; 6])).
Proof.
  intros H. apply add_query_accepts in H
    as (fields & panels & ids & bottoms & v & -> & Hp & Hi & Hb & Hv & ->).
  destruct (add_query_step fields panels ids bottoms v Hp Hi Hb Hv)
    as (fields1 & b1 & _ & <- & Hp1 & Hi1 & _).
  exists ids.
  assert (panel_ids (JObj fields1) = Some (ids ++ new_ids (py_max ids (NInt 0)))) as Hids1.
  { unfold panel_ids, get. cbn [obind]. rewrite Hp1. cbn [obind as_list]. exact Hi1. }
  split; [|split].
  - unfold panel_ids, get. cbn [obind]. rewrite Hp. cbn [obind as_list]. exact Hi.
  - exact Hids1.
  - intros zs ->.
    assert (forall i j,
              In i zs -> In j (map (Z.add (int_max zs 0)) [1; 2; 3; 4; 5; 6]) -> i < j)
      as Hlt.
    { intros i j Hin Hj. pose proof (int_max_ge zs 0 i Hin).
      cbn [map In] in Hj. lia. }
    split; [|split].
    + rewrite Hids1, py_max_ints, new_ids_ints, map_app. reflexivity.
    + exact Hlt.
    + intros Hnd. apply NoDup_app; [exact Hnd| |].
      * cbn [map]. repeat constructor; cbn [In]; lia.
      * intros i Hin Hj. specialize (Hlt i i Hin Hj). lia.
Qed.

Lemma X14_appended_identifiers_are_new_witness :
  exists d1,
    add_query_performance_panels sample_dashboard = Some d1
    /\ panel_ids sample_dashboard = Some [NInt 7]
    /\ panel_ids d1 = Some (map NInt [7; 8; 9; 10; 11; 12; 13]).
Proof.
  assert (exists d1, add_query_performance_panels sample_dashboard = Some d1)
    as (d1 & E1) by (eexists; vm_compute; reflexivity).
  destruct (X14_appended_identifiers_are_new sample_dashboard d1 E1)
    as (ids & H1 & _ & H3).
  exists d1. split; [exact E1|]. split; [reflexivity|].
  vm_compute in H1. injection H1 as <-.
  exact (proj1 (H3 [7] eq_refl)).
Defined.

(** X15: a run changes three entries only.  [refresh] becomes "30s", the
    version and the panels change as above, the existing panels stay at the
    front of the list in their order, and every other key of the dashboard
    keeps its value. *)
Theorem X15_other_entries_are_kept (d d1 : json) :
  add_query_performance_panels d = Some d1 ->
  exists fields fields1 panels,
    d = JObj fields /\ d1 = JObj fields1
    /\ assoc (lit "panels") fields = Some (JArr panels)
    /\ (exists new, assoc (lit "panels") fields1 = Some (JArr (panels ++ new))
                    /\ List.length new = 6%nat)
    /\ assoc (lit "refresh") fields1 = Some (JStr (lit "30s"))
    /\ forall k, k <> lit "panels" -> k <> lit "version" -> k <> lit "refresh" ->
                 assoc k fields1 = assoc k fields.
Proof.
  intros H. apply add_query_accepts in H
    as (fields & panels & ids & bottoms & v & -> & Hp & Hi & Hb & Hv & ->).
  eexists fields, _, panels. split; [reflexivity|]. split; [reflexivity|].
  split; [exact Hp|]. split; [|split].
  - exists (appended (py_max ids (NInt 0)) (py_max bottoms (NInt 0))).
    split; [|reflexivity].
    rewrite !assoc_set_item_other by other_key. apply assoc_set_item_same.
  - apply assoc_set_item_same.
  - intros k H1 H2 H3. rewrite !assoc_set_item_other by congruence. reflexivity.
Qed.

Lemma X15_other_entries_are_kept_witness :
  exists d1 fields1,
    add_query_performance_panels sample_dashboard = Some d1 /\ d1 = JObj fields1
    /\ assoc (lit "refresh") fields1 = Some (JStr (lit "30s"))
    /\ assoc (lit "title") fields1 = Some (JStr (lit "Solr Monitoring")).
Proof.
  assert (exists d1, add_query_performance_panels sample_dashboard = Some d1)
    as (d1 & E1) by (eexists; vm_compute; reflexivity).
  destruct (X15_other_entries_are_kept sample_dashboard d1 E1)
    as (fields & fields1 & panels & Hd & Hd1 & _ & _ & Hr & Hk).
  exists d1, fields1. split; [exact E1|]. split; [exact Hd1|]. split; [exact Hr|].
  rewrite (Hk (lit "title")) by (intros H; vm_compute in H; discriminate H).
  injection Hd as <-. reflexivity.
Defined.

Lemma appended_tops (m y : num) : omap panel_top (appended m y) = Some (new_tops y).
Proof.
  assert (forall i y', panel_top (query_row i y') = Some y'
                       /\ panel_top (panel_latency i y') = Some y'
                       /\ panel_top (panel_slow i y') = Some y'
                       /\ panel_top (panel_rate i y') = Some y'
                       /\ panel_top (panel_cache i y') = Some y'
                       /\ panel_top (panel_trend i y') = Some y') as H
    by (intros i y'; repeat split; destruct y'; vm_compute; reflexivity).
  unfold appended. cbn [omap].
  repeat match goal with
         | |- context [panel_top (?p ?i ?y')] =>
             let E := fresh in
             assert (panel_top (p i y') = Some y') as E by apply H;
             rewrite E; clear E
         end.
  reflexivity.
Qed.

(** X16: the appended panels are laid out from the greatest bottom edge
    [y + h] of the existing panels (from 0 without panels): the row there,
    the two pairs of panels and the last panel after adding 1, then 8, then
    8 again, as Python adds.  When the bottom edges are integers the six
    panels start 0, 1, 1, 9, 9 and 17 rows below that edge, so no appended
    panel starts above the bottom edge of an existing panel. *)
Theorem X16_appended_panels_lie_below (d d1 : json) :
  add_query_performance_panels d = Some d1 ->
  exists fields fields1 panels bottoms new,
    d = JObj fields /\ d1 = JObj fields1
    /\ assoc (lit "panels") fields = Some (JArr panels)
    /\ omap panel_bottom panels = Some bottoms
    /\ assoc (lit "panels") fields1 = Some (JArr (panels ++ new))
    /\ omap panel_top new = Some (new_tops (py_max bottoms (NInt 0)))
    /\ forall bs, bottoms = map NInt bs ->
         omap panel_top new
         = Some (map NInt (map (Z.add (int_max bs 0)) [0; 1; 1; 9; 9; 17]))
         /\ forall b t,
              In b bs -> In t (map (Z.add (int_max bs 0)) [0; 1; 1; 9; 9; 17]) ->
              b <= t.
Proof.
  intros H. apply add_query_accepts in H
    as (fields & panels & ids & bottoms & v & -> & Hp & Hi & Hb & Hv & ->).
  eexists fields, _, panels, bottoms,
    (appended (py_max ids (NInt 0)) (py_max bottoms (NInt 0))).
  split; [reflexivity|]. split; [reflexivity|]. split; [exact Hp|]. split; [exact Hb|].
  split; [|split].
  - rewrite !assoc_set_item_other by other_key. apply assoc_set_item_same.
  - apply appended_tops.
  - intros bs ->. split.
    + rewrite appended_tops, py_max_ints, new_tops_ints. reflexivity.
    + intros b t Hin Ht. pose proof (int_max_ge bs 0 b Hin). cbn [map In] in Ht. lia.
Qed.

Lemma X16_appended_panels_lie_below_witness :
  exists d1 fields1 new,
    add_query_performance_panels sample_dashboard = Some d1 /\ d1 = JObj fields1
    /\ (exists panels, assoc (lit "panels") fields1 = Some (JArr (panels ++ new)))
    /\ omap panel_top new = Some (map NInt [8; 9; 9; 17; 17; 25]).
Proof.
  assert (exists d1, add_query_performance_panels sample_dashboard = Some d1)
    as (d1 & E1) by (eexists; vm_compute; reflexivity).
  destruct (X16_appended_panels_lie_below sample_dashboard d1 E1)
    as (fields & fields1 & panels & bottoms & new & Hd & Hd1 & Hp & Hb & Hp1 & _ & Ht).
  exists d1, fields1, new. split; [exact E1|]. split; [exact Hd1|].
  split; [eauto|].
  injection Hd as <-. vm_compute in Hp. injection Hp as <-.
  vm_compute in Hb. injection Hb as <-.
  exact (proj1 (Ht [8] eq_refl)).
Defined.

(** What [n] further runs give on a dashboard the appender accepts. *)
Lemma runs_on_accepted (n : nat) :
  forall (fields : list (pystr * json)) (panels : list json) (ids bottoms : list num)
         (v : num),
    assoc (lit "panels") fields = Some (JArr panels) ->
    omap panel_id panels = Some ids ->
    omap panel_bottom panels = Some bottoms ->
    version_of fields = Some v ->
    exists dn,
      runs add_query_performance_panels n (JObj fields) = Some dn
      /\ panel_count dn = Some (List.length panels + 6 * n)%nat
      /\ forall z, v = NInt z -> version dn = Some (NInt (z + Z.of_nat n)).
Proof.
  induction n as [|n IH]; intros fields panels ids bottoms v Hp Hi Hb Hv.
  - exists (JObj fields). split; [reflexivity|]. split.
    + unfold panel_count, get. rewrite Hp. f_equal. lia.
    + intros z ->. unfold version, get. cbn [obind]. fold (version_of fields).
      rewrite Hv. do 2 f_equal. lia.
  - destruct (add_query_step fields panels ids bottoms v Hp Hi Hb Hv)
      as (fields1 & bottoms1 & E & _ & Hp1 & Hi1 & Hb1 & Hv1).
    destruct (IH fields1 _ _ _ _ Hp1 Hi1 Hb1 Hv1) as (dn & Hr & Hc & Hver).
    exists dn. cbn [runs]. rewrite E. cbn [obind]. split; [exact Hr|]. split.
    + rewrite Hc, length_app, appended_length. f_equal. lia.
    + intros z ->. rewrite (Hver (z + 1) eq_refl). do 2 f_equal. lia.
Qed.

(** X17: the appender can be run again and again.  Once a dashboard is
    accepted, [n] runs in a row all return and leave [6 * n] more panels;
    when the version is an integer they leave a version greater by [n]. *)
Theorem X17_repeated_runs (d d1 : json) (n : nat) :
  add_query_performance_panels d = Some d1 ->
  exists dn count,
    runs add_query_performance_panels n d = Some dn
    /\ panel_count d = Some count /\ panel_count dn = Some (count + 6 * n)%nat
    /\ forall z, version d = Some (NInt z) -> version dn = Some (NInt (z + Z.of_nat n)).
Proof.
  intros H. apply add_query_accepts in H
    as (fields & panels & ids & bottoms & v & -> & Hp & Hi & Hb & Hv & _).
  destruct (runs_on_accepted n fields panels ids bottoms v Hp Hi Hb Hv)
    as (dn & Hr & Hc & Hver).
  exists dn, (List.length panels). split; [exact Hr|]. split; [|split; [exact Hc|]].
  - unfold panel_count, get. now rewrite Hp.
  - intros z Hz. apply Hver. unfold version, get in Hz. cbn [obind] in Hz.
    fold (version_of fields) in Hz. rewrite Hv in Hz. now injection Hz.
Qed.

Lemma X17_repeated_runs_witness :
  exists dn,
    runs add_query_performance_panels 3 sample_dashboard = Some dn
    /\ panel_count dn = Some 19%nat /\ version dn = Some (NInt 6).
Proof.
  assert (exists d1, add_query_performance_panels sample_dashboard = Some d1)
    as (d1 & E1) by (eexists; vm_compute; reflexivity).
  destruct (X17_repeated_runs sample_dashboard d1 3 E1)
    as (dn & count & Hr & Hc & Hcn & Hvn).
  exists dn. split; [exact Hr|].
  vm_compute in Hc. injection Hc as <-.
  split; [exact Hcn|]. exact (Hvn 3 eq_refl).
Defined.

End AddQueryMore.

(** ** The templating script *)

Section AddTemplatingMore.
Import Dashboard DashboardFiles.
Local Open Scope Z_scope.

Ltac other_key := let H := fresh in intros H; vm_compute in H; discriminate H.

(** At the float version 1e16, where adding one changes nothing, a second
    run of the templating script returns the document it was given. *)
Example float_version_templating :
  exists d1,
    add_templating (JObj [(lit "version", JFloat (float_of (10 ^ 16)))]) = Some d1
    /\ add_templating d1 = Some d1.
Proof. eexists. split; vm_compute; reflexivity. Qed.

(** X18: on a string, the rewriting of an expression always succeeds and
    uses [str.replace] only: first the job label, then (for a core metric
    with a closing brace and no core matcher) the core filter.  The branch
    that calls [re.sub] on a hard-coded core is never taken, since it lies
    under the test that the string holds no core matcher at all; so a
    hard-coded core matcher is kept as it is. *)
Theorem X18_rewrite_expr_on_strings (s : pystr) :
  rewrite_expr (JStr s) = Some (JStr (core_step (job_step s)))
  /\ (contains (lit "core=") (job_step s) = true -> core_step (job_step s) = job_step s)
  /\ (contains job_exporter s = false -> job_step s = s).
Proof.
  split; [|split].
  - apply rewrite_expr_str.
  - intros H. unfold core_step. now rewrite H.
  - intros H. unfold job_step. now rewrite H.
Qed.

Lemma update_panel_keeps_id (p p' : json) :
  update_panel p = Some p' -> panel_id p' = panel_id p.
Proof.
  unfold update_panel. destruct (py_in (lit "targets") p) as [[|]|]; cbn [obind];
    try discriminate.
  - destruct p as [| | | | |f|]; cbn [py_getitem]; try discriminate.
    destruct (assoc (lit "targets") f) as [tv|]; cbn [obind]; [|discriminate].
    destruct (py_iter tv) as [els|]; cbn [obind]; [|discriminate].
    destruct (omap update_target els) as [els'|]; cbn [obind py_setitem]; [|discriminate].
    intros H. injection H as <-. unfold panel_id, get.
    now rewrite assoc_set_item_other by other_key.
  - intros H. now injection H as <-.
Qed.

Lemma omap_update_panel_ids (l l' : list json) :
  omap update_panel l = Some l' -> omap panel_id l' = omap panel_id l.
Proof.
  revert l'. induction l as [|p l IH]; intros l'; cbn [omap].
  - intros H. now injection H as <-.
  - destruct (update_panel p) as [p'|] eqn:E; cbn [obind]; [|discriminate].
    destruct (omap update_panel l) as [ps|]; cbn [obind]; [|discriminate].
    intros H. injection H as <-. cbn [omap].
    now rewrite (update_panel_keeps_id p p' E), (IH ps eq_refl).
Qed.

Lemma update_panel_shape (p p' : json) :
  update_panel p = Some p' ->
  p' = p \/ exists f targets', p = JObj f /\ p' = JObj (set_item (lit "targets") targets' f).
Proof.
  unfold update_panel. destruct (py_in (lit "targets") p) as [[|]|]; cbn [obind];
    try discriminate.
  - destruct p as [| | | | |f|]; cbn [py_getitem]; try discriminate.
    destruct (assoc (lit "targets") f) as [tv|]; cbn [obind]; [|discriminate].
    destruct (py_iter tv) as [els|]; cbn [obind]; [|discriminate].
    destruct (omap update_target els) as [els'|]; cbn [obind py_setitem]; [|discriminate].
    intros H. injection H as <-. right. eauto.
  - intros H. injection H as <-. now left.
Qed.

Lemma omap_Forall2 (A B : Type) (f : A -> option B) (R : A -> B -> Prop)
      (l : list A) (l' : list B) :
  (forall x y, f x = Some y -> R x y) -> omap f l = Some l' -> Forall2 R l l'.
Proof.
  intros HR. revert l'. induction l as [|a l IH]; intros l'; cbn [omap].
  - intros H. injection H as <-. constructor.
  - destruct (f a) as [b|] eqn:E; cbn [obind]; [|discriminate].
    destruct (omap f l) as [bs|]; cbn [obind]; [|discriminate].
    intros H. injection H as <-. constructor; auto.
Qed.

(** X19: the templating script neither adds nor removes panels and leaves
    their identifiers alone: only the [targets] of a panel can change. *)
Theorem X19_templating_keeps_the_panels (d d1 : json) :
  add_templating d = Some d1 ->
  (forall count, panel_count d = Some count -> panel_count d1 = Some count)
  /\ (forall ids, panel_ids d = Some ids -> panel_ids d1 = Some ids)
  /\ (forall panels,
        get d (lit "panels") JNull = Some (JArr panels) ->
        exists panels',
          get d1 (lit "panels") JNull = Some (JArr panels')
          /\ Forall2 (fun p p' =>
                        p' = p
                        \/ exists f targets',
                             p = JObj f
                             /\ p' = JObj (set_item (lit "targets") targets' f))
                     panels panels').
Proof.
  intros H. destruct d as [| | | | |fields|]; try discriminate H.
  apply add_templating_inv in H as (fieldsP & v & -> & _ & HP).
  destruct (assoc (lit "panels") fields) as [panels|] eqn:Ep.
  - destruct HP as (els & els' & Hit & Hup & ->).
    assert (assoc (lit "panels")
              (set_item (lit "version") (of_num (bump v 1))
                 (set_item (lit "description") (JStr new_description)
                    (set_item (lit "title") (JStr new_title)
                       (set_item (lit "panels") (updated panels els')
                          (set_item (lit "templating") templating fields)))))
            = Some (updated panels els')) as Hp1.
    { rewrite !assoc_set_item_other by other_key. apply assoc_set_item_same. }
    split; [|split].
    + intros count. unfold panel_count, get. rewrite Ep, Hp1.
      destruct panels as [| | | |l| |]; try discriminate.
      cbn [py_iter] in Hit. injection Hit as <-. cbn [updated].
      now rewrite (omap_length _ _ _ _ _ Hup).
    + intros ids. unfold panel_ids, get. cbn [obind]. rewrite Ep, Hp1.
      destruct panels as [| | | |l| |]; try discriminate.
      cbn [py_iter] in Hit. injection Hit as <-. cbn [updated obind as_list].
      now rewrite (omap_update_panel_ids _ _ Hup).
    + intros l. unfold get. rewrite Ep, Hp1. intros H. injection H as ->.
      cbn [py_iter] in Hit. injection Hit as <-. cbn [updated].
      exists els'. split; [reflexivity|].
      exact (omap_Forall2 _ _ _ _ _ _ update_panel_shape Hup).
  - subst fieldsP. split; [|split].
    + intros count. unfold panel_count, get. rewrite Ep. discriminate.
    + intros ids. unfold panel_ids, get. cbn [obind]. rewrite Ep. discriminate.
    + intros l. unfold get. rewrite Ep. discriminate.
Qed.

Lemma X19_templating_keeps_the_panels_witness :
  exists d1,
    add_templating sample_dashboard = Some d1
    /\ panel_count d1 = Some 1%nat /\ panel_ids d1 = Some [NInt 7].
Proof.
  assert (exists d1, add_templating sample_dashboard = Some d1)
    as (d1 & E1) by (eexists; vm_compute; reflexivity).
  destruct (X19_templating_keeps_the_panels sample_dashboard d1 E1) as (Hc & Hi & _).
  exists d1. split; [exact E1|]. split.
  - apply Hc. reflexivity.
  - apply Hi. reflexivity.
Defined.

(** X20: the templating script sets [templating], [title] and
    [description] to its three literals whatever they were, and keeps every
    key other than these, [panels] and [version]. *)
Theorem X20_templating_entries (d d1 : json) :
  add_templating d = Some d1 ->
  exists fields fields1,
    d = JObj fields /\ d1 = JObj fields1
    /\ assoc (lit "templating") fields1 = Some templating
    /\ assoc (lit "title") fields1 = Some (JStr new_title)
    /\ assoc (lit "description") fields1 = Some (JStr new_description)
    /\ forall k, k <> lit "templating" -> k <> lit "panels" -> k <> lit "title" ->
                 k <> lit "description" -> k <> lit "version" ->
                 assoc k fields1 = assoc k fields.
Proof.
  intros H. destruct d as [| | | | |fields|]; try discriminate H.
  apply add_templating_inv in H as (fieldsP & v & -> & _ & HP).
  assert (assoc (lit "templating") fieldsP = Some templating
          /\ forall k, k <> lit "templating" -> k <> lit "panels" ->
                       assoc k fieldsP = assoc k fields) as (Ht & Hk).
  { destruct (assoc (lit "panels") fields) as [panels|].
    - destruct HP as (els & els' & _ & _ & ->). split.
      + rewrite assoc_set_item_other by other_key. apply assoc_set_item_same.
      + intros k H1 H2. now rewrite !assoc_set_item_other by congruence.
    - subst fieldsP. split; [apply assoc_set_item_same|].
      intros k H1 H2. now rewrite assoc_set_item_other by congruence. }
  eexists fields, _. split; [reflexivity|]. split; [reflexivity|].
  split; [|split; [|split]].
  - rewrite !assoc_set_item_other by other_key. exact Ht.
  - rewrite !assoc_set_item_other by other_key. apply assoc_set_item_same.
  - rewrite assoc_set_item_other by other_key. apply assoc_set_item_same.
  - intros k H1 H2 H3 H4 H5. rewrite !assoc_set_item_other by congruence. auto.
Qed.

Lemma X20_templating_entries_witness :
  exists d1 fields1,
    add_templating sample_dashboard = Some d1 /\ d1 = JObj fields1
    /\ assoc (lit "title") fields1 = Some (JStr new_title).
Proof.
  assert (exists d1, add_templating sample_dashboard = Some d1)
    as (d1 & E1) by (eexists; vm_compute; reflexivity).
  destruct (X20_templating_entries sample_dashboard d1 E1)
    as (fields & fields1 & _ & Hd1 & _ & Ht & _).
  exists d1, fields1. auto.
Defined.

(** X21: the two scripts compose.  The templating script leaves the row and
    the five panels of the appender exactly as they are, whatever their
    identifiers and positions, integers or floats: their expressions already
    filter by the instance and core variables. *)
Theorem X21_templating_keeps_appended_panels (m y : num) :
  omap update_panel (appended m y) = Some (appended m y).
Proof.
  assert (forall i y', update_panel (query_row i y') = Some (query_row i y')
                       /\ update_panel (panel_latency i y') = Some (panel_latency i y')
                       /\ update_panel (panel_slow i y') = Some (panel_slow i y')
                       /\ update_panel (panel_rate i y') = Some (panel_rate i y')
                       /\ update_panel (panel_cache i y') = Some (panel_cache i y')
                       /\ update_panel (panel_trend i y') = Some (panel_trend i y')) as H
    by (intros i y'; repeat split; vm_compute; reflexivity).
  unfold appended. cbn [omap].
  destruct (H (bump m 1) y) as (-> & _).
  destruct (H (bump (bump m 1) 1) (bump y 1)) as (_ & -> & _).
  destruct (H (bump (bump (bump m 1) 1) 1) (bump y 1)) as (_ & _ & -> & _).
  destruct (H (bump (bump (bump (bump m 1) 1) 1) 1) (bump (bump y 1) 8))
    as (_ & _ & _ & -> & _).
  destruct (H (bump (bump (bump (bump (bump m 1) 1) 1) 1) 1) (bump (bump y 1) 8))
    as (_ & _ & _ & _ & -> & _).
  destruct (H (bump (bump (bump (bump (bump (bump m 1) 1) 1) 1) 1) 1)
              (bump (bump (bump y 1) 8) 8)) as (_ & _ & _ & _ & _ & ->).
  reflexivity.
Qed.

End AddTemplatingMore.

(** ** The scripts on files *)

Section DashboardFilesMore.
Import Dashboard DashboardFiles.

Lemma app_cons_neq (A : Type) (l r : list A) (a : A) : l ++ a :: r <> l.
Proof.
  intros H. apply (f_equal (@List.length A)) in H.
  rewrite length_app in H. cbn [List.length] in H. lia.
Qed.

Lemma pystr_eqb_neq (s t : pystr) : s <> t -> pystr_eqb s t = false.
Proof.
  intros H. destruct (pystr_eqb s t) eqn:E; [|reflexivity].
  apply pystr_eqb_eq in E. contradiction.
Qed.

Lemma write_same (fs : filesystem) (path : pystr) (d : json) :
  write fs path d path = Present (Ok d).
Proof. unfold write. now rewrite pystr_eqb_refl. Qed.

Lemma write_other (fs : filesystem) (path p : pystr) (d : json) :
  p <> path -> write fs path d p = fs p.
Proof. intros H. unfold write. now rewrite pystr_eqb_neq. Qed.

Lemma print_all_cases (out : console) (lines : list pystr) (fs : filesystem) :
  print_all out lines fs = (Next tt, fs) \/ print_all out lines fs = (Stop Traceback, fs).
Proof.
  induction lines as [|line rest IH]; cbn [print_all]; [now left|].
  destruct (out line); [exact IH|now right].
Qed.

Lemma print_all_accepted (out : console) (lines : list pystr) (fs : filesystem) :
  (forall line, In line lines -> out line = Ok tt) ->
  print_all out lines fs = (Next tt, fs).
Proof.
  induction lines as [|line rest IH]; intros H; cbn [print_all]; [reflexivity|].
  rewrite (H line) by now left. apply IH. intros l Hl. apply H. now right.
Qed.

(** X22: [main] of the appender script keeps the original safe, whatever the
    standard output does with the lines printed.  A run touches no file
    other than the dashboard and its backup; it writes the backup only with
    the document as loaded, and it overwrites the dashboard only with the
    result of the appender and only after that backup is written.  On a
    standard output that takes every line: without a dashboard file the run
    exits with 1 and writes nothing, a file that does not load ends in a
    traceback with nothing written, and otherwise the backup holds the
    document as loaded, the dashboard file still holds it when the appender
    raises, and holds the result when it returns.  On a standard output that
    refuses the line announcing the backup (the line starts with an emoji),
    the run ends in a traceback before any file is opened. *)
Theorem X22_backup_holds_the_original (out : console) (stamp : pystr) (fs : filesystem) :
  (exists how fs',
     add_query_main out stamp fs = (how, fs')
     /\ (forall p, p <> DASHBOARD_PATH -> p <> backup_path stamp -> fs' p = fs p)
     /\ (fs' (backup_path stamp) = fs (backup_path stamp)
         \/ exists d, fs DASHBOARD_PATH = Present (Ok d)
                      /\ fs' (backup_path stamp) = Present (Ok d))
     /\ (fs' DASHBOARD_PATH = fs DASHBOARD_PATH
         \/ exists d d1,
              fs DASHBOARD_PATH = Present (Ok d)
              /\ add_query_performance_panels d = Some d1
              /\ fs' (backup_path stamp) = Present (Ok d)
              /\ fs' DASHBOARD_PATH = Present (Ok d1))
     /\ (how = Completed ->
         exists d d1,
           fs DASHBOARD_PATH = Present (Ok d)
           /\ add_query_performance_panels d = Some d1
           /\ fs' (backup_path stamp) = Present (Ok d)
           /\ fs' DASHBOARD_PATH = Present (Ok d1)))
  /\ ((forall line, out line = Ok tt) ->
      (fs DASHBOARD_PATH = Absent -> add_query_main out stamp fs = (Exit1, fs))
      /\ (forall x, fs DASHBOARD_PATH = Present (Raise x) ->
            add_query_main out stamp fs = (Traceback, fs))
      /\ (forall d, fs DASHBOARD_PATH = Present (Ok d) ->
            exists how fs',
              add_query_main out stamp fs = (how, fs')
              /\ fs' (backup_path stamp) = Present (Ok d)
              /\ (forall p, p <> DASHBOARD_PATH -> p <> backup_path stamp -> fs' p = fs p)
              /\ (add_query_performance_panels d = None ->
                  how = Traceback /\ fs' DASHBOARD_PATH = Present (Ok d))
              /\ (forall d1, add_query_performance_panels d = Some d1 ->
                    how = Completed /\ fs' DASHBOARD_PATH = Present (Ok d1))))
  /\ (forall line x,
        In line (msg_backup stamp) -> out line = Raise x ->
        fs DASHBOARD_PATH <> Absent ->
        add_query_main out stamp fs = (Traceback, fs)).
Proof.
  assert (backup_path stamp <> DASHBOARD_PATH) as Hne by apply app_cons_neq.
  split; [|split].
  - unfold add_query_main, sbind.
    assert (forall how : ending, how <> Completed ->
              exists how' fs',
                (how, fs) = (how', fs')
                /\ (forall p, p <> DASHBOARD_PATH -> p <> backup_path stamp -> fs' p = fs p)
                /\ (fs' (backup_path stamp) = fs (backup_path stamp)
                    \/ exists d, fs DASHBOARD_PATH = Present (Ok d)
                                 /\ fs' (backup_path stamp) = Present (Ok d))
                /\ (fs' DASHBOARD_PATH = fs DASHBOARD_PATH
                    \/ exists d d1,
                         fs DASHBOARD_PATH = Present (Ok d)
                         /\ add_query_performance_panels d = Some d1
                         /\ fs' (backup_path stamp) = Present (Ok d)
                         /\ fs' DASHBOARD_PATH = Present (Ok d1))
                /\ (how' = Completed ->
                    exists d d1,
                      fs DASHBOARD_PATH = Present (Ok d)
                      /\ add_query_performance_panels d = Some d1
                      /\ fs' (backup_path stamp) = Present (Ok d)
                      /\ fs' DASHBOARD_PATH = Present (Ok d1))) as Hstop.
    { intros how Hhow. exists how, fs. split; [reflexivity|]. split; [reflexivity|].
      split; [now left|]. split; [now left|]. intros ->. contradiction. }
    destruct (print_all_cases out banner fs) as [-> | ->];
      [|apply Hstop; discriminate].
    unfold path_exists.
    destruct (fs DASHBOARD_PATH) as [|[d|x]] eqn:Hd.
    + unfold sys_exit_1.
      destruct (print_all_cases out msg_not_found fs) as [-> | ->];
        apply Hstop; discriminate.
    + unfold skip.
      destruct (print_all_cases out (msg_backup stamp) fs) as [-> | ->];
        [|apply Hstop; discriminate].
      unfold load, dump. rewrite Hd.
      assert (write fs (backup_path stamp) d (backup_path stamp) = Present (Ok d)) as Hb
        by apply write_same.
      assert (write fs (backup_path stamp) d DASHBOARD_PATH = Present (Ok d)) as Hk
        by (rewrite write_other by congruence; exact Hd).
      assert (forall p, p <> DASHBOARD_PATH -> p <> backup_path stamp ->
                        write fs (backup_path stamp) d p = fs p) as Ho
        by (intros p H1 H2; now rewrite write_other).
      destruct (print_all_cases out msg_adding (write fs (backup_path stamp) d))
        as [-> | ->].
      2:{ do 2 eexists. split; [reflexivity|]. split; [exact Ho|].
          split; [right; eauto|]. split; [left; congruence|]. discriminate. }
      unfold call.
      destruct (add_query_performance_panels d) as [d1|] eqn:Hrun.
      2:{ do 2 eexists. split; [reflexivity|]. split; [exact Ho|].
          split; [right; eauto|]. split; [left; congruence|]. discriminate. }
      destruct (print_all_cases out msg_writing (write fs (backup_path stamp) d))
        as [-> | ->].
      2:{ do 2 eexists. split; [reflexivity|]. split; [exact Ho|].
          split; [right; eauto|]. split; [left; congruence|]. discriminate. }
      assert (write (write fs (backup_path stamp) d) DASHBOARD_PATH d1 (backup_path stamp)
              = Present (Ok d)) as Hb1
        by (rewrite write_other by exact Hne; exact Hb).
      assert (write (write fs (backup_path stamp) d) DASHBOARD_PATH d1 DASHBOARD_PATH
              = Present (Ok d1)) as Hk1 by apply write_same.
      assert (forall p, p <> DASHBOARD_PATH -> p <> backup_path stamp ->
                        write (write fs (backup_path stamp) d) DASHBOARD_PATH d1 p = fs p)
        as Ho1 by (intros p H1 H2; now rewrite !write_other).
      destruct (print_all_cases out msg_done
                  (write (write fs (backup_path stamp) d) DASHBOARD_PATH d1))
        as [-> | ->];
        (do 2 eexists; split; [reflexivity|]; split; [exact Ho1|];
         split; [right; eauto|]; split; [right; eauto 6|]; intros _; eauto 6).
    + unfold skip.
      destruct (print_all_cases out (msg_backup stamp) fs) as [-> | ->];
        [|apply Hstop; discriminate].
      unfold load. rewrite Hd. apply Hstop. discriminate.
  - intros Hout.
    assert (forall lines fs0, print_all out lines fs0 = (Next tt, fs0)) as Hprint
      by (intros lines fs0; apply print_all_accepted; auto).
    unfold add_query_main, sbind, path_exists, load, dump, call, skip, sys_exit_1.
    split; [|split].
    + intros Hd. repeat first [rewrite Hprint | rewrite Hd]. reflexivity.
    + intros x Hd. repeat first [rewrite Hprint | rewrite Hd]. reflexivity.
    + intros d Hd. repeat first [rewrite Hprint | rewrite Hd].
      destruct (add_query_performance_panels d) as [d1|].
      * rewrite !Hprint. do 2 eexists. split; [reflexivity|]. split; [|split; [|split]].
        -- rewrite write_other by exact Hne. apply write_same.
        -- intros p H1 H2. now rewrite !write_other.
        -- discriminate.
        -- intros d' H. injection H as <-. split; [reflexivity|apply write_same].
      * do 2 eexists. split; [reflexivity|]. split; [|split; [|split]].
        -- apply write_same.
        -- intros p H1 H2. now rewrite write_other.
        -- intros _. split; [reflexivity|]. rewrite write_other by congruence. exact Hd.
        -- discriminate.
  - intros line x Hin Hout Hd.
    unfold add_query_main, sbind, path_exists, skip.
    destruct (print_all_cases out banner fs) as [-> | ->]; [|reflexivity].
    destruct (fs DASHBOARD_PATH) as [|load0]; [contradiction|].
    destruct Hin as [<- | []]. cbn [msg_backup print_all]. rewrite Hout. reflexivity.
Qed.

End DashboardFilesMore.
